(** * Adaptive batch scheduling: a shallow embedding of the Python sources

    The development follows the repository file by file:

    - [Py]               the few Python built-ins the code relies on
                         ([round], [sum], [len], [x or d]);
    - [Eff]              the effects of the program: exceptions, the clock,
                         [print], [time.sleep], [random.random] and the
                         statements sent to the PostgreSQL store, as a
                         monad over a world, with its weakest preconditions;
    - [db_glue]          [db_glue.py] and the SQL of the other modules;
    - [batch_processor]  [batch_processor.py];
    - [ml_model]         [ml_model.py] (loading and prediction);
    - [worker]           [worker.py];
    - [optimized_worker] [optimized_worker.py].

    Python floats are idealised as exact rationals ([Q]); every amount of
    money, volume and duration below is such a rational.  Rounding is the
    round-half-even of Python 3.  The loop of a worker is run for a bounded
    number of iterations ([fuel]), by the thread that owns it. *)

From Stdlib Require Import ZArith QArith Qround Qabs List String Bool Lia Lqa
  Permutation.
From Stdlib Require Import Sorted.
Import ListNotations.

Local Open Scope Z_scope.

(* ===================================================================== *)
(** * Python built-ins *)
(* ===================================================================== *)

Module Py.

(** [round(x)]: nearest integer, ties to the even one. *)
Definition round_half_even (x : Q) : Z :=
  let f := Qfloor x in
  match Qcompare (x - inject_Z f) (1 # 2) with
  | Lt => f
  | Gt => f + 1
  | Eq => if Z.even f then f else f + 1
  end.

(** [round(x, ndigits)] for [ndigits >= 0]. *)
Definition round_ndigits (x : Q) (ndigits : nat) : Q :=
  let scale := Z.pow 10 (Z.of_nat ndigits) in
  Qmake (round_half_even (x * inject_Z scale)) (Z.to_pos scale).

(** [x or d] on an optional number: [None] and [0] are both falsy. *)
Definition or_default (x : option Q) (d : Q) : Q :=
  match x with
  | Some v => if Qeq_bool v 0 then d else v
  | None => d
  end.

(** [sum(...)] of a generator of floats: a left fold from [0]. *)
Definition sum (xs : list Q) : Q := fold_left Qplus xs 0%Q.

(** [len(...)]. *)
Definition len {A} (xs : list A) : Z := Z.of_nat (List.length xs).

End Py.

(* ===================================================================== *)
(** * The store: the three tables the queries mention *)
(* ===================================================================== *)

(** A row of [events], with the columns named in [insert_event] and in
    the [UPDATE] of [mark_events_as_processed]. *)
Record event : Type := mkEvent {
  ev_id : Z;
  ev_event_id : string;
  ev_timestamp : Z;
  ev_event_type : string;
  ev_data_size_kb : Q;
  ev_priority : string;
  ev_processed : bool;
  ev_batch_id : option Z
}.

(** A row of [batches]. *)
Record batch : Type := mkBatch {
  b_id : Z;
  b_batch_size : Z;
  b_total_data_size_kb : Q;
  b_started_at : Q;
  b_status : string;
  b_processing_time_seconds : option Q;
  b_processing_cost : option Q;
  b_completed_at : option Q
}.

(** A row of [cost_metrics]. *)
Record cost_metric : Type := mkCostMetric {
  cm_batch_id : Z;
  cm_batch_size : Z;
  cm_total_data_kb : Q;
  cm_processing_time_seconds : Q;
  cm_cost_per_event : Q;
  cm_timestamp : Q
}.

(** Modelled from the spec: [schema.sql] is not among the sources.  The
    tables carry the columns the queries read and write; "create a Batch
    record ...; obtain its identity" is a serial key, kept here as the
    next value [batches_id_seq] of its sequence. *)
Record database : Type := mkDatabase {
  events : list event;
  batches : list batch;
  cost_metrics : list cost_metric;
  batches_id_seq : Z
}.

Definition set_events (es : list event) (d : database) : database :=
  mkDatabase es (batches d) (cost_metrics d) (batches_id_seq d).

Definition set_batches (bs : list batch) (d : database) : database :=
  mkDatabase (events d) bs (cost_metrics d) (batches_id_seq d).

(* ===================================================================== *)
(** * Effects *)
(* ===================================================================== *)

Module Eff.

(** The exceptions that occur in the modelled code.  The first two derive
    from [BaseException] only; the others from [Exception]. *)
Inductive exn : Type :=
| KeyboardInterrupt
| SystemExit
| DatabaseError
| ZeroDivisionError
| ValueError
| NameError.

(** [isinstance(e, Exception)]. *)
Definition is_Exception (e : exn) : bool :=
  match e with
  | KeyboardInterrupt | SystemExit => false
  | _ => true
  end.

(** What may strike while a statement runs against the store. *)
Inductive fault : Type :=
| StoreFails
| Interrupted
| Exits.

Definition exn_of_fault (f : fault) : exn :=
  match f with
  | StoreFails => DatabaseError
  | Interrupted => KeyboardInterrupt
  | Exits => SystemExit
  end.

(** One constructor per [print] call of the sources, with the values the
    format string interpolates. *)
Inductive log_line : Type :=
| Rule
| DatabaseConfig
(* batch_processor.py *)
| ProcessorInitialized (batch_size : Z)
| Fetched (n : Z)
| NoUnprocessedEventFound
| Processing (batch_size : Z) (total_data_kb : Q)
| BatchCost (total_cost cost_per_event : Q)
| CreatedBatchRecord (batch_id : Z)
| Marked (rows_updated : Z)
| UpdatedBatch (batch_id : Z)
| DebugSavingCost (batch_id : Z)
| SavedCostMetrics
| NoEventsToProcess
| BatchMetrics (batch_size : Z) (total_data_kb : Q)
| BatchCompleted (batch_id : Z)
| ProcessedEvents (n : Z)
| TimeTaken (t : Q)
| CostOf (c : Q)
(* ml_model.py *)
| OptimizerInitialized
| ModelNotTrained
| ModelFileNotFound
| ModelLoaded
| ErrorLoadingModel
(* worker.py and optimized_worker.py *)
| WorkerInitialized
| WorkerBatchSize (batch_size : Z)
| CheckInterval (interval_seconds : Z)
| MlModelLoaded
| NoMlModel
| WorkerStartedAt (t : Q)
| WorkerStatsHeader
| TotalBatches (n : Z)
| TotalEvents (n : Z)
| TotalCost (c : Q)
| MlPredictions (n : Z)
| MlPrediction (predicted_size unprocessed_count : Z) (total_data_kb : Q)
| NoEventsWaiting (interval_seconds : Z)
| Interrupted_by_user
| ErrorInWorkerLoop (e : exn)
| RetryingIn (interval_seconds : Z)
| WorkerStoppedAt (t : Q)
| AlreadyRunning
| ThreadStarted
| NotRunning
| Stopping
| Stopped.

(** The state a run threads.  [self] is the object whose methods run (the
    worker); it sits in the state because its mutations survive an
    exception.  [faults] decides the fate of each coming statement against
    the store ([None]: it succeeds); [others] is what the other clients of
    the [events] table commit while this thread sleeps; [entropy] feeds
    [random.random()]. *)
Record world (S : Type) : Type := mkWorld {
  self : S;
  db : database;
  clock : Q;
  stdout : list log_line;
  slept : list Q;
  faults : list (option fault);
  others : list (list event -> list event);
  entropy : nat -> Q;
  drawn : nat
}.

Arguments mkWorld {S}.
Arguments self {S}.
Arguments db {S}.
Arguments clock {S}.
Arguments stdout {S}.
Arguments slept {S}.
Arguments faults {S}.
Arguments others {S}.
Arguments entropy {S}.
Arguments drawn {S}.

Inductive outcome (A : Type) : Type :=
| Ok (a : A)
| Raise (e : exn).

Arguments Ok {A}.
Arguments Raise {A}.

(** A computation: runs in a world, returns or raises, leaves a world. *)
Definition M (S A : Type) : Type := world S -> outcome A * world S.

Section Monad.
Context {S : Type}.

(** ** Updates of the world *)

Definition set_self (s : S) (w : world S) : world S :=
  mkWorld s (db w) (clock w) (stdout w) (slept w) (faults w) (others w)
          (entropy w) (drawn w).

Definition set_db (d : database) (w : world S) : world S :=
  mkWorld (self w) d (clock w) (stdout w) (slept w) (faults w) (others w)
          (entropy w) (drawn w).

(** A line more on the standard output. *)
Definition log (l : log_line) (w : world S) : world S :=
  mkWorld (self w) (db w) (clock w) (stdout w ++ [l]) (slept w) (faults w)
          (others w) (entropy w) (drawn w).

(** A number has been drawn. *)
Definition draw (w : world S) : world S :=
  mkWorld (self w) (db w) (clock w) (stdout w) (slept w) (faults w)
          (others w) (entropy w) (Datatypes.S (drawn w)).

(** A statement has been sent to the store. *)
Definition struck (w : world S) : world S :=
  mkWorld (self w) (db w) (clock w) (stdout w) (slept w) (tl (faults w))
          (others w) (entropy w) (drawn w).

(** The thread has slept [secs] seconds, and the other clients of the
    store have had their turn. *)
Definition turn_of_others (w : world S) : list event :=
  match others w with
  | [] => events (db w)
  | f :: _ => f (events (db w))
  end.

Definition asleep (secs : Q) (w : world S) : world S :=
  mkWorld (self w) (set_events (turn_of_others w) (db w))
          (clock w + secs) (stdout w) (slept w ++ [secs]) (faults w)
          (tl (others w)) (entropy w) (drawn w).

(** ** The monad *)

Definition ret {A} (a : A) : M S A := fun w => (Ok a, w).

Definition bind {A B} (m : M S A) (k : A -> M S B) : M S B :=
  fun w =>
    match m w with
    | (Ok a, w') => k a w'
    | (Raise e, w') => (Raise e, w')
    end.

Definition raise {A} (e : exn) : M S A := fun w => (Raise e, w).

(** [try: body / except ...: handler]; [handler e = None] when no
    clause matches [e]. *)
Definition try_except {A} (body : M S A)
    (handler : exn -> option (M S A)) : M S A :=
  fun w =>
    match body w with
    | (Ok a, w') => (Ok a, w')
    | (Raise e, w') =>
        match handler e with
        | Some h => h w'
        | None => (Raise e, w')
        end
    end.

(** ** The primitives *)

Definition get_self : M S S := fun w => (Ok (self w), w).

Definition modify_self (f : S -> S) : M S unit :=
  fun w => (Ok tt, set_self (f (self w)) w).

(** [print(...)]. *)
Definition print (l : log_line) : M S unit := fun w => (Ok tt, log l w).

(** [datetime.now()], in seconds. *)
Definition now : M S Q := fun w => (Ok (clock w), w).

(** [random.random()]. *)
Definition random : M S Q :=
  fun w => (Ok (entropy w (drawn w)), draw w).

(** [time.sleep(secs)]: a negative length is a [ValueError]. *)
Definition time_sleep (secs : Q) : M S unit :=
  fun w =>
    if Qlt_le_dec secs 0 then (Raise ValueError, w)
    else (Ok tt, asleep secs w).

(** One statement run through [Database.get_connection]: it either
    fails, leaving the tables as they were (the connection rolls back),
    or runs [q] and commits.  [q] itself may fail (an SQL error). *)
Definition statement {A} (q : database -> outcome A * database)
    : M S A :=
  fun w =>
    match hd None (faults w) with
    | Some f => (Raise (exn_of_fault f), struck w)
    | None =>
        match q (db w) with
        | (Ok a, d) => (Ok a, set_db d (struck w))
        | (Raise e, _) => (Raise e, struck w)
        end
    end.

(** [a / b] on floats. *)
Definition truediv (a b : Q) : M S Q :=
  if Qeq_bool b 0 then raise ZeroDivisionError else ret (a / b)%Q.

(** ** Weakest preconditions

    [wp m Q E w]: run in [w], [m] either returns a value and a world that
    satisfy [Q], or raises an exception in a world that satisfy [E]. *)
Definition wp {A} (m : M S A) (Q : A -> world S -> Prop)
    (E : exn -> world S -> Prop) (w : world S) : Prop :=
  match m w with
  | (Ok a, w') => Q a w'
  | (Raise e, w') => E e w'
  end.

End Monad.

Declare Scope eff_scope.
Delimit Scope eff_scope with eff.
Notation "x <- m ;; k" := (bind m (fun x => k))
  (at level 61, m at next level, right associativity) : eff_scope.
Notation "m ;; k" := (bind m (fun _ => k))
  (at level 61, right associativity) : eff_scope.

End Eff.

Import Eff.
Local Open Scope eff_scope.

(* ===================================================================== *)
(** * db_glue.py and the SQL statements of the other modules *)
(* ===================================================================== *)

Module db_glue.

Definition unprocessed (es : list event) : list event :=
  filter (fun e => negb (ev_processed e)) es.

(** [ORDER BY timestamp ASC], as a stable insertion sort. *)
Fixpoint insert_by_timestamp (e : event) (l : list event) : list event :=
  match l with
  | [] => [e]
  | x :: r =>
      if ev_timestamp e <=? ev_timestamp x then e :: l
      else x :: insert_by_timestamp e r
  end.

Definition order_by_timestamp (l : list event) : list event :=
  fold_right insert_by_timestamp [] l.

(** [SELECT * FROM events WHERE processed = FALSE
     ORDER BY timestamp ASC LIMIT %s]; a negative limit is an error. *)
Definition select_unprocessed (limit : Z) (d : database)
    : outcome (list event) * database :=
  if limit <? 0 then (Raise DatabaseError, d)
  else (Ok (firstn (Z.to_nat limit)
              (order_by_timestamp (unprocessed (events d)))), d).

(** [SELECT COUNT( * ) as count FROM events WHERE processed = FALSE]. *)
Definition count_unprocessed (d : database) : outcome Z * database :=
  (Ok (Py.len (unprocessed (events d))), d).

Definition completed (b : batch) : bool :=
  String.eqb (b_status b) "completed".

(** The row of greatest [id] among [bs] ([ORDER BY id DESC LIMIT 1]). *)
Fixpoint greatest_id (bs : list batch) : option batch :=
  match bs with
  | [] => None
  | b :: r =>
      match greatest_id r with
      | Some b' => if b_id b' <=? b_id b then Some b else Some b'
      | None => Some b
      end
  end.

(** [SELECT processing_time_seconds,
     total_data_size_kb / batch_size as avg_data_per_event
     FROM batches WHERE status = 'completed' ORDER BY id DESC LIMIT 1]:
    no row, or the two columns of the row; the division of the select
    list fails on a row whose [batch_size] is [0]. *)
Definition select_recent_batch (d : database)
    : outcome (option (option Q * Q)) * database :=
  match greatest_id (filter completed (batches d)) with
  | None => (Ok None, d)
  | Some b =>
      if b_batch_size b =? 0 then (Raise DatabaseError, d)
      else (Ok (Some (b_processing_time_seconds b,
                      (b_total_data_size_kb b / inject_Z (b_batch_size b))%Q)),
            d)
  end.

(** [SELECT SUM(data_size_kb) as total_data_kb,
     AVG(data_size_kb) as avg_data_kb FROM events
     WHERE processed = FALSE LIMIT 200]: one row, both columns [NULL]
    over no event (the [LIMIT] bounds the rows of the result, of which
    there is one). *)
Definition select_unprocessed_stats (d : database)
    : outcome (option Q * option Q) * database :=
  match unprocessed (events d) with
  | [] => (Ok (None, None), d)
  | es =>
      let total := Py.sum (map ev_data_size_kb es) in
      (Ok (Some total, Some (total / inject_Z (Py.len es))%Q), d)
  end.

(** [INSERT INTO batches (batch_size, total_data_size_kb, started_at,
     status) VALUES (...) RETURNING id]. *)
Definition insert_batch (batch_size : Z) (total_data_kb started_at : Q)
    (status : string) (d : database) : outcome Z * database :=
  let id := batches_id_seq d in
  (Ok id,
   mkDatabase (events d)
     (batches d ++
        [mkBatch id batch_size total_data_kb started_at status
                 None None None])
     (cost_metrics d) (id + 1)).

Definition id_in (ids : list Z) (e : event) : bool :=
  existsb (Z.eqb (ev_id e)) ids.

Definition mark_row (batch_id : Z) (ids : list Z) (e : event) : event :=
  if id_in ids e then
    mkEvent (ev_id e) (ev_event_id e) (ev_timestamp e) (ev_event_type e)
            (ev_data_size_kb e) (ev_priority e) true (Some batch_id)
  else e.

(** [UPDATE events SET processed = TRUE, batch_id = %s WHERE id IN %s],
    returning the row count.  An empty tuple renders as [IN ()], which
    the server rejects. *)
Definition update_events_processed (batch_id : Z) (ids : list Z)
    (d : database) : outcome Z * database :=
  match ids with
  | [] => (Raise DatabaseError, d)
  | _ =>
      (Ok (Py.len (filter (id_in ids) (events d))),
       set_events (map (mark_row batch_id ids) (events d)) d)
  end.

Definition finalize_row (batch_id : Z) (processing_time cost t : Q)
    (status : string) (b : batch) : batch :=
  if b_id b =? batch_id then
    mkBatch (b_id b) (b_batch_size b) (b_total_data_size_kb b)
            (b_started_at b) status (Some processing_time) (Some cost)
            (Some t)
  else b.

(** [UPDATE batches SET processing_time_seconds = %s, processing_cost = %s,
     completed_at = %s, status = %s WHERE id = %s], returning the row
    count. *)
Definition update_batch (processing_time cost t : Q) (status : string)
    (batch_id : Z) (d : database) : outcome Z * database :=
  (Ok (Py.len (filter (fun b => b_id b =? batch_id) (batches d))),
   set_batches
     (map (finalize_row batch_id processing_time cost t status) (batches d))
     d).

(** [INSERT INTO cost_metrics (...) VALUES (...)], returning the row
    count. *)
Definition insert_cost_metric (m : cost_metric) (d : database)
    : outcome Z * database :=
  (Ok 1,
   mkDatabase (events d) (batches d) (cost_metrics d ++ [m])
              (batches_id_seq d)).

Section Database.
Context {S : Type}.

(** [Database()]: reads the connection settings and prints them. *)
Definition Database : M S unit := print DatabaseConfig.

(** [Database.get_unprocessed_events]. *)
Definition get_unprocessed_events (limit : Z) : M S (list event) :=
  statement (select_unprocessed limit).

End Database.

End db_glue.

(* ===================================================================== *)
(** * batch_processor.py *)
(* ===================================================================== *)

Module batch_processor.

Record BatchProcessor : Type := mkBatchProcessor {
  batch_size : Z;
  FIXED_COST : Q;
  VARIABLE_COST_PER_EVENT : Q;
  PROCESSING_SPEED : Q
}.

(** The dict built by [calculate_batch_metrics]. *)
Record metrics : Type := mkMetrics {
  m_batch_size : Z;
  m_total_data_kb : Q;
  m_event_types : list (string * Z);
  m_avg_data_per_event : Q
}.

(** The dict returned by [process_batch]. *)
Record batch_result : Type := mkResult {
  r_batch_id : Z;
  r_events_processed : Z;
  r_total_data_kb : Q;
  r_processing_time : Q;
  r_cost : Q;
  r_cost_per_event : Q
}.

(** [d.get(k, default)] and [d[k] = v] on a dict kept in insertion
    order. *)
Fixpoint dict_get (k : string) (d : list (string * Z)) (default : Z) : Z :=
  match d with
  | [] => default
  | (k', v) :: r => if String.eqb k k' then v else dict_get k r default
  end.

Fixpoint dict_set (k : string) (v : Z) (d : list (string * Z))
    : list (string * Z) :=
  match d with
  | [] => [(k, v)]
  | (k', v') :: r =>
      if String.eqb k k' then (k, v) :: r else (k', v') :: dict_set k v r
  end.

Section Methods.
Context {S : Type}.

Definition init (batch_size : Z) : M S BatchProcessor :=
  db_glue.Database ;;
  print (ProcessorInitialized batch_size) ;;
  ret (mkBatchProcessor batch_size (10 # 100) (5 # 1000) (2 # 100)).

Definition fetch_unprocessed_events (self : BatchProcessor)
    (limit : option Z) : M S (list event) :=
  let limit := match limit with
               | None => batch_size self
               | Some l => l
               end in
  events <- db_glue.get_unprocessed_events limit ;;
  match events with
  | _ :: _ => print (Fetched (Py.len events))
  | [] => print NoUnprocessedEventFound
  end ;;
  ret events.

Definition calculate_batch_metrics (self : BatchProcessor)
    (events : list event) : M S metrics :=
  let total_data_kb := Py.sum (map ev_data_size_kb events) in
  let event_types :=
    fold_left
      (fun types event =>
         let event_type := ev_event_type event in
         dict_set event_type (dict_get event_type types 0 + 1) types)
      events [] in
  avg <- match events with
         | _ :: _ =>
             q <- truediv total_data_kb (inject_Z (Py.len events)) ;;
             ret (Py.round_ndigits q 2)
         | [] => ret 0%Q
         end ;;
  ret (mkMetrics (Py.len events) (Py.round_ndigits total_data_kb 2)
                 event_types avg).

(** [random.uniform(a, b)] is [a + (b - a) * random()]. *)
Definition random_uniform (a b : Q) : M S Q :=
  u <- random ;; ret (a + (b - a) * u)%Q.

Definition simulate_processing (self : BatchProcessor)
    (total_data_kb : Q) (batch_size : Z) : M S Q :=
  let base_time := (total_data_kb * PROCESSING_SPEED self)%Q in
  randomness <- random_uniform (8 # 10) (12 # 10) ;;
  let processing_time := (base_time * randomness)%Q in
  let processing_time := (processing_time + (5 # 10))%Q in
  print (Processing batch_size total_data_kb) ;;
  time_sleep processing_time ;;
  ret (Py.round_ndigits processing_time 2).

Definition calculate_cost (self : BatchProcessor) (batch_size : Z)
    (processing_time : Q) : M S Q :=
  let fixed_cost := FIXED_COST self in
  let variable_cost :=
    (VARIABLE_COST_PER_EVENT self * inject_Z batch_size)%Q in
  let total_cost := (fixed_cost + variable_cost)%Q in
  cost_per_event <- (if 0 <? batch_size
                     then truediv total_cost (inject_Z batch_size)
                     else ret 0%Q) ;;
  print (BatchCost total_cost cost_per_event) ;;
  ret (Py.round_ndigits total_cost 4).

Definition create_batch_record (self : BatchProcessor) (batch_size : Z)
    (total_data_kb : Q) : M S Z :=
  t <- now ;;
  batch_id <- statement
    (db_glue.insert_batch batch_size total_data_kb t "processing") ;;
  print (CreatedBatchRecord batch_id) ;;
  ret batch_id.

Definition mark_events_as_processed (self : BatchProcessor)
    (event_ids : list Z) (batch_id : Z) : M S unit :=
  rows_updated <- statement
    (db_glue.update_events_processed batch_id event_ids) ;;
  print (Marked rows_updated).

Definition update_batch_record (self : BatchProcessor) (batch_id : Z)
    (processing_time cost : Q) : M S unit :=
  t <- now ;;
  statement
    (db_glue.update_batch processing_time cost t "completed" batch_id) ;;
  print (UpdatedBatch batch_id).

Definition save_cost_metrics (self : BatchProcessor) (batch_id : Z)
    (batch_size : Z) (total_data_kb processing_time cost : Q)
    : M S unit :=
  print (DebugSavingCost batch_id) ;;
  cost_per_event <- (if 0 <? batch_size
                     then truediv cost (inject_Z batch_size)
                     else ret 0%Q) ;;
  t <- now ;;
  statement
    (db_glue.insert_cost_metric
       (mkCostMetric batch_id batch_size total_data_kb processing_time
                     cost_per_event t)) ;;
  print SavedCostMetrics.

Definition process_batch (self : BatchProcessor)
    : M S (option batch_result) :=
  print Rule ;;
  events <- fetch_unprocessed_events self None ;;
  match events with
  | [] => print NoEventsToProcess ;; ret None
  | _ :: _ =>
      metrics <- calculate_batch_metrics self events ;;
      print (BatchMetrics (m_batch_size metrics)
                          (m_total_data_kb metrics)) ;;
      batch_id <- create_batch_record self (m_batch_size metrics)
                    (m_total_data_kb metrics) ;;
      processing_time <- simulate_processing self
                           (m_total_data_kb metrics)
                           (m_batch_size metrics) ;;
      cost <- calculate_cost self (m_batch_size metrics)
                processing_time ;;
      let event_ids := map ev_id events in
      mark_events_as_processed self event_ids batch_id ;;
      update_batch_record self batch_id processing_time cost ;;
      save_cost_metrics self batch_id (m_batch_size metrics)
        (m_total_data_kb metrics) processing_time cost ;;
      cost_per_event <- truediv cost (inject_Z (m_batch_size metrics)) ;;
      let result :=
        mkResult batch_id (m_batch_size metrics)
                 (m_total_data_kb metrics) processing_time cost
                 (Py.round_ndigits cost_per_event 4) in
      print Rule ;;
      print (BatchCompleted batch_id) ;;
      print (ProcessedEvents (r_events_processed result)) ;;
      print (TimeTaken (r_processing_time result)) ;;
      print (CostOf (r_cost result)) ;;
      print Rule ;;
      ret (Some result)
  end.

End Methods.

End batch_processor.

(* ===================================================================== *)
(** * ml_model.py: the predictor as the worker consumes it *)
(* ===================================================================== *)

Module ml_model.

(** The fitted [StandardScaler] and [RandomForestRegressor] are objects of
    scikit-learn; here they are whatever functions they compute:
    [scaler_transform] on the row of five features, [model_predict] from
    the scaled row to the first (only) prediction. *)
Record BatchOptimizer : Type := mkBatchOptimizer {
  is_trained : bool;
  scaler_transform : list Q -> list Q;
  model_predict : list Q -> Q
}.

(** What [load_model] finds at [model_path] and [scaler_path]. *)
Inductive on_disk : Type :=
| NoModelFile
| Unreadable
| Pickled (scaler : list Q -> list Q) (model : list Q -> Q).

Section Methods.
Context {S : Type}.

(** [BatchOptimizer()]: an unfitted scaler and no model; neither is
    consulted before [is_trained] is set. *)
Definition init : M S BatchOptimizer :=
  db_glue.Database ;;
  print OptimizerInitialized ;;
  ret (mkBatchOptimizer false (fun x => x) (fun _ => 0%Q)).

Definition predict_optimal_batch_size (self : BatchOptimizer)
    (total_data_kb avg_data_per_event : Q) (hour_of_day : Z)
    (last_processing_time last_cost_per_event : Q) : M S Z :=
  if negb (is_trained self) then
    print ModelNotTrained ;; ret 50
  else
    let features :=
      [total_data_kb; avg_data_per_event; inject_Z hour_of_day;
       last_processing_time; last_cost_per_event] in
    let features_scaled := scaler_transform self features in
    let predicted_size := model_predict self features_scaled in
    let predicted_size :=
      Py.round_half_even (predicted_size / 10) * 10 in
    let predicted_size := Z.max 20 (Z.min 200 predicted_size) in
    ret predicted_size.

Definition load_model (self : BatchOptimizer) (files : on_disk)
    : M S (bool * BatchOptimizer) :=
  match files with
  | NoModelFile => print ModelFileNotFound ;; ret (false, self)
  | Unreadable => print ErrorLoadingModel ;; ret (false, self)
  | Pickled scaler model =>
      print ModelLoaded ;;
      ret (true, mkBatchOptimizer true scaler model)
  end.

End Methods.

End ml_model.

(* ===================================================================== *)
(** * worker.py *)
(* ===================================================================== *)

(** What an iteration tells the [while] loop, and how a bounded run of the
    loop ended: [Finished] when the loop was left (flag cleared, or
    [break]), [Unfinished] when the iterations granted were all used. *)
Inductive control : Type := Next | Break.
Inductive loop_status : Type := Finished | Unfinished.

Module worker.
Import batch_processor.

Record stats_dict : Type := mkStats {
  total_batches_processed : Z;
  total_events_processed : Z;
  total_cost : Q;
  started_at : option Q;
  last_batch_at : option Q
}.

(** [thread] numbers the [threading.Thread] objects the worker made: a
    new one differs from every earlier one. *)
Record BackgroundWorker : Type := mkWorker {
  processor : BatchProcessor;
  interval_seconds : Z;
  is_running : bool;
  thread : option nat;
  stats : stats_dict
}.

Definition set_stats (f : stats_dict -> stats_dict) (w : BackgroundWorker)
    : BackgroundWorker :=
  mkWorker (processor w) (interval_seconds w) (is_running w) (thread w)
           (f (stats w)).

Definition set_is_running (b : bool) (w : BackgroundWorker)
    : BackgroundWorker :=
  mkWorker (processor w) (interval_seconds w) b (thread w) (stats w).

Definition set_thread (t : option nat) (w : BackgroundWorker)
    : BackgroundWorker :=
  mkWorker (processor w) (interval_seconds w) (is_running w) t (stats w).

Definition new_thread (t : option nat) : option nat :=
  match t with
  | None => Some O
  | Some n => Some (Datatypes.S n)
  end.

Definition init {S} (batch_size interval_seconds : Z)
    : M S BackgroundWorker :=
  processor <- batch_processor.init batch_size ;;
  print WorkerInitialized ;;
  print (WorkerBatchSize batch_size) ;;
  print (CheckInterval interval_seconds) ;;
  ret (mkWorker processor interval_seconds false None
                (mkStats 0 0 0 None None)).

Local Abbreviation W := (M BackgroundWorker).

(** The statements under [if result:]. *)
Definition record_batch (result : batch_result) : W unit :=
  modify_self (set_stats (fun s =>
    mkStats (total_batches_processed s + 1) (total_events_processed s)
            (total_cost s) (started_at s) (last_batch_at s))) ;;
  modify_self (set_stats (fun s =>
    mkStats (total_batches_processed s)
            (total_events_processed s + r_events_processed result)
            (total_cost s) (started_at s) (last_batch_at s))) ;;
  modify_self (set_stats (fun s =>
    mkStats (total_batches_processed s) (total_events_processed s)
            (total_cost s + r_cost result) (started_at s)
            (last_batch_at s))) ;;
  t <- now ;;
  modify_self (set_stats (fun s =>
    mkStats (total_batches_processed s) (total_events_processed s)
            (total_cost s) (started_at s) (Some t))) ;;
  self <- get_self ;;
  print WorkerStatsHeader ;;
  print (TotalBatches (total_batches_processed (stats self))) ;;
  print (TotalEvents (total_events_processed (stats self))) ;;
  print (TotalCost (total_cost (stats self))).

(** The body of the [try]. *)
Definition attempt : W unit :=
  self <- get_self ;;
  result <- process_batch (processor self) ;;
  match result with
  | Some result => record_batch result
  | None => print (NoEventsWaiting (interval_seconds self))
  end ;;
  time_sleep (inject_Z (interval_seconds self)).

(** The [except] clauses, in order. *)
Definition handler (e : exn) : option (W control) :=
  match e with
  | KeyboardInterrupt => Some (print Interrupted_by_user ;; ret Break)
  | _ =>
      if is_Exception e then
        Some (self <- get_self ;;
              print (ErrorInWorkerLoop e) ;;
              print (RetryingIn (interval_seconds self)) ;;
              time_sleep (inject_Z (interval_seconds self)) ;;
              ret Next)
      else None
  end.

(** One pass through the body of [while self.is_running]. *)
Definition iteration : W control :=
  try_except (attempt ;; ret Next) handler.

Fixpoint while_is_running (fuel : nat) : W loop_status :=
  match fuel with
  | O => ret Unfinished
  | Datatypes.S fuel =>
      self <- get_self ;;
      if is_running self then
        c <- iteration ;;
        match c with
        | Next => while_is_running fuel
        | Break => ret Finished
        end
      else ret Finished
  end.

(** The statements of [_worker_loop] before the [while]. *)
Definition prologue : W unit :=
  print Rule ;;
  t <- now ;;
  print (WorkerStartedAt t) ;;
  print Rule ;;
  t <- now ;;
  modify_self (set_stats (fun s =>
    mkStats (total_batches_processed s) (total_events_processed s)
            (total_cost s) (Some t) (last_batch_at s))).

Definition epilogue : W unit :=
  print Rule ;;
  t <- now ;;
  print (WorkerStoppedAt t) ;;
  print Rule.

(** [_worker_loop], run for at most [fuel] iterations. *)
Definition _worker_loop (fuel : nat) : W loop_status :=
  prologue ;;
  st <- while_is_running fuel ;;
  match st with
  | Finished => epilogue ;; ret Finished
  | Unfinished => ret Unfinished
  end.

(** [start]: the new thread's [_worker_loop] is run by whoever runs the
    model, after [start] returns. *)
Definition start : W unit :=
  self <- get_self ;;
  if is_running self then print AlreadyRunning
  else
    modify_self (set_is_running true) ;;
    modify_self (fun w => set_thread (new_thread (thread w)) w) ;;
    print ThreadStarted.

(** [stop]: [join(timeout=5)] waits for the loop thread and changes
    nothing of the worker. *)
Definition stop : W unit :=
  self <- get_self ;;
  if negb (is_running self) then print NotRunning
  else
    print Stopping ;;
    modify_self (set_is_running false) ;;
    print Stopped.

(** [get_stats]: a copy of the dict and, once [started_at] is set, the
    [runtime_seconds] derived from it. *)
Definition get_stats : W (stats_dict * option Q) :=
  self <- get_self ;;
  let stats := stats self in
  match started_at stats with
  | Some t0 => t <- now ;; ret (stats, Some (t - t0)%Q)
  | None => ret (stats, None)
  end.

End worker.


(* ===================================================================== *)
(** * optimized_worker.py *)
(* ===================================================================== *)

Module optimized_worker.
Import batch_processor ml_model.

Record stats_dict : Type := mkStats {
  total_batches_processed : Z;
  total_events_processed : Z;
  total_cost : Q;
  ml_predictions_used : Z;
  started_at : option Q;
  last_batch_at : option Q
}.

Record SmartBackGroundWorker : Type := mkWorker {
  interval_seconds : Z;
  is_running : bool;
  thread : option nat;
  optimizer : BatchOptimizer;
  ml_enabled : bool;
  stats : stats_dict
}.

Definition set_stats (f : stats_dict -> stats_dict)
    (w : SmartBackGroundWorker) : SmartBackGroundWorker :=
  mkWorker (interval_seconds w) (is_running w) (thread w) (optimizer w)
           (ml_enabled w) (f (stats w)).

Definition set_is_running (b : bool) (w : SmartBackGroundWorker)
    : SmartBackGroundWorker :=
  mkWorker (interval_seconds w) b (thread w) (optimizer w) (ml_enabled w)
           (stats w).

Definition set_thread (t : option nat) (w : SmartBackGroundWorker)
    : SmartBackGroundWorker :=
  mkWorker (interval_seconds w) (is_running w) t (optimizer w)
           (ml_enabled w) (stats w).

Definition init {S} (interval_seconds : Z) (files : on_disk)
    : M S SmartBackGroundWorker :=
  db_glue.Database ;;
  optimizer <- ml_model.init ;;
  loaded <- load_model optimizer files ;;
  let '(ok, optimizer) := loaded in
  (if ok then print MlModelLoaded else print NoMlModel) ;;
  print WorkerInitialized ;;
  print (CheckInterval interval_seconds) ;;
  ret (mkWorker interval_seconds false None optimizer ok
                (mkStats 0 0 0 0 None None)).

Local Abbreviation W := (M SmartBackGroundWorker).

(** [datetime.now().hour] of a clock in seconds. *)
Definition hour_of (t : Q) : Z := (Qfloor t / 3600) mod 24.

Definition get_smart_batch_size : W Z :=
  unprocessed_count <- statement db_glue.count_unprocessed ;;
  if unprocessed_count =? 0 then ret 50
  else
    recent_batch <- statement db_glue.select_recent_batch ;;
    match recent_batch with
    | None => ret 50
    | Some last_batch =>
        unprocessed_stats <- statement db_glue.select_unprocessed_stats ;;
        let total_data_kb := Py.or_default (fst unprocessed_stats) 0 in
        let avg_data_kb := Py.or_default (snd unprocessed_stats) 15 in
        self <- get_self ;;
        t <- now ;;
        predicted_size <-
          predict_optimal_batch_size (optimizer self) total_data_kb
            avg_data_kb (hour_of t) (Py.or_default (fst last_batch) 5)
            (7 # 1000) ;;
        modify_self (set_stats (fun s =>
          mkStats (total_batches_processed s) (total_events_processed s)
                  (total_cost s) (ml_predictions_used s + 1) (started_at s)
                  (last_batch_at s))) ;;
        print (MlPrediction predicted_size unprocessed_count total_data_kb) ;;
        ret predicted_size
    end.

(** The statements under [if result:]. *)
Definition record_batch (result : batch_result) : W unit :=
  modify_self (set_stats (fun s =>
    mkStats (total_batches_processed s + 1) (total_events_processed s)
            (total_cost s) (ml_predictions_used s) (started_at s)
            (last_batch_at s))) ;;
  modify_self (set_stats (fun s =>
    mkStats (total_batches_processed s)
            (total_events_processed s + r_events_processed result)
            (total_cost s) (ml_predictions_used s) (started_at s)
            (last_batch_at s))) ;;
  modify_self (set_stats (fun s =>
    mkStats (total_batches_processed s) (total_events_processed s)
            (total_cost s + r_cost result) (ml_predictions_used s)
            (started_at s) (last_batch_at s))) ;;
  t <- now ;;
  modify_self (set_stats (fun s =>
    mkStats (total_batches_processed s) (total_events_processed s)
            (total_cost s) (ml_predictions_used s) (started_at s)
            (Some t))) ;;
  self <- get_self ;;
  print WorkerStatsHeader ;;
  print (TotalBatches (total_batches_processed (stats self))) ;;
  print (TotalEvents (total_events_processed (stats self))) ;;
  print (TotalCost (total_cost (stats self))) ;;
  print (MlPredictions (ml_predictions_used (stats self))).

(** The body of the [try]. *)
Definition attempt : W unit :=
  batch_size <- get_smart_batch_size ;;
  processor <- batch_processor.init batch_size ;;
  result <- process_batch processor ;;
  self <- get_self ;;
  match result with
  | Some result => record_batch result
  | None => print (NoEventsWaiting (interval_seconds self))
  end ;;
  time_sleep (inject_Z (interval_seconds self)).

(** The [except] clauses, in order.  The first formats a name [e] that no
    statement has bound, which raises before anything is printed. *)
Definition handler (e : exn) : option (W control) :=
  match e with
  | KeyboardInterrupt => Some (raise NameError)
  | _ =>
      if is_Exception e then
        Some (self <- get_self ;;
              print (ErrorInWorkerLoop e) ;;
              print (RetryingIn (interval_seconds self)) ;;
              time_sleep (inject_Z (interval_seconds self)) ;;
              ret Next)
      else None
  end.

(** One pass through the body of [while self.is_running]. *)
Definition iteration : W control :=
  try_except (attempt ;; ret Next) handler.

Fixpoint while_is_running (fuel : nat) : W loop_status :=
  match fuel with
  | O => ret Unfinished
  | Datatypes.S fuel =>
      self <- get_self ;;
      if is_running self then
        c <- iteration ;;
        match c with
        | Next => while_is_running fuel
        | Break => ret Finished
        end
      else ret Finished
  end.

Definition prologue : W unit :=
  print Rule ;;
  t <- now ;;
  print (WorkerStartedAt t) ;;
  print Rule ;;
  t <- now ;;
  modify_self (set_stats (fun s =>
    mkStats (total_batches_processed s) (total_events_processed s)
            (total_cost s) (ml_predictions_used s) (Some t)
            (last_batch_at s))).

Definition epilogue : W unit :=
  print Rule ;;
  t <- now ;;
  print (WorkerStoppedAt t) ;;
  print Rule.

(** [_worker_loop], run for at most [fuel] iterations. *)
Definition _worker_loop (fuel : nat) : W loop_status :=
  prologue ;;
  st <- while_is_running fuel ;;
  match st with
  | Finished => epilogue ;; ret Finished
  | Unfinished => ret Unfinished
  end.

Definition start : W unit :=
  self <- get_self ;;
  if is_running self then print AlreadyRunning
  else
    modify_self (set_is_running true) ;;
    modify_self (fun w => set_thread (worker.new_thread (thread w)) w) ;;
    print ThreadStarted.

Definition stop : W unit :=
  self <- get_self ;;
  if negb (is_running self) then print NotRunning
  else
    print Stopping ;;
    modify_self (set_is_running false) ;;
    print Stopped.

End optimized_worker.


(* ===================================================================== *)
(** * Predicates and scenarios used by the statements below *)
(* ===================================================================== *)

(** No completed batch has [batch_size = 0]: the select list of the
    recent-batch query divides by it. *)
Definition sizes_nonzero (d : database) : bool :=
  forallb (fun b => negb (b_batch_size b =? 0))
          (filter db_glue.completed (batches d)).

(** ** Programs that keep to themselves

    [safe key m]: run in any world, [m] leaves [key] of the worker as it
    was and consumes faults without adding any; and what it raises is an
    [Exception], unless it is the exception of a fault that the world had
    in store. *)
Definition safe {S K A : Type} (key : S -> K) (m : M S A) : Prop :=
  forall w : world S,
    wp m
       (fun _ w' =>
          key (self w') = key (self w) /\ incl (faults w') (faults w))
       (fun e w' =>
          (key (self w') = key (self w) /\ incl (faults w') (faults w)) /\
          (is_Exception e = true \/
           exists f : fault, In (Some f) (faults w) /\ e = exn_of_fault f))
       w.

(** A world in which the store may fail but nothing interrupts the
    thread. *)
Definition only_store_failures {S} (w : world S) : Prop :=
  forall f : fault, In (Some f) (faults w) -> f = StoreFails.

(** ** What a completed [process_batch] has done

    The events [claimed] by a processor in a store, and the values the
    steps of [process_batch] derive from them in a world [w]. *)

Module run.
Import batch_processor.
Section Run.
Context {S : Type} (p : BatchProcessor) (w : world S).

Definition claimed : list event :=
  firstn (Z.to_nat (batch_size p))
         (db_glue.order_by_timestamp (db_glue.unprocessed (events (db w)))).

Definition size : Z := Py.len claimed.

Definition volume : Q :=
  Py.round_ndigits (Py.sum (map ev_data_size_kb claimed)) 2.

(** The identity of the batch opened. *)
Definition id : Z := batches_id_seq (db w).

(** The length of the sleep of [simulate_processing]. *)
Definition duration : Q :=
  (volume * PROCESSING_SPEED p *
     ((8 # 10) + ((12 # 10) - (8 # 10)) * entropy w (drawn w)) + (5 # 10))%Q.

Definition cost : Q :=
  Py.round_ndigits
    (FIXED_COST p + VARIABLE_COST_PER_EVENT p * inject_Z size) 4.

(** The [events] table when the thread wakes up. *)
Definition events_after_sleep : list event := turn_of_others w.

(** The row count of the [UPDATE] of step 6. *)
Definition rows_marked : Z :=
  Py.len (filter (db_glue.id_in (map ev_id claimed)) events_after_sleep).

Definition output : list log_line :=
  [Rule; Fetched size; BatchMetrics size volume; CreatedBatchRecord id;
   Processing size volume;
   BatchCost (FIXED_COST p + VARIABLE_COST_PER_EVENT p * inject_Z size)
             ((FIXED_COST p + VARIABLE_COST_PER_EVENT p * inject_Z size)
              / inject_Z size);
   Marked rows_marked; UpdatedBatch id; DebugSavingCost id;
   SavedCostMetrics; Rule; BatchCompleted id; ProcessedEvents size;
   TimeTaken (Py.round_ndigits duration 2); CostOf cost; Rule].

(** The result and the world left by a [process_batch] that went through
    its nine steps. *)
Definition completes (r : batch_result) (w' : world S) : Prop :=
  claimed <> [] /\
  r = mkResult id size volume (Py.round_ndigits duration 2) cost
               (Py.round_ndigits (cost / inject_Z size) 4) /\
  self w' = self w /\
  stdout w' = stdout w ++ output /\
  slept w' = slept w ++ [duration] /\
  clock w' = (clock w + duration)%Q /\
  events (db w') =
    map (db_glue.mark_row id (map ev_id claimed)) events_after_sleep /\
  batches (db w') =
    map (db_glue.finalize_row id (Py.round_ndigits duration 2) cost
           (clock w + duration) "completed")
        (batches (db w) ++
         [mkBatch id size volume (clock w) "processing" None None None]) /\
  cost_metrics (db w') =
    cost_metrics (db w) ++
    [mkCostMetric id size volume (Py.round_ndigits duration 2)
                  (cost / inject_Z size) (clock w + duration)] /\
  batches_id_seq (db w') = id + 1.

(** The result and the world left by a [process_batch] that found
    nothing to claim. *)
Definition idles (w' : world S) : Prop :=
  claimed = [] /\
  self w' = self w /\
  db w' = db w /\
  stdout w' = stdout w ++ [Rule; NoUnprocessedEventFound; NoEventsToProcess].

End Run.
End run.

(** Every batch identity of the table is below the next value of the
    sequence, as a serial key has it. *)
Definition ids_below_seq (d : database) : bool :=
  forallb (fun b => b_id b <? batches_id_seq d) (batches d).

(** ** Concrete stores and workers *)

Module scenario.
Import batch_processor ml_model.

(** A pending event of [kb] KB, numbered [i] and arrived at time [i]. *)
Definition pending (i : Z) (kb : Q) : event :=
  mkEvent i "evt" i "order" kb "low" false None.

(** A world in which nothing fails, nobody else writes, and
    [random.random()] yields [0.5]. *)
Definition quiet {S} (me : S) (d : database) : world S :=
  mkWorld me d 0 [] [] [] [] (fun _ => 1 # 2) O.

(** [SmartBackGroundWorker(interval_seconds=10)] with no model on disk,
    once started. *)
Definition cold_worker : optimized_worker.SmartBackGroundWorker :=
  optimized_worker.mkWorker 10 true (Some O)
    (mkBatchOptimizer false (fun x => x) (fun _ => 0%Q)) false
    (optimized_worker.mkStats 0 0 0 0 None None).

(** [BackgroundWorker(batch_size=50, interval_seconds=30)], started. *)
Definition plain_worker : worker.BackgroundWorker :=
  worker.mkWorker (mkBatchProcessor 50 (10 # 100) (5 # 1000) (2 # 100)) 30
    true (Some O) (worker.mkStats 0 0 0 None None).

(** 23 pending events of 20 KB each: 460 KB. *)
Definition twenty_three : list event :=
  map (fun i => pending (Z.of_nat i) 20) (seq 1 23).

Definition store23 : database := mkDatabase twenty_three [] [] 1.

(** One event pending and one batch completed earlier. *)
Definition earlier_batch : batch :=
  mkBatch 1 2 40 0 "completed" (Some (13 # 10)) (Some (11 # 100)) (Some 2%Q).

Definition store_with_history : database :=
  mkDatabase [pending 3 20] [earlier_batch] [] 2.

(** Nothing pending. *)
Definition store_drained : database :=
  mkDatabase
    [mkEvent 1 "evt" 1 "order" 20 "low" true (Some 1)] [earlier_batch] [] 2.

(** Two events pending. *)
Definition store_pair : database :=
  mkDatabase [pending 1 20; pending 2 20] [] [] 1.



(** A world whose next statement is struck by [f]. *)
Definition struck_by {S} (f : fault) (me : S) (d : database) : world S :=
  mkWorld me d 0 [] [] [Some f] [] (fun _ => 1 # 2) O.


(** What the scenario of 23 pending events promises of the result [r] and
    of the world [w'] that [process_batch] leaves, started in [w]: one more
    batch, the one returned, of 23 events and completed; a cost of [0.215];
    every row of [events] kept, none left pending, and those that were
    pending attributed to the new batch. *)
Definition batch_of_23 {S} (w : world S) (r : batch_result) (w' : world S)
    : Prop :=
  r_events_processed r = 23 /\
  r_cost r = Py.round_ndigits ((10 # 100) + (5 # 1000) * inject_Z 23) 4 /\
  (r_cost r == 215 # 1000)%Q /\
  r_batch_id r = batches_id_seq (db w) /\
  (exists b : batch,
      batches (db w') = batches (db w) ++ [b] /\
      b_id b = r_batch_id r /\
      b_batch_size b = 23 /\
      (b_total_data_size_kb b == 460)%Q /\
      b_status b = "completed"%string /\
      b_processing_cost b = Some (r_cost r)) /\
  Forall2
    (fun e e' =>
       ev_id e' = ev_id e /\
       ev_processed e' = true /\
       (ev_processed e = false -> ev_batch_id e' = Some (r_batch_id r)))
    (events (db w)) (events (db w')).

End scenario.


(* ===================================================================== *)
(** * More of the sources, and the predicates of their properties *)
(* ===================================================================== *)

(** ** db_glue.py: the producer's side *)

Module db_glue_insert.

(** The dict handed to [insert_event]. *)
Record event_data : Type := mkEventData {
  d_event_id : string;
  d_timestamp : Z;
  d_event_type : string;
  d_data_size_kb : Q;
  d_priority : string
}.

(** Modelled from the spec: [schema.sql] is not among the sources.  The
    key [id] of [events] is serial, here the greatest key of the table
    plus one; a row is created unprocessed and owned by no batch ("a
    processed flag, an optional owning-batch reference ... mutated exactly
    once, from unprocessed to processed"). *)
Definition next_id (es : list event) : Z :=
  fold_right Z.max 0 (map ev_id es) + 1.

Definition known (event_id : string) (es : list event) : bool :=
  existsb (fun e => String.eqb (ev_event_id e) event_id) es.

(** [INSERT INTO events (...) VALUES (...)
     ON CONFLICT (event_id) DO NOTHING RETURNING id]: the row returned,
    none on a conflict. *)
Definition insert_row (x : event_data) (d : database)
    : outcome (option Z) * database :=
  if known (d_event_id x) (events d) then (Ok None, d)
  else
    let id := next_id (events d) in
    (Ok (Some id),
     set_events
       (events d ++
        [mkEvent id (d_event_id x) (d_timestamp x) (d_event_type x)
                 (d_data_size_kb x) (d_priority x) false None])
       d).

(** [Database.insert_event]: [result[0] if result else None]. *)
Definition insert_event {S} (x : event_data) : M S (option Z) :=
  result <- statement (insert_row x) ;;
  match result with
  | Some id => ret (Some id)
  | None => ret None
  end.

End db_glue_insert.

(** ** Calls of [start] and [stop], in sequence, beside the loop thread

    [start] hands [_worker_loop] to a new thread, which runs beside the
    caller from [self.thread.start()] on; [stop] clears the flag and waits
    for that thread in [self.thread.join(timeout=5)], for five seconds at
    most.  What the loop threads, the clock and the other clients of the
    store have done to the world by the time the caller goes on is
    [meanwhile]; it is applied where the caller lets the threads run: at
    [self.thread.start()], in the [join], and between two calls. *)

Module lifecycle.
Import worker.

Inductive call : Type := Start | Stop.

Definition flag_of (c : call) : bool :=
  match c with
  | Start => true
  | Stop => false
  end.

(** The flag after the calls [cs], from the flag [b]. *)
Definition flag_after (b : bool) (cs : list call) : bool :=
  match rev cs with
  | [] => b
  | Start :: _ => true
  | Stop :: _ => false
  end.

(** The number of threads that the calls [cs] create, from the flag
    [b]. *)
Fixpoint threads_started (b : bool) (cs : list call) : nat :=
  match cs with
  | [] => O
  | Start :: cs => (if b then O else 1%nat) + threads_started true cs
  | Stop :: cs => threads_started false cs
  end.

(** What of the worker the loop never assigns. *)
Definition frame (s : BackgroundWorker)
    : batch_processor.BatchProcessor * Z * bool * option nat :=
  (processor s, interval_seconds s, is_running s, thread s).

Section Threads.
Variable meanwhile : world BackgroundWorker -> world BackgroundWorker.

(** The caller lets the other threads run. *)
Definition elapse : M BackgroundWorker unit :=
  fun w => (Ok tt, meanwhile w).

Definition start : M BackgroundWorker unit :=
  self <- get_self ;;
  if is_running self then print AlreadyRunning
  else
    modify_self (set_is_running true) ;;
    modify_self (fun w => set_thread (new_thread (thread w)) w) ;;
    elapse ;;
    print ThreadStarted.

Definition stop : M BackgroundWorker unit :=
  self <- get_self ;;
  if negb (is_running self) then print NotRunning
  else
    print Stopping ;;
    modify_self (set_is_running false) ;;
    self <- get_self ;;
    match thread self with
    | Some _ => elapse
    | None => ret tt
    end ;;
    print Stopped.

Definition call_of (c : call) : M BackgroundWorker unit :=
  match c with
  | Start => start
  | Stop => stop
  end.

Fixpoint calls (cs : list call) : M BackgroundWorker unit :=
  match cs with
  | [] => ret tt
  | c :: cs => elapse ;; call_of c ;; calls cs
  end.

End Threads.

End lifecycle.

(** ** Predicates on stores and worlds *)

Module store.

(** [a] is not younger than [b]. *)
Definition older (a b : event) : Prop := ev_timestamp a <= ev_timestamp b.

Definition pending (d : database) : list event :=
  db_glue.unprocessed (events d).

(** The primary key of [events]. *)
Definition unique_ids (d : database) : Prop := NoDup (map ev_id (events d)).

(** The unique constraint on [event_id]. *)
Definition unique_event_ids (d : database) : Prop :=
  NoDup (map ev_event_id (events d)).

Definition sizes_nonneg (d : database) : Prop :=
  Forall (fun e => (0 <= ev_data_size_kb e)%Q) (events d).

(** The number of events of type [t] among [es]. *)
Definition count_type (t : string) (es : list event) : Z :=
  Py.len (filter (fun e => String.eqb (ev_event_type e) t) es).

(** A world in which the store answers, nobody else writes to it, and
    [random.random()] yields numbers of [[0, 1)]. *)
Definition calm {S} (w : world S) : Prop :=
  faults w = [] /\ others w = [] /\
  forall n : nat, (0 <= entropy w n < 1)%Q.

End store.

(** ** Programs that leave the environment alone

    [steady m]: [m] does not touch the source of random numbers, and only
    consumes the faults and the turns of the other clients that the world
    had in store. *)
Definition steady {S A : Type} (m : M S A) : Prop :=
  forall w : world S,
    entropy (snd (m w)) = entropy w /\
    incl (others (snd (m w))) (others w) /\
    incl (faults (snd (m w))) (faults w).

(** A [BackgroundWorker] whose loop can run undisturbed: a calm world, a
    table of distinct keys and of sizes that are not negative, a
    processor and an interval that the constructors accept. *)
Definition undisturbed (w : world worker.BackgroundWorker) : Prop :=
  store.calm w /\
  store.sizes_nonneg (db w) /\
  store.unique_ids (db w) /\
  0 <= batch_processor.batch_size (worker.processor (self w)) /\
  (0 <= batch_processor.PROCESSING_SPEED (worker.processor (self w)))%Q /\
  0 <= worker.interval_seconds (self w).

(** The number of events one batch takes from [pending] events. *)
Definition batch_of (w : world worker.BackgroundWorker) : Z :=
  Z.min (batch_processor.batch_size (worker.processor (self w)))
        (Py.len (store.pending (db w))).

(** ** What a [process_batch] cut short leaves in the store

    [process_batch] runs five statements, each in a transaction of its
    own: the query of step 1, the [INSERT] of step 3, the [UPDATE]s of
    steps 6 and 7, the [INSERT] of step 8.  [interrupted_at k p w w']: the
    tables of [w'] are those that the first [k] statements of a batch
    started in [w] have written. *)
Definition interrupted_at {S} (k : nat) (p : batch_processor.BatchProcessor)
    (w w' : world S) : Prop :=
  let opened :=
    batches (db w) ++
    [mkBatch (run.id w) (run.size p w) (run.volume p w) (clock w)
             "processing" None None None] in
  let marked :=
    map (db_glue.mark_row (run.id w) (map ev_id (run.claimed p w)))
        (run.events_after_sleep w) in
  cost_metrics (db w') = cost_metrics (db w) /\
  match k with
  | 0%nat | 1%nat => db w' = db w
  | 2%nat =>
      events (db w') = run.events_after_sleep w /\
      batches (db w') = opened
  | 3%nat =>
      events (db w') = marked /\
      batches (db w') = opened
  | _ =>
      events (db w') = marked /\
      batches (db w') =
        map (db_glue.finalize_row (run.id w)
               (Py.round_ndigits (run.duration p w) 2) (run.cost p w)
               (clock w + run.duration p w) "completed")
            opened
  end.

(** No row of [batches] has [batch_size = 0]: [create_batch_record] is
    called after the test on the events fetched. *)
Definition batch_sizes_nonzero (d : database) : Prop :=
  Forall (fun b => b_batch_size b <> 0) (batches d).

(** A [SmartBackGroundWorker] whose loop can run undisturbed. *)
Definition smart_undisturbed
    (w : world optimized_worker.SmartBackGroundWorker) : Prop :=
  store.calm w /\
  store.sizes_nonneg (db w) /\
  store.unique_ids (db w) /\
  batch_sizes_nonzero (db w) /\
  0 <= optimized_worker.interval_seconds (self w).

(* ===================================================================== *)
(** * Rounding *)
(* ===================================================================== *)

Module PyFacts.
Import Py.

Lemma round_half_even_comp (x y : Q) :
  (x == y)%Q -> round_half_even x = round_half_even y.
Proof.
  intros H. unfold round_half_even.
  rewrite (Qfloor_comp x y H).
  assert (E : (x - inject_Z (Qfloor y) == y - inject_Z (Qfloor y))%Q)
    by (rewrite H; reflexivity).
  rewrite (Qcompare_comp _ _ E (1 # 2) (1 # 2) (Qeq_refl _)).
  reflexivity.
Qed.

Lemma round_half_even_Z (z : Z) : round_half_even (inject_Z z) = z.
Proof.
  unfold round_half_even. rewrite Qfloor_Z.
  assert (E : (inject_Z z - inject_Z z == 0)%Q) by ring.
  rewrite (Qcompare_comp _ _ E (1 # 2) (1 # 2) (Qeq_refl _)).
  reflexivity.
Qed.

Lemma round_ndigits_comp (x y : Q) (n : nat) :
  (x == y)%Q -> round_ndigits x n = round_ndigits y n.
Proof.
  intros H. unfold round_ndigits. f_equal.
  apply round_half_even_comp. rewrite H. reflexivity.
Qed.

(** A number of at most [n] decimals is its own rounding to [n] decimals. *)
Lemma round_ndigits_exact (x : Q) (n : nat) (k : Z) :
  (x * inject_Z (10 ^ Z.of_nat n) == inject_Z k)%Q ->
  (round_ndigits x n == x)%Q.
Proof.
  intros H. unfold round_ndigits.
  rewrite (round_half_even_comp _ _ H), round_half_even_Z.
  assert (P : 0 < 10 ^ Z.of_nat n) by (apply Z.pow_pos_nonneg; lia).
  rewrite Qmake_Qdiv, Z2Pos.id by exact P.
  rewrite <- H. field.
  intros E. apply (Qeq_bool_neq (inject_Z (10 ^ Z.of_nat n)) 0); [|exact E].
  unfold Qeq_bool, inject_Z; simpl. apply Z.eqb_neq. lia.
Qed.

Lemma clamp_multiple_of_10 (k : Z) :
  20 <= Z.max 20 (Z.min 200 (k * 10)) <= 200 /\
  Z.max 20 (Z.min 200 (k * 10)) mod 10 = 0.
Proof.
  split; [lia|].
  destruct (Z_le_gt_dec (k * 10) 20), (Z_le_gt_dec 200 (k * 10)).
  - lia.
  - rewrite Z.min_r, Z.max_l by lia. reflexivity.
  - rewrite Z.min_l, Z.max_r by lia. reflexivity.
  - rewrite Z.min_r, Z.max_r by lia. apply Z_mod_mult.
Qed.

End PyFacts.

(* ===================================================================== *)
(** * Rules for weakest preconditions *)
(* ===================================================================== *)

Module WpRules.
Section Rules.
Context {S : Type}.
Implicit Types (w : world S) (E : exn -> world S -> Prop).

Lemma wp_ret {A} (a : A) (Q : A -> world S -> Prop) E w :
  Q a w -> wp (ret a) Q E w.
Proof. exact (fun H => H). Qed.

Lemma wp_raise {A} (e : exn) (Q : A -> world S -> Prop) E w :
  E e w -> wp (raise e) Q E w.
Proof. exact (fun H => H). Qed.

Lemma wp_bind {A B} (m : M S A) (k : A -> M S B)
    (Q : B -> world S -> Prop) E w :
  wp m (fun a w' => wp (k a) Q E w') E w -> wp (bind m k) Q E w.
Proof.
  unfold wp, bind. destruct (m w) as [[a|e] w']; exact (fun H => H).
Qed.

Lemma wp_mono {A} (m : M S A) (Q Q' : A -> world S -> Prop)
    (E E' : exn -> world S -> Prop) w :
  wp m Q E w ->
  (forall a w', Q a w' -> Q' a w') ->
  (forall e w', E e w' -> E' e w') ->
  wp m Q' E' w.
Proof.
  unfold wp. destruct (m w) as [[a|e] w']; auto.
Qed.

Lemma wp_try_except {A} (body : M S A) (handler : exn -> option (M S A))
    (Q : A -> world S -> Prop) E w :
  wp body Q
     (fun e w' =>
        match handler e with
        | Some h => wp h Q E w'
        | None => E e w'
        end) w ->
  wp (try_except body handler) Q E w.
Proof.
  unfold wp, try_except. destruct (body w) as [[a|e] w']; [auto|].
  destruct (handler e); auto.
Qed.

Lemma wp_get_self (Q : S -> world S -> Prop) E w :
  Q (self w) w -> wp get_self Q E w.
Proof. exact (fun H => H). Qed.

Lemma wp_modify_self (f : S -> S) (Q : unit -> world S -> Prop) E w :
  Q tt (set_self (f (self w)) w) -> wp (modify_self f) Q E w.
Proof. exact (fun H => H). Qed.

Lemma wp_print (l : log_line) (Q : unit -> world S -> Prop) E w :
  Q tt (log l w) -> wp (print l) Q E w.
Proof. exact (fun H => H). Qed.

Lemma wp_now (Q : Q -> world S -> Prop) E w :
  Q (clock w) w -> wp now Q E w.
Proof. exact (fun H => H). Qed.

Lemma wp_random (Q : Q -> world S -> Prop) E w :
  Q (entropy w (drawn w)) (draw w) -> wp random Q E w.
Proof. exact (fun H => H). Qed.

Lemma wp_time_sleep (secs : Q) (Q : unit -> world S -> Prop) E w :
  ((secs < 0)%Q -> E ValueError w) ->
  ((0 <= secs)%Q -> Q tt (asleep secs w)) ->
  wp (time_sleep secs) Q E w.
Proof.
  unfold wp, time_sleep. destruct (Qlt_le_dec secs 0); auto.
Qed.

Lemma wp_statement {A} (q : database -> outcome A * database)
    (Q : A -> world S -> Prop) E w :
  (forall f, hd None (faults w) = Some f ->
             E (exn_of_fault f) (struck w)) ->
  (hd None (faults w) = None ->
   match q (db w) with
   | (Ok a, d) => Q a (set_db d (struck w))
   | (Raise e, _) => E e (struck w)
   end) ->
  wp (statement q) Q E w.
Proof.
  unfold wp, statement. destruct (hd None (faults w)) as [f|]; [auto|].
  intros _ H. specialize (H eq_refl).
  destruct (q (db w)) as [[a|e] d]; exact H.
Qed.

Lemma wp_truediv (a b : Q) (Q : Q -> world S -> Prop) E w :
  ((b == 0)%Q -> E ZeroDivisionError w) ->
  (~ (b == 0)%Q -> Q (a / b)%Q w) ->
  wp (truediv a b) Q E w.
Proof.
  unfold wp, truediv. destruct (Qeq_bool b 0) eqn:Hb; intros H1 H2.
  - apply H1. now apply Qeq_bool_eq.
  - apply H2. now apply Qeq_bool_neq.
Qed.

(** Reading a weakest precondition back as a fact about the run. *)
Lemma wp_returns {A} (m : M S A) (Q : A -> world S -> Prop) E w a w' :
  wp m Q E w -> m w = (Ok a, w') -> Q a w'.
Proof. unfold wp. intros H Hm. now rewrite Hm in H. Qed.

Lemma wp_total {A} (m : M S A) (Q : A -> world S -> Prop) w :
  wp m Q (fun _ _ => False) w ->
  exists a w', m w = (Ok a, w') /\ Q a w'.
Proof.
  unfold wp. destruct (m w) as [[a|e] w']; [eauto|tauto].
Qed.

End Rules.

(** One step of symbolic execution: the rule of the statement at the head
    of the program. *)
Ltac wp_step :=
  lazymatch goal with
  | |- wp (bind _ _) _ _ _ => apply wp_bind
  | |- wp (ret _) _ _ _ => apply wp_ret
  | |- wp (raise _) _ _ _ => apply wp_raise
  | |- wp (print _) _ _ _ => apply wp_print
  | |- wp now _ _ _ => apply wp_now
  | |- wp random _ _ _ => apply wp_random
  | |- wp get_self _ _ _ => apply wp_get_self
  | |- wp (modify_self _) _ _ _ => apply wp_modify_self
  | |- wp (try_except _ _) _ _ _ => apply wp_try_except
  end.

(** Worlds are kept as explicit records: after each step the updates are
    carried out. *)
Ltac wp_norm :=
  cbn [self db clock stdout slept faults others entropy drawn
       log set_db set_self draw struck asleep turn_of_others
       set_events set_batches events batches cost_metrics batches_id_seq
       hd tl].

Ltac wp_steps := repeat (wp_step; wp_norm).

End WpRules.

(* ===================================================================== *)
(** * The cost model and the predictor *)
(* ===================================================================== *)

Module CostFacts.
Import batch_processor.

Lemma inject_Z_nonzero (z : Z) : z <> 0 -> Qeq_bool (inject_Z z) 0 = false.
Proof.
  intros H. unfold Qeq_bool, inject_Z; simpl.
  apply Z.eqb_neq. lia.
Qed.

(** [calculate_cost] always returns, and returns the rounded linear cost. *)
Lemma calculate_cost_value {S} (self : BatchProcessor) (s : Z) (t : Q)
    (w : world S) :
  fst (calculate_cost self s t w) =
  Ok (Py.round_ndigits
        (FIXED_COST self + VARIABLE_COST_PER_EVENT self * inject_Z s) 4).
Proof.
  unfold calculate_cost, truediv.
  destruct (0 <? s) eqn:Hs.
  - apply Z.ltb_lt in Hs.
    rewrite inject_Z_nonzero by lia. reflexivity.
  - reflexivity.
Qed.

(** C1. For every batch size [s] and every two processing durations [t1],
    [t2], [calculate_cost] of a processor built by [BatchProcessor(...)]
    behaves the same on [(s, t1)] and on [(s, t2)]; it returns, and what it
    returns is [0.10 + 0.005 * s] rounded to 4 decimals, which is
    [0.10 + 0.005 * s] itself. *)
Theorem calculate_cost_ignores_processing_time
    (S : Type) (bs s : Z) (t1 t2 : Q) (w0 w : world S) :
  match batch_processor.init bs w0 with
  | (Ok self, _) =>
      calculate_cost self s t1 w = calculate_cost self s t2 w /\
      exists c : Q,
        fst (calculate_cost self s t1 w) = Ok c /\
        fst (calculate_cost self s t2 w) = Ok c /\
        c = Py.round_ndigits ((10 # 100) + (5 # 1000) * inject_Z s) 4 /\
        (c == (10 # 100) + (5 # 1000) * inject_Z s)%Q
  | (Raise _, _) => False
  end.
Proof.
  cbn. split; [reflexivity|].
  eexists. repeat split.
  - apply calculate_cost_value.
  - apply calculate_cost_value.
  - cbn. apply PyFacts.round_ndigits_exact with (k := 1000 + 50 * s).
    change (10 ^ Z.of_nat 4) with 10000.
    unfold Qeq, Qmult, Qplus, inject_Z; cbn [Qnum Qden]. lia.
Qed.

End CostFacts.

Module PredictorFacts.
Import ml_model.

(** C2. Whatever the context and whatever the scaler and the forest of the
    optimizer compute, trained or not, [predict_optimal_batch_size] returns
    an integer of [[20, 200]] that is a multiple of 10. *)
Theorem predict_optimal_batch_size_range
    (S : Type) (self : BatchOptimizer)
    (total_data_kb avg_data_per_event : Q) (hour_of_day : Z)
    (last_processing_time last_cost_per_event : Q) (w : world S) :
  exists n : Z,
    fst (predict_optimal_batch_size self total_data_kb avg_data_per_event
           hour_of_day last_processing_time last_cost_per_event w) = Ok n /\
    20 <= n <= 200 /\ n mod 10 = 0.
Proof.
  unfold predict_optimal_batch_size.
  destruct (is_trained self); cbn.
  - eexists. split; [reflexivity|].
    apply PyFacts.clamp_multiple_of_10.
  - exists 50. repeat split; lia.
Qed.

End PredictorFacts.

(* ===================================================================== *)
(** * Lifecycle of the worker *)
(* ===================================================================== *)

Module LifecycleFacts.
Import worker.

(** C9. [stop()] then [start()] on any worker, followed by the first
    statements of the new thread's [_worker_loop]: the worker is running
    under a new thread, [started_at] is the time at which the new run
    began, so that the [runtime_seconds] of [get_stats] is [0] at that
    moment, and the three cumulative counters (as well as [last_batch_at])
    are those from before the [stop]. *)
Theorem stop_then_start_keeps_counters (w : world BackgroundWorker) :
  let w1 := snd ((stop ;; start) w) in
  let w2 := snd (prologue w1) in
  fst ((stop ;; start) w) = Ok tt /\
  fst (prologue w1) = Ok tt /\
  is_running (self w2) = true /\
  thread (self w2) = new_thread (thread (self w)) /\
  started_at (stats (self w2)) = Some (clock w1) /\
  clock w2 = clock w1 /\
  total_batches_processed (stats (self w2)) =
    total_batches_processed (stats (self w)) /\
  total_events_processed (stats (self w2)) =
    total_events_processed (stats (self w)) /\
  total_cost (stats (self w2)) = total_cost (stats (self w)) /\
  last_batch_at (stats (self w2)) = last_batch_at (stats (self w)) /\
  exists runtime : Q,
    fst (get_stats w2) = Ok (stats (self w2), Some runtime) /\
    (runtime == 0)%Q.
Proof.
  destruct w as [[p i r t st] d c out sl fs ot en dr].
  destruct r; cbn; repeat split; eexists; split;
    try reflexivity; ring.
Qed.

End LifecycleFacts.

(* ===================================================================== *)
(** * Choosing the batch size *)
(* ===================================================================== *)

Module SizingFacts.
Import batch_processor ml_model optimized_worker.

Lemma greatest_id_In (bs : list batch) (b : batch) :
  db_glue.greatest_id bs = Some b -> In b bs.
Proof.
  revert b. induction bs as [|x r IH]; intros b; cbn; [discriminate|].
  destruct (db_glue.greatest_id r) as [b'|].
  - destruct (b_id b' <=? b_id x); intros E; inversion E; subst; auto.
  - intros E; inversion E; subst; auto.
Qed.

Lemma recent_batch_nonzero (d : database) (b : batch) :
  sizes_nonzero d = true ->
  db_glue.greatest_id (filter db_glue.completed (batches d)) = Some b ->
  (b_batch_size b =? 0) = false.
Proof.
  unfold sizes_nonzero. intros H E.
  apply greatest_id_In in E.
  rewrite forallb_forall in H. apply H in E.
  now apply negb_true_iff.
Qed.

Import WpRules.

Lemma get_smart_batch_size_fallback (w : world SmartBackGroundWorker) :
  is_trained (optimizer (self w)) = false \/
  db_glue.unprocessed (events (db w)) = [] \/
  filter db_glue.completed (batches (db w)) = [] ->
  wp get_smart_batch_size
     (fun n _ => n = 50)
     (fun _ _ => faults w <> [] \/ sizes_nonzero (db w) = false) w.
Proof.
  intros H. unfold get_smart_batch_size.
  wp_step. apply wp_statement.
  { intros f Hf. left. intros E. rewrite E in Hf. discriminate. }
  intros _. cbn.
  destruct (Py.len (db_glue.unprocessed (events (db w))) =? 0) eqn:Hlen;
    [now wp_step|].
  wp_step. apply wp_statement.
  { intros f Hf. left. intros E. cbn in Hf. rewrite E in Hf. discriminate. }
  intros _. cbn. unfold db_glue.select_recent_batch.
  destruct (db_glue.greatest_id _) as [b|] eqn:Hb; [|now wp_step].
  destruct (b_batch_size b =? 0) eqn:Hsz.
  { right. destruct (sizes_nonzero (db w)) eqn:Hnz; [|reflexivity].
    rewrite (recent_batch_nonzero _ _ Hnz Hb) in Hsz. discriminate. }
  wp_step. apply wp_statement.
  { intros f Hf. left. intros E. cbn in Hf. rewrite E in Hf. discriminate. }
  intros _. cbn.
  destruct (db_glue.select_unprocessed_stats (db w)) as [[st|e] d] eqn:Hst.
  2:{ unfold db_glue.select_unprocessed_stats in Hst.
      destruct (db_glue.unprocessed (events (db w))); discriminate. }
  wp_steps. cbn. unfold predict_optimal_batch_size.
  destruct (is_trained (optimizer (self w))) eqn:Ht; cbn.
  - exfalso. destruct H as [H|[H|H]].
    + discriminate.
    + rewrite H in Hlen. discriminate.
    + rewrite H in Hb. discriminate.
  - wp_steps. reflexivity.
Qed.

(** C3. If the optimizer is not trained, or no event is pending, or no
    batch has completed, [get_smart_batch_size] returns nothing but [50],
    and the processor of the iteration is built with [batch_size = 50];
    and it does return [50] when the store answers (no failing statement,
    no completed batch of size [0]). *)
Theorem fallback_batch_size (w : world SmartBackGroundWorker)
    (H : is_trained (optimizer (self w)) = false \/
         db_glue.unprocessed (events (db w)) = [] \/
         filter db_glue.completed (batches (db w)) = []) :
  (forall (n : Z) (w' : world SmartBackGroundWorker),
      get_smart_batch_size w = (Ok n, w') ->
      n = 50 /\
      exists p : BatchProcessor,
        fst (batch_processor.init n w') = Ok p /\ batch_size p = 50) /\
  (faults w = [] -> sizes_nonzero (db w) = true ->
   fst (get_smart_batch_size w) = Ok 50).
Proof.
  pose proof (get_smart_batch_size_fallback w H) as P.
  split.
  - intros n w' Hrun.
    assert (n = 50) by exact (wp_returns _ _ _ _ _ _ P Hrun).
    subst n. split; [reflexivity|].
    eexists. split; reflexivity.
  - intros Hf Hnz. unfold wp in P.
    destruct (get_smart_batch_size w) as [[n|e] w']; cbn.
    + now subst n.
    + destruct P as [P|P]; [now elim P|]. rewrite Hnz in P. discriminate.
Qed.

End SizingFacts.

(* ===================================================================== *)
(** * One batch *)
(* ===================================================================== *)

Arguments Qplus : simpl never.
Arguments Qmult : simpl never.
Arguments Qminus : simpl never.
Arguments Qdiv : simpl never.
Arguments inject_Z : simpl never.
Arguments Py.round_ndigits : simpl never.
Arguments Py.sum : simpl never.
Arguments Py.len : simpl never.
Arguments Z.add : simpl never.
Arguments Z.to_nat : simpl never.

Module BatchFacts.
Import batch_processor WpRules.

Lemma len_cons_nonzero {A} (x : A) (l : list A) :
  ~ (inject_Z (Py.len (x :: l)) == 0)%Q.
Proof.
  unfold Py.len, Qeq, inject_Z. cbn [Qnum Qden List.length]. lia.
Qed.

Lemma len_cons_pos {A} (x : A) (l : list A) : 0 < Py.len (x :: l).
Proof. unfold Py.len. cbn [List.length]. lia. Qed.

Lemma not_zero_division (f : fault) : exn_of_fault f <> ZeroDivisionError.
Proof. destruct f; discriminate. Qed.

(** [process_batch] in full: it idles, or completes, or raises.  What it
    raises is never a [ZeroDivisionError], and it raises only if a
    statement fails, or the limit of the query is negative, or the length
    of the sleep is. *)
Lemma process_batch_spec {S} (p : BatchProcessor) (w : world S) :
  wp (process_batch p)
     (fun r w' =>
        match r with
        | Some r => run.completes p w r w'
        | None => run.idles p w w'
        end)
     (fun e _ =>
        e <> ZeroDivisionError /\
        (faults w <> [] \/ batch_size p < 0 \/ (run.duration p w < 0)%Q))
     w.
Proof.
  destruct w as [me [es bs cms seq] c out sl fs ot en dr].
  assert (Hfault : forall (f : fault) (fs' : list (option fault)) (P : Prop),
             hd None fs' = Some f -> (fs = [] -> fs' = []) ->
             exn_of_fault f <> ZeroDivisionError /\ (fs <> [] \/ P)).
  { intros f fs' P Hf Hfs. split; [apply not_zero_division|].
    left. intros E. rewrite (Hfs E) in Hf. discriminate. }
  unfold process_batch, fetch_unprocessed_events, db_glue.get_unprocessed_events.
  wp_steps. apply wp_statement; wp_norm.
  { intros f Hf. apply (Hfault f fs _ Hf). auto. }
  intros _. unfold db_glue.select_unprocessed. wp_norm.
  destruct (batch_size p <? 0) eqn:Hneg.
  { split; [discriminate|]. right; left. now apply Z.ltb_lt. }
  destruct (firstn _ _) as [|e0 evs] eqn:Hc.
  - wp_steps. cbn beta iota. wp_steps.
    unfold run.idles, run.claimed. wp_norm.
    repeat split; try assumption; try reflexivity.
    now rewrite <- !app_assoc.
  - wp_steps. cbn beta iota.
    unfold calculate_batch_metrics. wp_steps.
    apply wp_truediv; [intros Hz; elim (len_cons_nonzero _ _ Hz)|intros _].
    wp_steps. cbn [m_batch_size m_total_data_kb].
    unfold create_batch_record. wp_steps. apply wp_statement; wp_norm.
    { intros f Hf. apply (Hfault f _ _ Hf). now intros ->. }
    intros _. unfold db_glue.insert_batch. wp_norm. wp_steps.
    unfold simulate_processing, random_uniform. wp_steps.
    apply wp_time_sleep; wp_norm.
    { intros Hd. split; [discriminate|]. right; right.
      unfold run.duration, run.volume, run.claimed. wp_norm.
      rewrite Hc. exact Hd. }
    intros _.
    wp_steps. unfold calculate_cost. wp_step.
    rewrite (proj2 (Z.ltb_lt _ _) (len_cons_pos e0 evs)).
    apply wp_truediv; [intros Hz; elim (len_cons_nonzero _ _ Hz)|intros _].
    wp_steps. unfold mark_events_as_processed. wp_steps.
    apply wp_statement; wp_norm.
    { intros f Hf. apply (Hfault f _ _ Hf). now intros ->. }
    intros _. cbn [map db_glue.update_events_processed]. wp_norm. wp_steps.
    unfold update_batch_record. wp_steps. apply wp_statement; wp_norm.
    { intros f Hf. apply (Hfault f _ _ Hf). now intros ->. }
    intros _. unfold db_glue.update_batch. wp_norm. wp_steps.
    unfold save_cost_metrics. wp_steps.
    rewrite (proj2 (Z.ltb_lt _ _) (len_cons_pos e0 evs)).
    apply wp_truediv; [intros Hz; elim (len_cons_nonzero _ _ Hz)|intros _].
    wp_steps. apply wp_statement; wp_norm.
    { intros f Hf. apply (Hfault f _ _ Hf). now intros ->. }
    intros _. unfold db_glue.insert_cost_metric. wp_norm. wp_steps.
    apply wp_truediv; [intros Hz; elim (len_cons_nonzero _ _ Hz)|intros _].
    wp_steps.
    unfold run.completes, run.output, run.rows_marked, run.events_after_sleep,
      run.cost, run.duration, run.volume, run.size, run.id, run.claimed.
    wp_norm. rewrite Hc. cbn [map].
    repeat split; try reflexivity; try discriminate.
    rewrite <- !app_assoc. reflexivity.
Qed.

(** C10. [process_batch] never raises [ZeroDivisionError]: a result is
    returned only for a non-empty set of claimed events, whose length is
    [events_processed] and the divisor of [cost_per_event]; with nothing
    claimed it returns [None]. *)
Theorem process_batch_division_is_safe
    (S : Type) (p : BatchProcessor) (w : world S) :
  match process_batch p w with
  | (Ok r, _) =>
      match r with
      | Some r =>
          run.claimed p w <> [] /\
          r_events_processed r = Py.len (run.claimed p w) /\
          0 < r_events_processed r /\
          ~ (inject_Z (r_events_processed r) == 0)%Q /\
          r_cost_per_event r =
            Py.round_ndigits (r_cost r / inject_Z (r_events_processed r)) 4
      | None => run.claimed p w = []
      end
  | (Raise e, _) => e <> ZeroDivisionError
  end.
Proof.
  pose proof (process_batch_spec p w) as P. unfold wp in P.
  destruct (process_batch p w) as [[[r|]|e] w']; [| |exact (proj1 P)].
  - destruct P as (Hne & Hr & _). subst r. cbn.
    unfold run.size. destruct (run.claimed p w) as [|e0 evs]; [easy|].
    repeat split; try easy; apply len_cons_pos.
  - apply P.
Qed.

End BatchFacts.

(* ===================================================================== *)
(** * The idle iteration *)
(* ===================================================================== *)

Module IdleFacts.
Import batch_processor ml_model optimized_worker WpRules.

(** With nothing pending, [process_batch] changes neither the store nor
    the worker, and returns [None] unless its one statement fails. *)
Lemma process_batch_idle {S} (p : BatchProcessor) (w : world S) :
  db_glue.unprocessed (events (db w)) = [] ->
  wp (process_batch p)
     (fun r w' => r = None /\ db w' = db w /\ self w' = self w)
     (fun _ w' =>
        db w' = db w /\ self w' = self w /\
        (hd None (faults w) <> None \/ batch_size p < 0))
     w.
Proof.
  destruct w as [me [es bs cms seq] c out sl fs ot en dr]. wp_norm.
  intros H.
  unfold process_batch, fetch_unprocessed_events,
    db_glue.get_unprocessed_events.
  wp_steps. apply wp_statement; wp_norm.
  { intros f Hf. repeat split. left. rewrite Hf. discriminate. }
  intros _. unfold db_glue.select_unprocessed. wp_norm.
  destruct (batch_size p <? 0) eqn:Hneg.
  { repeat split. right. now apply Z.ltb_lt. }
  rewrite H. cbn [db_glue.order_by_timestamp fold_right]. rewrite firstn_nil.
  wp_steps. cbn beta iota. wp_steps. now repeat split.
Qed.

(** The [except] clauses touch neither the worker nor the tables of
    batches and cost metrics. *)
Lemma handler_keeps (e : exn) (w1 : world SmartBackGroundWorker)
    (me : SmartBackGroundWorker) (bs : list batch) (cms : list cost_metric)
    (P : Prop) :
  self w1 = me -> batches (db w1) = bs -> cost_metrics (db w1) = cms -> P ->
  match handler e with
  | Some h =>
      wp h
        (fun c w' =>
           c = Next /\ self w' = me /\
           batches (db w') = bs /\ cost_metrics (db w') = cms)
        (fun _ w' =>
           (self w' = me /\
            batches (db w') = bs /\ cost_metrics (db w') = cms) /\ P)
        w1
  | None =>
      (self w1 = me /\
       batches (db w1) = bs /\ cost_metrics (db w1) = cms) /\ P
  end.
Proof.
  destruct w1 as [me1 [es1 bs1 cms1 seq1] c out sl fs ot en dr]. wp_norm.
  intros -> -> -> HP.
  destruct e; cbn [handler is_Exception]; try easy;
    wp_steps; apply wp_time_sleep; wp_norm; easy.
Qed.

Lemma iteration_idle (w : world SmartBackGroundWorker) :
  db_glue.unprocessed (events (db w)) = [] ->
  wp iteration
     (fun c w' =>
        c = Next /\ self w' = self w /\
        batches (db w') = batches (db w) /\
        cost_metrics (db w') = cost_metrics (db w))
     (fun _ w' =>
        (self w' = self w /\
         batches (db w') = batches (db w) /\
         cost_metrics (db w') = cost_metrics (db w)) /\
        (faults w <> [] \/ interval_seconds (self w) < 0))
     w.
Proof.
  destruct w as [me [es bs cms seq] c out sl fs ot en dr]. wp_norm.
  intros H.
  unfold iteration, attempt, get_smart_batch_size.
  wp_steps. apply wp_statement; wp_norm.
  { intros f Hf. apply handler_keeps; try reflexivity.
    left. intros E. rewrite E in Hf. discriminate. }
  intros Hf1. unfold db_glue.count_unprocessed. wp_norm. rewrite H.
  change (Py.len [] =? 0) with true. cbn beta iota.
  wp_steps. unfold batch_processor.init, db_glue.Database. wp_steps.
  eapply wp_mono; [apply process_batch_idle; exact H| |].
  - intros r [me' [es' bs' cms' seq'] c' out' sl' fs' ot' en' dr'].
    wp_norm. intros (-> & Hd & ->). inversion Hd; subst.
    wp_steps. apply wp_time_sleep; wp_norm.
    + intros Hneg. apply handler_keeps; try reflexivity.
      right. unfold Qlt, inject_Z in Hneg. cbn [Qnum Qden] in Hneg. lia.
    + intros _. now repeat split.
  - intros e [me' [es' bs' cms' seq'] c' out' sl' fs' ot' en' dr'].
    wp_norm. intros (Hd & -> & Hwhy). inversion Hd; subst.
    apply handler_keeps; try reflexivity.
    left. intros E. rewrite E in Hwhy. cbn in Hwhy.
    destruct Hwhy as [Hwhy|Hwhy]; [now apply Hwhy|discriminate].
Qed.

(** C4. With no unprocessed event in the store: [process_batch] returns
    [None] as soon as its query is answered, and in every case leaves the
    store as it found it (no batch record, no cost metric); and one
    iteration of the loop, whatever the store does, leaves the worker's
    statistics (every counter and [last_batch_at]) and the tables of
    batches and cost metrics unchanged, and goes on to the next one when
    the store answers. *)
Theorem idle_iteration_changes_nothing (w : world SmartBackGroundWorker)
    (H : db_glue.unprocessed (events (db w)) = []) :
  (forall p : BatchProcessor,
      db (snd (process_batch p w)) = db w /\
      self (snd (process_batch p w)) = self w /\
      (hd None (faults w) = None -> 0 <= batch_size p ->
       fst (process_batch p w) = Ok None)) /\
  stats (self (snd (iteration w))) = stats (self w) /\
  batches (db (snd (iteration w))) = batches (db w) /\
  cost_metrics (db (snd (iteration w))) = cost_metrics (db w) /\
  (faults w = [] -> 0 <= interval_seconds (self w) ->
   fst (iteration w) = Ok Next).
Proof.
  split.
  - intros p. pose proof (process_batch_idle p w H) as P. unfold wp in P.
    destruct (process_batch p w) as [[r|e] w']; cbn [fst snd].
    + destruct P as (-> & -> & ->). now repeat split.
    + destruct P as (-> & -> & Hwhy). repeat split.
      intros Hf Hp. destruct Hwhy as [Hwhy|Hwhy]; [now elim Hwhy|lia].
  - pose proof (iteration_idle w H) as P. unfold wp in P.
    destruct (iteration w) as [[r|e] w']; cbn [fst snd].
    + destruct P as (-> & -> & -> & ->). now repeat split.
    + destruct P as ((-> & -> & ->) & Hwhy). repeat split.
      intros Hf Hi. destruct Hwhy as [Hwhy|Hwhy]; [now elim Hwhy|lia].
Qed.

End IdleFacts.

(* ===================================================================== *)
(** * Facts about the store *)
(* ===================================================================== *)

Module StoreFacts.
Import db_glue.

Lemma insert_by_timestamp_perm (e : event) (l : list event) :
  Permutation (insert_by_timestamp e l) (e :: l).
Proof.
  induction l as [|x r IH]; cbn; [reflexivity|].
  destruct (ev_timestamp e <=? ev_timestamp x); [reflexivity|].
  rewrite IH. apply perm_swap.
Qed.

Lemma order_by_timestamp_perm (l : list event) :
  Permutation (order_by_timestamp l) l.
Proof.
  induction l as [|x r IH]; cbn; [reflexivity|].
  rewrite insert_by_timestamp_perm. now constructor.
Qed.

Lemma sum_from (xs : list Q) (a : Q) :
  (fold_left Qplus xs a == a + fold_right Qplus 0 xs)%Q.
Proof.
  revert a. induction xs as [|x r IH]; intros a; cbn [fold_left fold_right].
  - ring.
  - rewrite IH. ring.
Qed.

Lemma sum_perm (xs ys : list Q) :
  Permutation xs ys -> (Py.sum xs == Py.sum ys)%Q.
Proof.
  intros P. unfold Py.sum. rewrite !sum_from.
  apply Qplus_comp; [reflexivity|].
  induction P; cbn [fold_right].
  - reflexivity.
  - now rewrite IHP.
  - ring.
  - now rewrite IHP1.
Qed.

(** Within the limit, every pending event is claimed. *)
Lemma claimed_all (limit : nat) (es : list event) :
  (List.length (unprocessed es) <= limit)%nat ->
  Permutation (firstn limit (order_by_timestamp (unprocessed es)))
              (unprocessed es).
Proof.
  intros H. rewrite firstn_all2.
  - apply order_by_timestamp_perm.
  - now rewrite (Permutation_length (order_by_timestamp_perm _)).
Qed.

Lemma id_in_spec (ids : list Z) (e : event) :
  In (ev_id e) ids -> id_in ids e = true.
Proof.
  intros H. unfold id_in. apply existsb_exists.
  exists (ev_id e). split; [exact H|apply Z.eqb_refl].
Qed.

(** The [UPDATE] of step 6 over a table of which every pending event is
    claimed: identities are kept, and no event is left pending; those
    that were pending now belong to [batch_id]. *)
Lemma mark_all (batch_id : Z) (ids : list Z) (es : list event) :
  (forall e, In e (unprocessed es) -> In (ev_id e) ids) ->
  Forall2
    (fun e e' =>
       ev_id e' = ev_id e /\
       ev_processed e' = true /\
       (ev_processed e = false -> ev_batch_id e' = Some batch_id))
    es (map (mark_row batch_id ids) es).
Proof.
  induction es as [|x r IH]; intros H; cbn [map]; constructor.
  - unfold mark_row. destruct (id_in ids x) eqn:Hin; cbn.
    + repeat split.
    + repeat split.
      * destruct (ev_processed x) eqn:Hp; [reflexivity|].
        rewrite id_in_spec in Hin; [discriminate|].
        apply H. cbn. rewrite Hp. now left.
      * intros Hp. rewrite id_in_spec in Hin; [discriminate|].
        apply H. cbn. rewrite Hp. now left.
  - apply IH. intros e He. apply H. cbn.
    destruct (negb (ev_processed x)); [now right|exact He].
Qed.

Lemma finalize_others (batch_id : Z) (t c ts : Q) (st : string)
    (bs : list batch) :
  forallb (fun b => b_id b <? batch_id) bs = true ->
  map (finalize_row batch_id t c ts st) bs = bs.
Proof.
  induction bs as [|b r IH]; cbn [forallb map]; [reflexivity|].
  intros H. apply andb_true_iff in H. destruct H as [Hb Hr].
  rewrite (IH Hr). unfold finalize_row.
  apply Z.ltb_lt in Hb.
  destruct (b_id b =? batch_id) eqn:E; [apply Z.eqb_eq in E; lia|reflexivity].
Qed.

End StoreFacts.

(* ===================================================================== *)
(** * The scenario of 23 pending events *)
(* ===================================================================== *)

Module ScenarioFacts.
Import batch_processor ml_model optimized_worker WpRules StoreFacts BatchFacts.

Lemma round_460 (x : Q) :
  (x == 460)%Q -> Py.round_ndigits x 2 = 46000 # 100.
Proof.
  intros H. now rewrite (PyFacts.round_ndigits_comp _ _ 2 H).
Qed.

Lemma process_batch_of_23 {S} (w : world S) :
  List.length (db_glue.unprocessed (events (db w))) = 23%nat ->
  (Py.sum (map ev_data_size_kb (db_glue.unprocessed (events (db w))))
   == 460)%Q ->
  faults w = [] -> others w = [] ->
  ids_below_seq (db w) = true ->
  (0 <= entropy w (drawn w))%Q ->
  wp (process_batch (mkBatchProcessor 50 (10 # 100) (5 # 1000) (2 # 100)))
     (fun r w' =>
        match r with
        | Some r => scenario.batch_of_23 w r w'
        | None => False
        end)
     (fun _ _ => False) w.
Proof.
  intros Hcount Hvolume Hstore Halone Hseq Hrand.
  set (p := mkBatchProcessor 50 (10 # 100) (5 # 1000) (2 # 100)).
  assert (Hperm : Permutation (run.claimed p w)
                    (db_glue.unprocessed (events (db w)))).
  { unfold run.claimed. apply claimed_all. rewrite Hcount.
    change (Z.to_nat (batch_size p)) with 50%nat. lia. }
  assert (Hsize : run.size p w = 23).
  { unfold run.size, Py.len.
    now rewrite (Permutation_length Hperm), Hcount. }
  assert (Hvol : run.volume p w = 46000 # 100).
  { unfold run.volume. apply round_460. rewrite <- Hvolume.
    apply sum_perm. now apply Permutation_map. }
  assert (Hdur : (0 <= run.duration p w)%Q).
  { unfold run.duration. rewrite Hvol. cbn [PROCESSING_SPEED p]. lra. }
  eapply wp_mono; [apply (process_batch_spec p w)| |].
  - intros [r|] w'.
    + intros (Hne & Hr & _ & _ & _ & _ & Hev & Hb & _ & _).
      subst r. unfold scenario.batch_of_23. cbn [r_events_processed r_cost
        r_batch_id].
      unfold run.cost in *. rewrite Hsize in *.
      cbn [FIXED_COST VARIABLE_COST_PER_EVENT p] in *.
      repeat split.
      * eexists. rewrite Hb, map_app.
        rewrite finalize_others by exact Hseq.
        cbn [map]. unfold db_glue.finalize_row at 1. cbn [b_id].
        rewrite Z.eqb_refl.
        repeat split; cbn [b_total_data_size_kb].
        rewrite Hvol. now vm_compute.
      * rewrite Hev. unfold run.events_after_sleep, turn_of_others.
        rewrite Halone. apply mark_all.
        intros e He. apply in_map.
        apply (Permutation_in _ (Permutation_sym Hperm) He).
    + intros (Hnil & _). rewrite Hnil in Hperm.
      apply Permutation_length in Hperm. rewrite Hcount in Hperm.
      discriminate.
  - intros e w' (_ & [H|[H|H]]).
    + now apply H.
    + cbn in H. lia.
    + apply (Qlt_not_le _ _ H Hdur).
Qed.

Lemma iteration_of_23 (w : world SmartBackGroundWorker) :
  is_trained (optimizer (self w)) = false ->
  List.length (db_glue.unprocessed (events (db w))) = 23%nat ->
  (Py.sum (map ev_data_size_kb (db_glue.unprocessed (events (db w))))
   == 460)%Q ->
  faults w = [] -> others w = [] ->
  sizes_nonzero (db w) = true ->
  ids_below_seq (db w) = true ->
  (0 <= entropy w (drawn w))%Q ->
  wp (batch_size <- get_smart_batch_size ;;
      processor <- batch_processor.init batch_size ;;
      process_batch processor)
     (fun r w' =>
        match r with
        | Some r => scenario.batch_of_23 w r w'
        | None => False
        end)
     (fun _ _ => False) w.
Proof.
  destruct w as [me [es bs cms seq] c out sl fs ot en dr]. wp_norm.
  intros Hready Hcount Hvolume -> -> Hsizes Hseq Hrand.
  assert (Hlen : (Py.len (db_glue.unprocessed es) =? 0) = false).
  { unfold Py.len. now rewrite Hcount. }
  unfold get_smart_batch_size.
  wp_steps. apply wp_statement; wp_norm; [discriminate|].
  intros _. unfold db_glue.count_unprocessed. wp_norm. rewrite Hlen.
  wp_steps. apply wp_statement; wp_norm; [discriminate|].
  intros _. unfold db_glue.select_recent_batch. wp_norm.
  destruct (db_glue.greatest_id _) as [b|] eqn:Hb.
  - rewrite (SizingFacts.recent_batch_nonzero _ _ Hsizes Hb).
    wp_steps. apply wp_statement; wp_norm; [discriminate|].
    intros _. unfold db_glue.select_unprocessed_stats. wp_norm.
    destruct (db_glue.unprocessed es) as [|e0 evs] eqn:Hes; [discriminate|].
    rewrite <- Hes in *. clear Hes e0 evs.
    wp_steps. unfold predict_optimal_batch_size. rewrite Hready.
    cbn [negb]. wp_steps.
    unfold batch_processor.init, db_glue.Database. wp_steps.
    eapply wp_mono; [apply process_batch_of_23; wp_norm; auto| |];
      wp_norm; auto.
  - wp_steps.
    unfold batch_processor.init, db_glue.Database. wp_steps.
    eapply wp_mono; [apply process_batch_of_23; wp_norm; auto| |];
      wp_norm; auto.
Qed.

(** C8. A store holding 23 pending events that total 460 KB, a worker
    whose optimizer is not trained, a store that answers and that nobody
    else writes to during the batch: the iteration chooses the size 50, and
    its [process_batch] returns a result with [events_processed = 23] and
    [cost = 0.10 + 0.005 * 23 = 0.215]; the table of batches has gained
    exactly one row, the batch returned, of 23 events and completed; and
    every event that was pending is now processed and carries the new
    batch's identity. *)
Theorem scenario_23_pending (w : world SmartBackGroundWorker)
    (Hready : is_trained (optimizer (self w)) = false)
    (Hcount : List.length (db_glue.unprocessed (events (db w))) = 23%nat)
    (Hvolume :
       (Py.sum (map ev_data_size_kb (db_glue.unprocessed (events (db w))))
        == 460)%Q)
    (Hstore : faults w = [])
    (Halone : others w = [])
    (Hsizes : sizes_nonzero (db w) = true)
    (Hseq : ids_below_seq (db w) = true)
    (Hrand : (0 <= entropy w (drawn w))%Q) :
  fst (get_smart_batch_size w) = Ok 50 /\
  exists (r : batch_result) (w' : world SmartBackGroundWorker),
    (batch_size <- get_smart_batch_size ;;
     processor <- batch_processor.init batch_size ;;
     process_batch processor) w = (Ok (Some r), w') /\
    scenario.batch_of_23 w r w'.
Proof.
  split.
  - pose proof (SizingFacts.get_smart_batch_size_fallback w
                  (or_introl Hready)) as P.
    unfold wp in P.
    destruct (get_smart_batch_size w) as [[n|e] w1]; cbn [fst].
    + now subst n.
    + destruct P as [P|P]; [now elim P|].
      rewrite Hsizes in P. discriminate.
  - destruct (wp_total _ _ _
                (iteration_of_23 w Hready Hcount Hvolume Hstore Halone
                   Hsizes Hseq Hrand)) as ([r|] & w' & Hrun & Hq);
      [|contradiction].
    now exists r, w'.
Qed.

End ScenarioFacts.

(* ===================================================================== *)
(** * Counting the predictions *)
(* ===================================================================== *)

Module CountFacts.
Import batch_processor ml_model optimized_worker WpRules.

(** [get_smart_batch_size] in general: the size it returns is positive,
    the store is as it was, and so is the worker when nothing is
    pending. *)
Lemma get_smart_batch_size_spec (w : world SmartBackGroundWorker) :
  wp get_smart_batch_size
     (fun n w' =>
        20 <= n <= 200 /\ db w' = db w /\
        (db_glue.unprocessed (events (db w)) = [] -> self w' = self w))
     (fun _ _ => True) w.
Proof.
  destruct w as [me [es bs cms seq] c out sl fs ot en dr].
  unfold get_smart_batch_size.
  wp_steps. apply wp_statement; wp_norm; [easy|].
  intros _. unfold db_glue.count_unprocessed. wp_norm.
  destruct (Py.len (db_glue.unprocessed es) =? 0) eqn:Hlen.
  { wp_steps. split; [lia|now split]. }
  assert (Hne : db_glue.unprocessed es <> [])
    by (intros E; rewrite E in Hlen; discriminate).
  wp_steps. apply wp_statement; wp_norm; [easy|].
  intros _. unfold db_glue.select_recent_batch. wp_norm.
  destruct (db_glue.greatest_id _) as [b|]; [|wp_steps; split; [lia|now split]].
  destruct (b_batch_size b =? 0); [exact I|].
  wp_steps. apply wp_statement; wp_norm; [easy|].
  intros _. unfold db_glue.select_unprocessed_stats. wp_norm.
  destruct (db_glue.unprocessed es) as [|e0 evs] eqn:Hes; [now elim Hne|].
  wp_steps. unfold predict_optimal_batch_size.
  destruct (is_trained (optimizer me)); cbn [negb]; wp_steps.
  - split; [apply PyFacts.clamp_multiple_of_10|]. now split.
  - split; [lia|now split].
Qed.

(** An iteration whose [process_batch] finds nothing to claim started with
    nothing pending, and its [get_smart_batch_size] has left the
    statistics, [ml_predictions_used] included, as they were. *)
Lemma empty_batch_means_no_prediction
    (w w1 w1' w2 : world SmartBackGroundWorker) (n : Z)
    (p : BatchProcessor) :
  get_smart_batch_size w = (Ok n, w1) ->
  batch_processor.init n w1 = (Ok p, w1') ->
  process_batch p w1' = (Ok None, w2) ->
  db_glue.unprocessed (events (db w)) = [] /\
  stats (self w1) = stats (self w).
Proof.
  intros Hsize Hinit Hrun.
  pose proof (wp_returns _ _ _ _ _ _ (get_smart_batch_size_spec w) Hsize)
    as (Hn & Hdb & Hself).
  pose proof (wp_returns _ _ _ _ _ _
                (BatchFacts.process_batch_spec p w1') Hrun) as (Hnil & _).
  inversion Hinit; subst p w1'. clear Hinit.
  unfold run.claimed in Hnil. cbn [batch_size db log] in Hnil.
  rewrite Hdb in Hnil.
  assert (Hempty : db_glue.unprocessed (events (db w)) = []).
  { destruct (db_glue.order_by_timestamp _) as [|x r] eqn:Hs.
    - apply Permutation_nil.
      rewrite <- Hs. apply StoreFacts.order_by_timestamp_perm.
    - destruct (Z.to_nat n) eqn:Hz; [lia|]. discriminate Hnil. }
  split; [exact Hempty|]. now rewrite (Hself Hempty).
Qed.

End CountFacts.

(* ===================================================================== *)
(** * Fewer rows marked than claimed *)
(* ===================================================================== *)

Module MismatchFacts.
Import batch_processor WpRules BatchFacts.



End MismatchFacts.

(* ===================================================================== *)
(** * What a program may raise *)
(* ===================================================================== *)

Module SafeFacts.
Import batch_processor ml_model WpRules.

Section Rules.
Context {S K : Type} (key : S -> K).

Lemma safe_ret {A} (a : A) : safe key (ret a).
Proof. intros w. split; [reflexivity|apply incl_refl]. Qed.

Lemma safe_raise {A} (e : exn) :
  is_Exception e = true -> safe key (@raise S A e).
Proof.
  intros He w. split; [split; [reflexivity|apply incl_refl]|now left].
Qed.

Lemma safe_bind {A B} (m : M S A) (k : A -> M S B) :
  safe key m -> (forall a, safe key (k a)) -> safe key (bind m k).
Proof.
  intros Hm Hk w. specialize (Hm w). unfold wp, bind in *.
  destruct (m w) as [[a|e] w1]; [|exact Hm].
  destruct Hm as [Hkey Hincl]. specialize (Hk a w1). unfold wp in Hk.
  destruct (k a w1) as [[b|e] w2].
  - destruct Hk as [Hkey2 Hincl2]. split; [congruence|].
    eapply incl_tran; eassumption.
  - destruct Hk as [[Hkey2 Hincl2] Hwhy]. split; [split|].
    + congruence.
    + eapply incl_tran; eassumption.
    + destruct Hwhy as [He|(f & Hf & He)]; [now left|].
      right. exists f. split; [apply Hincl, Hf|exact He].
Qed.

Lemma safe_print (l : log_line) : safe key (@print S l).
Proof. intros w. split; [reflexivity|apply incl_refl]. Qed.

Lemma safe_now : safe key (@now S).
Proof. intros w. split; [reflexivity|apply incl_refl]. Qed.

Lemma safe_random : safe key (@random S).
Proof. intros w. split; [reflexivity|apply incl_refl]. Qed.

Lemma safe_get_self : safe key (@get_self S).
Proof. intros w. split; [reflexivity|apply incl_refl]. Qed.

Lemma safe_modify_self (f : S -> S) :
  (forall s, key (f s) = key s) -> safe key (modify_self f).
Proof. intros Hf w. split; [apply Hf|apply incl_refl]. Qed.

Lemma safe_time_sleep (secs : Q) : safe key (@time_sleep S secs).
Proof.
  intros w. apply wp_time_sleep; intros _.
  - split; [split; [reflexivity|apply incl_refl]|now left].
  - split; [reflexivity|apply incl_refl].
Qed.

Lemma safe_truediv (a b : Q) : safe key (@truediv S a b).
Proof.
  intros w. apply wp_truediv; intros _.
  - split; [split; [reflexivity|apply incl_refl]|now left].
  - split; [reflexivity|apply incl_refl].
Qed.

Lemma incl_tl_list {A} (l : list A) : incl (tl l) l.
Proof.
  destruct l as [|x r]; cbn; [apply incl_refl|apply incl_tl, incl_refl].
Qed.

Lemma hd_In {A} (l : list (option A)) (x : A) :
  hd None l = Some x -> In (Some x) l.
Proof. destruct l as [|y r]; cbn; [discriminate|]. intros ->. now left. Qed.

Lemma safe_statement {A} (q : database -> outcome A * database) :
  (forall d, match q d with
             | (Raise e, _) => is_Exception e = true
             | (Ok _, _) => True
             end) ->
  safe key (@statement S A q).
Proof.
  intros Hq w. apply wp_statement.
  - intros f Hf. split; [split; [reflexivity|apply incl_tl_list]|].
    right. exists f. split; [now apply hd_In|reflexivity].
  - intros _. specialize (Hq (db w)).
    destruct (q (db w)) as [[a|e] d].
    + split; [reflexivity|apply incl_tl_list].
    + split; [split; [reflexivity|apply incl_tl_list]|now left].
Qed.

End Rules.

(** The statements of the sources fail with a [DatabaseError] only. *)
Ltac safe_query :=
  apply safe_statement; intros ?;
  unfold db_glue.select_unprocessed, db_glue.count_unprocessed,
    db_glue.select_recent_batch, db_glue.select_unprocessed_stats,
    db_glue.insert_batch, db_glue.update_events_processed,
    db_glue.update_batch, db_glue.insert_cost_metric;
  repeat match goal with
         | |- context [match ?x with _ => _ end] =>
             lazymatch x with
             | context [match _ with _ => _ end] => fail
             | _ => destruct x
             end
         end;
  cbn [is_Exception]; auto.

Ltac safe_step :=
  first
    [ apply safe_bind; [|intros ?]
    | apply safe_ret
    | apply safe_print
    | apply safe_now
    | apply safe_random
    | apply safe_get_self
    | apply safe_time_sleep
    | apply safe_truediv
    | safe_query
    | match goal with
      | |- safe _ (match ?x with _ => _ end) => destruct x
      end ].

Lemma process_batch_safe {S K} (key : S -> K) (p : BatchProcessor) :
  safe key (process_batch p).
Proof.
  unfold process_batch, fetch_unprocessed_events,
    db_glue.get_unprocessed_events, calculate_batch_metrics,
    create_batch_record, simulate_processing, random_uniform,
    calculate_cost, mark_events_as_processed, update_batch_record,
    save_cost_metrics.
  repeat safe_step.
Qed.

Lemma processor_init_safe {S K} (key : S -> K) (n : Z) :
  safe key (batch_processor.init n).
Proof.
  unfold batch_processor.init, db_glue.Database. repeat safe_step.
Qed.

(** ** worker.py *)

Lemma plain_attempt_safe :
  safe worker.interval_seconds worker.attempt.
Proof.
  unfold worker.attempt, worker.record_batch.
  repeat first [apply process_batch_safe
               | apply safe_modify_self; intros []; reflexivity
               | safe_step].
Qed.

(** ** optimized_worker.py *)

Lemma smart_attempt_safe :
  safe optimized_worker.interval_seconds optimized_worker.attempt.
Proof.
  unfold optimized_worker.attempt, optimized_worker.record_batch,
    optimized_worker.get_smart_batch_size, predict_optimal_batch_size.
  repeat first [apply process_batch_safe
               | apply processor_init_safe
               | apply safe_modify_self; intros []; reflexivity
               | safe_step].
Qed.

End SafeFacts.

(* ===================================================================== *)
(** * Exceptions inside an iteration *)
(* ===================================================================== *)

Module LoopFacts.
Import WpRules.

Lemma sleep_interval {S} (i : Z) (w : world S) :
  0 <= i -> time_sleep (inject_Z i) w = (Ok tt, asleep (inject_Z i) w).
Proof.
  intros Hi. unfold time_sleep.
  destruct (Qlt_le_dec (inject_Z i) 0) as [Hneg|_]; [|reflexivity].
  unfold Qlt, inject_Z in Hneg. cbn [Qnum Qden] in Hneg. lia.
Qed.

(** The world after the [except Exception] clause has run on [e]. *)
Lemma plain_handler_runs (e : exn) (w1 : world worker.BackgroundWorker) :
  is_Exception e = true ->
  0 <= worker.interval_seconds (self w1) ->
  match worker.handler e with
  | Some h =>
      h w1 =
      (Ok Next,
       asleep (inject_Z (worker.interval_seconds (self w1)))
         (log (RetryingIn (worker.interval_seconds (self w1)))
            (log (ErrorInWorkerLoop e) w1)))
  | None => False
  end.
Proof.
  intros He Hi.
  destruct e; try discriminate; cbn [worker.handler is_Exception];
    unfold bind, get_self, print, ret;
    rewrite (sleep_interval _ _ Hi); reflexivity.
Qed.

Lemma smart_handler_runs (e : exn)
    (w1 : world optimized_worker.SmartBackGroundWorker) :
  is_Exception e = true ->
  0 <= optimized_worker.interval_seconds (self w1) ->
  match optimized_worker.handler e with
  | Some h =>
      h w1 =
      (Ok Next,
       asleep (inject_Z (optimized_worker.interval_seconds (self w1)))
         (log (RetryingIn (optimized_worker.interval_seconds (self w1)))
            (log (ErrorInWorkerLoop e) w1)))
  | None => False
  end.
Proof.
  intros He Hi.
  destruct e; try discriminate;
    cbn [optimized_worker.handler is_Exception];
    unfold bind, get_self, print, ret;
    rewrite (sleep_interval _ _ Hi); reflexivity.
Qed.

Lemma store_failure_is_Exception {S} (w : world S) (e : exn) :
  only_store_failures w ->
  is_Exception e = true \/
  (exists f : fault, In (Some f) (faults w) /\ e = exn_of_fault f) ->
  is_Exception e = true.
Proof.
  intros Hw [He|(f & Hf & ->)]; [exact He|].
  now rewrite (Hw f Hf).
Qed.

Lemma only_store_failures_incl {S} (w w' : world S) :
  incl (faults w') (faults w) ->
  only_store_failures w -> only_store_failures w'.
Proof. intros Hi Hw f Hf. apply Hw, Hi, Hf. Qed.

(** Under store failures alone an iteration of [BackgroundWorker] always
    comes back to the [while]. *)
Lemma plain_iteration_returns (w : world worker.BackgroundWorker) :
  0 <= worker.interval_seconds (self w) ->
  only_store_failures w ->
  exists c w',
    worker.iteration w = (Ok c, w') /\
    worker.interval_seconds (self w') = worker.interval_seconds (self w) /\
    only_store_failures w'.
Proof.
  intros Hi Hw.
  pose proof (SafeFacts.plain_attempt_safe w) as P. unfold wp in P.
  unfold worker.iteration, try_except, bind at 1.
  destruct (worker.attempt w) as [[[]|e] w1].
  - destruct P as [Hkey Hincl]. exists Next, w1. repeat split; auto.
    now apply (only_store_failures_incl w).
  - destruct P as [[Hkey Hincl] Hwhy].
    pose proof (store_failure_is_Exception w e Hw Hwhy) as He.
    rewrite <- Hkey in Hi.
    pose proof (plain_handler_runs e w1 He Hi) as Hh.
    destruct (worker.handler e) as [h|]; [|contradiction].
    eexists. eexists. split; [exact Hh|]. split; [exact Hkey|].
    now apply (only_store_failures_incl w).
Qed.

Lemma plain_while_returns (fuel : nat)
    (w : world worker.BackgroundWorker) :
  0 <= worker.interval_seconds (self w) ->
  only_store_failures w ->
  exists st w', worker.while_is_running fuel w = (Ok st, w').
Proof.
  revert w. induction fuel as [|fuel IH]; intros w Hi Hw;
    cbn [worker.while_is_running].
  - now exists Unfinished, w.
  - unfold bind at 1, get_self.
    destruct (worker.is_running (self w)); [|now exists Finished, w].
    destruct (plain_iteration_returns w Hi Hw) as (c & w' & Hit & Hi' & Hw').
    unfold bind at 1. rewrite Hit.
    destruct c; [|now exists Finished, w'].
    apply IH; [now rewrite Hi'|exact Hw'].
Qed.

Lemma smart_iteration_returns
    (w : world optimized_worker.SmartBackGroundWorker) :
  0 <= optimized_worker.interval_seconds (self w) ->
  only_store_failures w ->
  exists c w',
    optimized_worker.iteration w = (Ok c, w') /\
    optimized_worker.interval_seconds (self w') =
      optimized_worker.interval_seconds (self w) /\
    only_store_failures w'.
Proof.
  intros Hi Hw.
  pose proof (SafeFacts.smart_attempt_safe w) as P. unfold wp in P.
  unfold optimized_worker.iteration, try_except, bind at 1.
  destruct (optimized_worker.attempt w) as [[[]|e] w1].
  - destruct P as [Hkey Hincl]. exists Next, w1. repeat split; auto.
    now apply (only_store_failures_incl w).
  - destruct P as [[Hkey Hincl] Hwhy].
    pose proof (store_failure_is_Exception w e Hw Hwhy) as He.
    rewrite <- Hkey in Hi.
    pose proof (smart_handler_runs e w1 He Hi) as Hh.
    destruct (optimized_worker.handler e) as [h|]; [|contradiction].
    eexists. eexists. split; [exact Hh|]. split; [exact Hkey|].
    now apply (only_store_failures_incl w).
Qed.

Lemma smart_while_returns (fuel : nat)
    (w : world optimized_worker.SmartBackGroundWorker) :
  0 <= optimized_worker.interval_seconds (self w) ->
  only_store_failures w ->
  exists st w', optimized_worker.while_is_running fuel w = (Ok st, w').
Proof.
  revert w. induction fuel as [|fuel IH]; intros w Hi Hw;
    cbn [optimized_worker.while_is_running].
  - now exists Unfinished, w.
  - unfold bind at 1, get_self.
    destruct (optimized_worker.is_running (self w));
      [|now exists Finished, w].
    destruct (smart_iteration_returns w Hi Hw) as (c & w' & Hit & Hi' & Hw').
    unfold bind at 1. rewrite Hit.
    destruct c; [|now exists Finished, w'].
    apply IH; [now rewrite Hi'|exact Hw'].
Qed.

Lemma plain_loop_returns (fuel : nat) (w : world worker.BackgroundWorker) :
  0 <= worker.interval_seconds (self w) ->
  only_store_failures w ->
  exists st w', worker._worker_loop fuel w = (Ok st, w').
Proof.
  intros Hi Hw. unfold worker._worker_loop.
  unfold bind at 1.
  destruct (worker.prologue w) as [[[]|e] w0] eqn:Hp;
    [|discriminate Hp].
  assert (Hi0 : 0 <= worker.interval_seconds (self w0))
    by (inversion Hp; subst w0; exact Hi).
  assert (Hw0 : only_store_failures w0)
    by (inversion Hp; subst w0; exact Hw).
  destruct (plain_while_returns fuel w0 Hi0 Hw0) as (st & w' & Hrun).
  unfold bind at 1. rewrite Hrun.
  destruct st; eexists; eexists; reflexivity.
Qed.

Lemma smart_loop_returns (fuel : nat)
    (w : world optimized_worker.SmartBackGroundWorker) :
  0 <= optimized_worker.interval_seconds (self w) ->
  only_store_failures w ->
  exists st w', optimized_worker._worker_loop fuel w = (Ok st, w').
Proof.
  intros Hi Hw. unfold optimized_worker._worker_loop.
  unfold bind at 1.
  destruct (optimized_worker.prologue w) as [[[]|e] w0] eqn:Hp;
    [|discriminate Hp].
  assert (Hi0 : 0 <= optimized_worker.interval_seconds (self w0))
    by (inversion Hp; subst w0; exact Hi).
  assert (Hw0 : only_store_failures w0)
    by (inversion Hp; subst w0; exact Hw).
  destruct (smart_while_returns fuel w0 Hi0 Hw0) as (st & w' & Hrun).
  unfold bind at 1. rewrite Hrun.
  destruct st; eexists; eexists; reflexivity.
Qed.

(** The loop assigns neither the flag nor the interval of its worker. *)
Lemma plain_attempt_frame :
  safe (fun s => (worker.interval_seconds s, worker.is_running s))
       worker.attempt.
Proof.
  unfold worker.attempt, worker.record_batch.
  repeat first [apply SafeFacts.process_batch_safe
               | apply SafeFacts.safe_modify_self; intros []; reflexivity
               | SafeFacts.safe_step].
Qed.

Lemma smart_attempt_frame :
  safe (fun s => (optimized_worker.interval_seconds s,
                  optimized_worker.is_running s))
       optimized_worker.attempt.
Proof.
  unfold optimized_worker.attempt, optimized_worker.record_batch,
    optimized_worker.get_smart_batch_size,
    ml_model.predict_optimal_batch_size.
  repeat first [apply SafeFacts.process_batch_safe
               | apply SafeFacts.processor_init_safe
               | apply SafeFacts.safe_modify_self; intros []; reflexivity
               | SafeFacts.safe_step].
Qed.

(** Under store failures alone an iteration never leaves the loop: it
    ends on [Next], by the body or by the [except Exception] clause. *)
Lemma plain_iteration_next (w : world worker.BackgroundWorker) :
  0 <= worker.interval_seconds (self w) ->
  only_store_failures w ->
  exists w',
    worker.iteration w = (Ok Next, w') /\
    worker.interval_seconds (self w') = worker.interval_seconds (self w) /\
    worker.is_running (self w') = worker.is_running (self w) /\
    only_store_failures w'.
Proof.
  intros Hi Hw.
  pose proof (plain_attempt_frame w) as P. unfold wp in P.
  unfold worker.iteration, try_except, bind at 1.
  destruct (worker.attempt w) as [[[]|e] w1].
  - destruct P as [Hkey Hincl]. inversion Hkey as [[Hk1 Hk2]].
    exists w1. repeat split; auto.
    now apply (only_store_failures_incl w).
  - destruct P as [[Hkey Hincl] Hwhy]. inversion Hkey as [[Hk1 Hk2]].
    pose proof (store_failure_is_Exception w e Hw Hwhy) as He.
    rewrite <- Hk1 in Hi.
    pose proof (plain_handler_runs e w1 He Hi) as Hh.
    destruct (worker.handler e) as [h|]; [|contradiction].
    eexists. split; [exact Hh|].
    split; [unfold asleep, log; cbn [self]; congruence|].
    split; [unfold asleep, log; cbn [self]; congruence|].
    now apply (only_store_failures_incl w).
Qed.

Lemma smart_iteration_next
    (w : world optimized_worker.SmartBackGroundWorker) :
  0 <= optimized_worker.interval_seconds (self w) ->
  only_store_failures w ->
  exists w',
    optimized_worker.iteration w = (Ok Next, w') /\
    optimized_worker.interval_seconds (self w') =
      optimized_worker.interval_seconds (self w) /\
    optimized_worker.is_running (self w') =
      optimized_worker.is_running (self w) /\
    only_store_failures w'.
Proof.
  intros Hi Hw.
  pose proof (smart_attempt_frame w) as P. unfold wp in P.
  unfold optimized_worker.iteration, try_except, bind at 1.
  destruct (optimized_worker.attempt w) as [[[]|e] w1].
  - destruct P as [Hkey Hincl]. inversion Hkey as [[Hk1 Hk2]].
    exists w1. repeat split; auto.
    now apply (only_store_failures_incl w).
  - destruct P as [[Hkey Hincl] Hwhy]. inversion Hkey as [[Hk1 Hk2]].
    pose proof (store_failure_is_Exception w e Hw Hwhy) as He.
    rewrite <- Hk1 in Hi.
    pose proof (smart_handler_runs e w1 He Hi) as Hh.
    destruct (optimized_worker.handler e) as [h|]; [|contradiction].
    eexists. split; [exact Hh|].
    split; [unfold asleep, log; cbn [self]; congruence|].
    split; [unfold asleep, log; cbn [self]; congruence|].
    now apply (only_store_failures_incl w).
Qed.

(** While its flag is set the loop goes on: the iterations granted are
    all used, and none has raised. *)
Lemma plain_while_goes_on (fuel : nat)
    (w : world worker.BackgroundWorker) :
  0 <= worker.interval_seconds (self w) ->
  only_store_failures w ->
  worker.is_running (self w) = true ->
  exists w',
    worker.while_is_running fuel w = (Ok Unfinished, w') /\
    worker.is_running (self w') = true.
Proof.
  revert w. induction fuel as [|fuel IH]; intros w Hi Hw Hr;
    cbn [worker.while_is_running].
  - now exists w.
  - unfold bind at 1, get_self. rewrite Hr.
    destruct (plain_iteration_next w Hi Hw) as (w' & Hit & Hi' & Hr' & Hw').
    unfold bind at 1. rewrite Hit.
    apply IH; [now rewrite Hi'|exact Hw'|now rewrite Hr'].
Qed.

Lemma smart_while_goes_on (fuel : nat)
    (w : world optimized_worker.SmartBackGroundWorker) :
  0 <= optimized_worker.interval_seconds (self w) ->
  only_store_failures w ->
  optimized_worker.is_running (self w) = true ->
  exists w',
    optimized_worker.while_is_running fuel w = (Ok Unfinished, w') /\
    optimized_worker.is_running (self w') = true.
Proof.
  revert w. induction fuel as [|fuel IH]; intros w Hi Hw Hr;
    cbn [optimized_worker.while_is_running].
  - now exists w.
  - unfold bind at 1, get_self. rewrite Hr.
    destruct (smart_iteration_next w Hi Hw) as (w' & Hit & Hi' & Hr' & Hw').
    unfold bind at 1. rewrite Hit.
    apply IH; [now rewrite Hi'|exact Hw'|now rewrite Hr'].
Qed.

Lemma plain_loop_goes_on (fuel : nat) (w : world worker.BackgroundWorker) :
  0 <= worker.interval_seconds (self w) ->
  only_store_failures w ->
  exists st w',
    worker._worker_loop fuel w = (Ok st, w') /\
    (worker.is_running (self w) = true ->
     st = Unfinished /\ worker.is_running (self w') = true).
Proof.
  intros Hi Hw.
  destruct (worker.is_running (self w)) eqn:Hr.
  - unfold worker._worker_loop. unfold bind at 1.
    destruct (worker.prologue w) as [[[]|e] w0] eqn:Hp;
      [|discriminate Hp].
    assert (Hi0 : 0 <= worker.interval_seconds (self w0))
      by (inversion Hp; subst w0; exact Hi).
    assert (Hw0 : only_store_failures w0)
      by (inversion Hp; subst w0; exact Hw).
    assert (Hr0 : worker.is_running (self w0) = true)
      by (inversion Hp; subst w0; exact Hr).
    destruct (plain_while_goes_on fuel w0 Hi0 Hw0 Hr0) as (w' & Hrun & Hr').
    unfold bind at 1. rewrite Hrun.
    exists Unfinished, w'. split; [reflexivity|]. intros _. now split.
  - destruct (plain_loop_returns fuel w Hi Hw) as (st & w' & Hrun).
    exists st, w'. split; [exact Hrun|discriminate].
Qed.

Lemma smart_loop_goes_on (fuel : nat)
    (w : world optimized_worker.SmartBackGroundWorker) :
  0 <= optimized_worker.interval_seconds (self w) ->
  only_store_failures w ->
  exists st w',
    optimized_worker._worker_loop fuel w = (Ok st, w') /\
    (optimized_worker.is_running (self w) = true ->
     st = Unfinished /\ optimized_worker.is_running (self w') = true).
Proof.
  intros Hi Hw.
  destruct (optimized_worker.is_running (self w)) eqn:Hr.
  - unfold optimized_worker._worker_loop. unfold bind at 1.
    destruct (optimized_worker.prologue w) as [[[]|e] w0] eqn:Hp;
      [|discriminate Hp].
    assert (Hi0 : 0 <= optimized_worker.interval_seconds (self w0))
      by (inversion Hp; subst w0; exact Hi).
    assert (Hw0 : only_store_failures w0)
      by (inversion Hp; subst w0; exact Hw).
    assert (Hr0 : optimized_worker.is_running (self w0) = true)
      by (inversion Hp; subst w0; exact Hr).
    destruct (smart_while_goes_on fuel w0 Hi0 Hw0 Hr0) as (w' & Hrun & Hr').
    unfold bind at 1. rewrite Hrun.
    exists Unfinished, w'. split; [reflexivity|]. intros _. now split.
  - destruct (smart_loop_returns fuel w Hi Hw) as (st & w' & Hrun).
    exists st, w'. split; [exact Hrun|discriminate].
Qed.

(** C6.  In both workers, with a check interval that is not negative:
    when the body of the [try] (the choice of the size, [process_batch],
    the update of the statistics, the sleep) raises an exception, the
    iteration catches it, prints the error and the retry notice, sleeps
    the interval, touches nothing else, and the loop, if its flag was
    set, goes on from that world with the iterations it has left.  And
    whichever statements of the store fail, [_worker_loop] never raises,
    however many iterations it runs; while the flag is set no iteration
    leaves the loop, which uses every iteration it is granted. *)
Theorem ordinary_exceptions_are_survived :
  (forall (w w1 : world worker.BackgroundWorker) (e : exn),
      worker.attempt w = (Raise e, w1) ->
      is_Exception e = true ->
      0 <= worker.interval_seconds (self w1) ->
      let w2 :=
        asleep (inject_Z (worker.interval_seconds (self w1)))
          (log (RetryingIn (worker.interval_seconds (self w1)))
             (log (ErrorInWorkerLoop e) w1)) in
      worker.iteration w = (Ok Next, w2) /\
      self w2 = self w1 /\
      (forall fuel : nat,
          worker.is_running (self w) = true ->
          worker.while_is_running (Datatypes.S fuel) w =
          worker.while_is_running fuel w2)) /\
  (forall (w w1 : world optimized_worker.SmartBackGroundWorker) (e : exn),
      optimized_worker.attempt w = (Raise e, w1) ->
      is_Exception e = true ->
      0 <= optimized_worker.interval_seconds (self w1) ->
      let w2 :=
        asleep (inject_Z (optimized_worker.interval_seconds (self w1)))
          (log (RetryingIn (optimized_worker.interval_seconds (self w1)))
             (log (ErrorInWorkerLoop e) w1)) in
      optimized_worker.iteration w = (Ok Next, w2) /\
      self w2 = self w1 /\
      (forall fuel : nat,
          optimized_worker.is_running (self w) = true ->
          optimized_worker.while_is_running (Datatypes.S fuel) w =
          optimized_worker.while_is_running fuel w2)) /\
  (forall (fuel : nat) (w : world worker.BackgroundWorker),
      0 <= worker.interval_seconds (self w) ->
      only_store_failures w ->
      exists st w',
        worker._worker_loop fuel w = (Ok st, w') /\
        (worker.is_running (self w) = true ->
         st = Unfinished /\ worker.is_running (self w') = true)) /\
  (forall (fuel : nat) (w : world optimized_worker.SmartBackGroundWorker),
      0 <= optimized_worker.interval_seconds (self w) ->
      only_store_failures w ->
      exists st w',
        optimized_worker._worker_loop fuel w = (Ok st, w') /\
        (optimized_worker.is_running (self w) = true ->
         st = Unfinished /\ optimized_worker.is_running (self w') = true)).
Proof.
  split; [|split; [|split]].
  - intros w w1 e Hbody He Hi w2.
    assert (Hit : worker.iteration w = (Ok Next, w2)).
    { unfold worker.iteration, try_except, bind at 1. rewrite Hbody.
      pose proof (plain_handler_runs e w1 He Hi) as Hh.
      destruct (worker.handler e); [exact Hh|contradiction]. }
    repeat split; [exact Hit|].
    intros fuel Hrun. cbn [worker.while_is_running].
    unfold bind at 1, get_self. rewrite Hrun.
    unfold bind at 1. now rewrite Hit.
  - intros w w1 e Hbody He Hi w2.
    assert (Hit : optimized_worker.iteration w = (Ok Next, w2)).
    { unfold optimized_worker.iteration, try_except, bind at 1.
      rewrite Hbody.
      pose proof (smart_handler_runs e w1 He Hi) as Hh.
      destruct (optimized_worker.handler e); [exact Hh|contradiction]. }
    repeat split; [exact Hit|].
    intros fuel Hrun. cbn [optimized_worker.while_is_running].
    unfold bind at 1, get_self. rewrite Hrun.
    unfold bind at 1. now rewrite Hit.
  - exact plain_loop_goes_on.
  - exact smart_loop_goes_on.
Qed.

End LoopFacts.

(* ===================================================================== *)
(** * Concrete runs *)
(* ===================================================================== *)

Module Runs.
Import batch_processor ml_model.

(** The workers of the scenarios are those the constructors build, once
    started. *)
Lemma cold_worker_boots (w0 : world unit)
    (w : world optimized_worker.SmartBackGroundWorker) :
  fst (optimized_worker.init 10 NoModelFile w0) = Ok (self w) ->
  self (snd (optimized_worker.start w)) = scenario.cold_worker.
Proof.
  destruct w as [me d c out sl fs ot en dr]. cbn [self].
  intros E. inversion E; subst me. reflexivity.
Qed.

Lemma plain_worker_boots (w0 : world unit)
    (w : world worker.BackgroundWorker) :
  fst (worker.init 50 30 w0) = Ok (self w) ->
  self (snd (worker.start w)) = scenario.plain_worker.
Proof.
  destruct w as [me d c out sl fs ot en dr]. cbn [self].
  intros E. inversion E; subst me. reflexivity.
Qed.

(** C6, witness: the store fails under the first statement of an
    iteration of [BackgroundWorker]; the iteration survives it, and a run
    of [_worker_loop] over three iterations uses the three of them. *)
Lemma ordinary_exceptions_are_survived_witness :
  let w := scenario.struck_by StoreFails scenario.plain_worker
             scenario.store_pair in
  worker.attempt w = (Raise DatabaseError, snd (worker.attempt w)) /\
  fst (worker.iteration w) = Ok Next /\
  stdout (snd (worker.iteration w)) =
    [Rule; ErrorInWorkerLoop DatabaseError; RetryingIn 30] /\
  slept (snd (worker.iteration w)) = [inject_Z 30] /\
  exists w', worker._worker_loop 3 w = (Ok Unfinished, w').
Proof.
  intros w.
  assert (Hbody : worker.attempt w = (Raise DatabaseError,
                                      snd (worker.attempt w)))
    by (vm_compute; reflexivity).
  assert (Hi : 0 <= worker.interval_seconds (self (snd (worker.attempt w))))
    by (vm_compute; discriminate).
  assert (Hi0 : 0 <= worker.interval_seconds (self w))
    by (vm_compute; discriminate).
  assert (Hw : only_store_failures w).
  { intros f [Hf|[]]. now inversion Hf. }
  destruct LoopFacts.ordinary_exceptions_are_survived
    as (Hplain & _ & Hloop & _).
  destruct (Hplain w _ DatabaseError Hbody eq_refl Hi) as (Hit & _ & _).
  split; [exact Hbody|]. rewrite Hit. cbn [fst snd].
  repeat split; try (vm_compute; reflexivity).
  destruct (Hloop 3%nat w Hi0 Hw) as (st & w' & Hrun & Hst).
  destruct (Hst eq_refl) as (-> & _).
  now exists w'.
Defined.

(** C5, the run that contradicts it.  A worker with no model ([ml_enabled]
    and [is_trained] both false), one event pending and one batch
    completed earlier: the size 50 comes from the fallback of the
    optimizer, which prints that the model is not trained, and
    [ml_predictions_used] goes from 0 to 1. *)
Lemma fallback_is_counted_as_prediction :
  let w := scenario.quiet scenario.cold_worker scenario.store_with_history in
  is_trained (optimized_worker.optimizer (self w)) = false /\
  optimized_worker.ml_enabled (self w) = false /\
  fst (optimized_worker.get_smart_batch_size w) = Ok 50 /\
  stdout (snd (optimized_worker.get_smart_batch_size w)) =
    [ModelNotTrained; MlPrediction 50 1 20] /\
  optimized_worker.ml_predictions_used
    (optimized_worker.stats (self w)) = 0 /\
  optimized_worker.ml_predictions_used
    (optimized_worker.stats
       (self (snd (optimized_worker.get_smart_batch_size w)))) = 1 /\
  fst (optimized_worker.iteration w) = Ok Next /\
  optimized_worker.ml_predictions_used
    (optimized_worker.stats (self (snd (optimized_worker.iteration w)))) = 1.
Proof. vm_compute. repeat split. Qed.

(** C3, witness: the cold worker over a store with one event pending and
    one batch completed. *)
Lemma fallback_batch_size_witness :
  let w := scenario.quiet scenario.cold_worker scenario.store_with_history in
  is_trained (optimized_worker.optimizer (self w)) = false /\
  fst (optimized_worker.get_smart_batch_size w) = Ok 50.
Proof.
  intros w. split; [reflexivity|].
  apply (proj2 (SizingFacts.fallback_batch_size w (or_introl eq_refl)));
    reflexivity.
Defined.

(** C4, witness: the cold worker over a store with nothing pending. *)
Lemma idle_iteration_changes_nothing_witness :
  let w := scenario.quiet scenario.cold_worker scenario.store_drained in
  db_glue.unprocessed (events (db w)) = [] /\
  fst (process_batch (mkBatchProcessor 50 (10 # 100) (5 # 1000) (2 # 100)) w)
    = Ok None /\
  optimized_worker.stats (self (snd (optimized_worker.iteration w))) =
    optimized_worker.stats (self w) /\
  fst (optimized_worker.iteration w) = Ok Next.
Proof.
  intros w.
  destruct (IdleFacts.idle_iteration_changes_nothing w eq_refl)
    as (Hp & Hstats & _ & _ & Hnext).
  split; [reflexivity|]. split; [|split].
  - apply (Hp (mkBatchProcessor 50 (10 # 100) (5 # 1000) (2 # 100)));
      [reflexivity|vm_compute; discriminate].
  - exact Hstats.
  - apply Hnext; [reflexivity|vm_compute; discriminate].
Defined.

(** C8, witness: 23 events of 20 KB. *)
Lemma scenario_23_pending_witness :
  let w := scenario.quiet scenario.cold_worker scenario.store23 in
  List.length (db_glue.unprocessed (events (db w))) = 23%nat /\
  (Py.sum (map ev_data_size_kb (db_glue.unprocessed (events (db w))))
   == 460)%Q /\
  exists (r : batch_result)
         (w' : world optimized_worker.SmartBackGroundWorker),
    scenario.batch_of_23 w r w'.
Proof.
  intros w.
  assert (Hcount : List.length (db_glue.unprocessed (events (db w)))
                   = 23%nat) by reflexivity.
  assert (Hvolume :
    (Py.sum (map ev_data_size_kb (db_glue.unprocessed (events (db w))))
     == 460)%Q) by (vm_compute; reflexivity).
  assert (Hrand : (0 <= entropy w (drawn w))%Q) by (vm_compute; discriminate).
  destruct (ScenarioFacts.scenario_23_pending w eq_refl Hcount Hvolume
              eq_refl eq_refl eq_refl eq_refl Hrand)
    as (_ & r & w' & _ & Hr).
  split; [exact Hcount|]. split; [exact Hvolume|].
  now exists r, w'.
Defined.

End Runs.

(* ===================================================================== *)
(** * The query for pending events *)
(* ===================================================================== *)

Module FetchFacts.
Import batch_processor db_glue WpRules.

Lemma insert_by_timestamp_In (e x : event) (l : list event) :
  In x (insert_by_timestamp e l) -> x = e \/ In x l.
Proof.
  intros H.
  apply (Permutation_in _ (StoreFacts.insert_by_timestamp_perm e l)) in H.
  destruct H as [H|H]; auto.
Qed.

Lemma insert_by_timestamp_sorted (e : event) (l : list event) :
  StronglySorted store.older l ->
  StronglySorted store.older (insert_by_timestamp e l).
Proof.
  induction l as [|x r IH]; intros Hs; cbn [insert_by_timestamp].
  - repeat constructor.
  - apply StronglySorted_inv in Hs. destruct Hs as [Hr Hx].
    destruct (ev_timestamp e <=? ev_timestamp x) eqn:Hle.
    + apply Z.leb_le in Hle. constructor.
      * now constructor.
      * constructor; [exact Hle|].
        rewrite Forall_forall in Hx |- *. intros y Hy.
        specialize (Hx y Hy). unfold store.older in *. lia.
    + apply Z.leb_gt in Hle. constructor; [now apply IH|].
      rewrite Forall_forall in Hx |- *. intros y Hy.
      apply insert_by_timestamp_In in Hy. destruct Hy as [->|Hy].
      * unfold store.older. lia.
      * now apply Hx.
Qed.

Lemma order_by_timestamp_sorted (l : list event) :
  StronglySorted store.older (order_by_timestamp l).
Proof.
  induction l as [|x r IH]; cbn; [constructor|].
  now apply insert_by_timestamp_sorted.
Qed.

(** A sorted list cut in two: both parts are sorted, and the first is
    below the second. *)
Lemma sorted_app {A} (R : A -> A -> Prop) (l1 l2 : list A) :
  StronglySorted R (l1 ++ l2) ->
  StronglySorted R l1 /\ StronglySorted R l2 /\
  forall x y, In x l1 -> In y l2 -> R x y.
Proof.
  induction l1 as [|a r IH]; cbn [app]; intros Hs.
  - repeat split; [constructor|exact Hs|contradiction].
  - apply StronglySorted_inv in Hs. destruct Hs as [Hr Ha].
    destruct (IH Hr) as (H1 & H2 & H12).
    rewrite Forall_forall in Ha.
    repeat split.
    + constructor; [exact H1|].
      rewrite Forall_forall. intros y Hy. apply Ha, in_or_app. now left.
    + exact H2.
    + intros x y [->|Hx] Hy.
      * apply Ha, in_or_app. now right.
      * now apply H12.
Qed.

(** X1. When the store answers and the limit is not negative,
    [fetch_unprocessed_events] returns, without changing the store,
    pending events only, oldest first, as many as the limit allows; and no
    pending event it leaves behind is older than one it returns. *)
Theorem fetch_oldest_first
    (S : Type) (self : BatchProcessor) (limit : option Z) (w : world S)
    (Hstore : hd None (faults w) = None)
    (Hlimit : 0 <= match limit with
                   | Some l => l
                   | None => batch_size self
                   end) :
  exists (l : list event) (w' : world S),
    fetch_unprocessed_events self limit w = (Ok l, w') /\
    db w' = db w /\
    StronglySorted store.older l /\
    List.length l =
      Nat.min (Z.to_nat match limit with
                        | Some l => l
                        | None => batch_size self
                        end)
              (List.length (store.pending (db w))) /\
    exists rest : list event,
      Permutation (l ++ rest) (store.pending (db w)) /\
      forall x y, In x l -> In y rest -> store.older x y.
Proof.
  set (n := match limit with Some l => l | None => batch_size self end) in *.
  pose (s := order_by_timestamp (store.pending (db w))).
  assert (Hrun : exists w',
    fetch_unprocessed_events self limit w = (Ok (firstn (Z.to_nat n) s), w')
    /\ db w' = db w).
  { unfold fetch_unprocessed_events, get_unprocessed_events. fold n.
    unfold bind at 1, statement. rewrite Hstore.
    unfold select_unprocessed.
    destruct (n <? 0) eqn:Hn; [apply Z.ltb_lt in Hn; lia|].
    fold (store.pending (db w)). fold s.
    destruct (firstn (Z.to_nat n) s); eexists; split; reflexivity. }
  destruct Hrun as (w' & Hrun & Hdb).
  exists (firstn (Z.to_nat n) s), w'.
  pose proof (order_by_timestamp_sorted (store.pending (db w))) as Hs.
  fold s in Hs. rewrite <- (firstn_skipn (Z.to_nat n) s) in Hs.
  destruct (sorted_app _ _ _ Hs) as (H1 & _ & H12).
  repeat split; try assumption.
  - rewrite length_firstn. unfold s.
    now rewrite (Permutation_length (StoreFacts.order_by_timestamp_perm _)).
  - exists (skipn (Z.to_nat n) s). split; [|exact H12].
    rewrite firstn_skipn. apply StoreFacts.order_by_timestamp_perm.
Qed.

(** X1, witness: the two pending events of [store_pair], limit 1. *)
Lemma fetch_oldest_first_witness :
  exists (l : list event) (w' : world unit),
    fetch_unprocessed_events
      (mkBatchProcessor 1 (10 # 100) (5 # 1000) (2 # 100)) None
      (scenario.quiet tt scenario.store_pair) = (Ok l, w') /\
    List.length l = 1%nat.
Proof.
  destruct (fetch_oldest_first unit
              (mkBatchProcessor 1 (10 # 100) (5 # 1000) (2 # 100)) None
              (scenario.quiet tt scenario.store_pair) eq_refl)
    as (l & w' & Hrun & _ & _ & Hlen & _).
  - vm_compute. discriminate.
  - exists l, w'. split; [exact Hrun|exact Hlen].
Defined.

End FetchFacts.

(* ===================================================================== *)
(** * The metrics of a batch *)
(* ===================================================================== *)

Module MetricsFacts.
Import batch_processor WpRules.

Lemma dict_get_set_same (k : string) (v x : Z) (d : list (string * Z)) :
  dict_get k (dict_set k v d) x = v.
Proof.
  induction d as [|[k' v'] r IH]; cbn [dict_set dict_get].
  - now rewrite String.eqb_refl.
  - destruct (String.eqb k k') eqn:E; cbn [dict_get]; rewrite ?E;
      [now rewrite String.eqb_refl|exact IH].
Qed.

Lemma dict_get_set_other (k t : string) (v x : Z) (d : list (string * Z)) :
  String.eqb t k = false ->
  dict_get t (dict_set k v d) x = dict_get t d x.
Proof.
  intros Hk. induction d as [|[k' v'] r IH]; cbn [dict_set dict_get].
  - now rewrite Hk.
  - destruct (String.eqb k k') eqn:E; cbn [dict_get].
    + apply String.eqb_eq in E. subst k'. now rewrite Hk.
    + now rewrite IH.
Qed.

Lemma dict_set_keys (k : string) (v : Z) (d : list (string * Z)) :
  NoDup (map fst d) -> NoDup (map fst (dict_set k v d)) /\
  forall t, In t (map fst (dict_set k v d)) <-> t = k \/ In t (map fst d).
Proof.
  induction d as [|[k' v'] r IH]; cbn [dict_set map fst]; intros Hd.
  - split; [repeat constructor; auto|]. intros t. cbn. intuition congruence.
  - inversion Hd as [|? ? Hk' Hr]; subst.
    destruct (String.eqb k k') eqn:E.
    + apply String.eqb_eq in E. subst k'. cbn [map fst].
      split; [now constructor|]. intros t. cbn. intuition congruence.
    + apply String.eqb_neq in E. destruct (IH Hr) as [Hn Hin].
      cbn [map fst]. split.
      * constructor; [|exact Hn]. intros Hc. apply Hin in Hc.
        destruct Hc as [Hc|Hc]; [now apply E|now apply Hk'].
      * intros t. cbn. rewrite Hin. intuition congruence.
Qed.

Lemma dict_set_total (k : string) (d : list (string * Z)) :
  fold_right Z.add 0 (map snd (dict_set k (dict_get k d 0 + 1) d)) =
  fold_right Z.add 0 (map snd d) + 1.
Proof.
  induction d as [|[k' v'] r IH]; cbn [dict_set dict_get map snd fold_right].
  - lia.
  - destruct (String.eqb k k') eqn:E; cbn [map snd fold_right].
    + lia.
    + rewrite IH. lia.
Qed.

(** The loop over the events, from any dict. *)
Lemma count_types (events : list event) (acc : list (string * Z)) :
  NoDup (map fst acc) ->
  let types :=
    fold_left
      (fun types event =>
         dict_set (ev_event_type event)
                  (dict_get (ev_event_type event) types 0 + 1) types)
      events acc in
  NoDup (map fst types) /\
  (forall t, dict_get t types 0 = dict_get t acc 0 + store.count_type t events)
  /\
  fold_right Z.add 0 (map snd types) =
    fold_right Z.add 0 (map snd acc) + Py.len events.
Proof.
  revert acc. induction events as [|e r IH]; intros acc Hacc;
    cbn [fold_left].
  - unfold store.count_type, Py.len. cbn. repeat split; auto; intros; lia.
  - destruct (dict_set_keys (ev_event_type e)
                (dict_get (ev_event_type e) acc 0 + 1) acc Hacc) as [Hn _].
    destruct (IH _ Hn) as (H1 & H2 & H3). repeat split.
    + exact H1.
    + intros t. rewrite H2. unfold store.count_type, Py.len.
      cbn [filter].
      destruct (String.eqb (ev_event_type e) t) eqn:E.
      * apply String.eqb_eq in E. subst t.
        rewrite dict_get_set_same. cbn [List.length]. lia.
      * rewrite dict_get_set_other
          by (rewrite String.eqb_sym; exact E). lia.
    + rewrite H3, dict_set_total. unfold Py.len. cbn [List.length]. lia.
Qed.

(** X2. [calculate_batch_metrics] never fails, on the empty list either;
    [batch_size] is the number of events; [event_types] has each type once,
    with the number of events of that type (zero for a type that is
    absent), and its counts add up to [batch_size]. *)
Theorem calculate_batch_metrics_counts
    (S : Type) (self : BatchProcessor) (events : list event) (w : world S) :
  exists m : metrics,
    calculate_batch_metrics self events w = (Ok m, w) /\
    m_batch_size m = Py.len events /\
    m_total_data_kb m =
      Py.round_ndigits (Py.sum (map ev_data_size_kb events)) 2 /\
    NoDup (map fst (m_event_types m)) /\
    (forall t, dict_get t (m_event_types m) 0 = store.count_type t events) /\
    fold_right Z.add 0 (map snd (m_event_types m)) = m_batch_size m /\
    (events = [] -> m_avg_data_per_event m = 0%Q).
Proof.
  pose proof (count_types events [] (NoDup_nil _)) as (H1 & H2 & H3).
  unfold calculate_batch_metrics.
  destruct events as [|e r].
  - eexists. split; [reflexivity|]. cbn [m_batch_size m_total_data_kb
      m_event_types m_avg_data_per_event].
    repeat split; auto.
  - unfold bind at 1, bind at 1, truediv.
    destruct (Qeq_bool (inject_Z (Py.len (e :: r))) 0) eqn:Hz.
    { apply Qeq_bool_eq in Hz. now elim (BatchFacts.len_cons_nonzero e r). }
    eexists. split; [reflexivity|]. cbn [m_batch_size m_total_data_kb
      m_event_types m_avg_data_per_event].
    repeat split; auto. discriminate.
Qed.

End MetricsFacts.

(* ===================================================================== *)
(** * The simulated processing *)
(* ===================================================================== *)

Module DurationFacts.
Import batch_processor WpRules.

Lemma round_half_even_nonneg (x : Q) :
  (0 <= x)%Q -> 0 <= Py.round_half_even x.
Proof.
  intros Hx. unfold Py.round_half_even.
  assert (H0 : 0 <= Qfloor x).
  { change 0 with (Qfloor 0). now apply Qfloor_resp_le. }
  destruct (Qcompare _ _); [destruct (Z.even _)| |]; lia.
Qed.

Lemma round_ndigits_nonneg (x : Q) (n : nat) :
  (0 <= x)%Q -> (0 <= Py.round_ndigits x n)%Q.
Proof.
  intros Hx. unfold Py.round_ndigits.
  assert (Hs : (0 <= x * inject_Z (10 ^ Z.of_nat n))%Q).
  { apply Qmult_le_0_compat; [exact Hx|].
    unfold Qle, inject_Z. cbn [Qnum Qden].
    assert (0 < 10 ^ Z.of_nat n) by (apply Z.pow_pos_nonneg; lia). lia. }
  apply round_half_even_nonneg in Hs.
  unfold Qle. cbn [Qnum Qden]. lia.
Qed.

Lemma sum_nonneg (xs : list Q) :
  Forall (fun x => (0 <= x)%Q) xs -> (0 <= Py.sum xs)%Q.
Proof.
  intros H. unfold Py.sum. rewrite StoreFacts.sum_from.
  assert (0 <= fold_right Qplus 0 xs)%Q.
  { induction H as [|x r Hx _ IH]; cbn [fold_right]; [apply Qle_refl|].
    change 0%Q with (0 + 0)%Q. now apply Qplus_le_compat. }
  lra.
Qed.

(** X3. [simulate_processing] on a volume that is not negative, with a
    processing speed that is not negative and [random.random()] in
    [[0, 1)]: it does not fail, sleeps once, for a time between
    [volume * speed * 0.8 + 0.5] and [volume * speed * 1.2 + 0.5] seconds,
    and returns that time rounded to two decimals. *)
Theorem simulate_processing_bounds
    (S : Type) (self : BatchProcessor) (total_data_kb : Q) (n : Z)
    (w : world S)
    (Hvolume : (0 <= total_data_kb)%Q)
    (Hspeed : (0 <= PROCESSING_SPEED self)%Q)
    (Hrandom : (0 <= entropy w (drawn w) < 1)%Q) :
  exists (d : Q) (w' : world S),
    simulate_processing self total_data_kb n w =
      (Ok (Py.round_ndigits d 2), w') /\
    slept w' = slept w ++ [d] /\
    clock w' = (clock w + d)%Q /\
    (total_data_kb * PROCESSING_SPEED self * (8 # 10) + (5 # 10) <= d)%Q /\
    (d <= total_data_kb * PROCESSING_SPEED self * (12 # 10) + (5 # 10))%Q /\
    (5 # 10 <= d)%Q.
Proof.
  set (u := entropy w (drawn w)) in *.
  set (v := (total_data_kb * PROCESSING_SPEED self)%Q).
  assert (Hv : (0 <= v)%Q) by (now apply Qmult_le_0_compat).
  set (d := (v * ((8 # 10) + ((12 # 10) - (8 # 10)) * u) + (5 # 10))%Q).
  assert (Hd : (v * (8 # 10) + (5 # 10) <= d /\
                d <= v * (12 # 10) + (5 # 10))%Q).
  { unfold d. split; nra. }
  assert (Hpos : (5 # 10 <= d)%Q) by nra.
  exists d.
  unfold simulate_processing, random_uniform.
  unfold bind at 1, bind at 1, random, ret. fold u. fold v. fold d.
  unfold bind at 1, print. unfold bind at 1, time_sleep.
  destruct (Qlt_le_dec d 0) as [Hneg|_]; [lra|].
  eexists. split; [reflexivity|]. cbn [slept clock asleep log draw].
  repeat split; try apply Hd; assumption.
Qed.

(** X3, witness: 40 KB at the speed of [BatchProcessor]. *)
Lemma simulate_processing_bounds_witness :
  exists (d : Q) (w' : world unit),
    simulate_processing (mkBatchProcessor 50 (10 # 100) (5 # 1000) (2 # 100))
      40 2 (scenario.quiet tt scenario.store_pair) =
      (Ok (Py.round_ndigits d 2), w') /\
    (5 # 10 <= d)%Q.
Proof.
  destruct (simulate_processing_bounds unit
              (mkBatchProcessor 50 (10 # 100) (5 # 1000) (2 # 100)) 40 2
              (scenario.quiet tt scenario.store_pair))
    as (d & w' & Hrun & _ & _ & _ & _ & Hd).
  - vm_compute. discriminate.
  - vm_compute. discriminate.
  - split; vm_compute; [discriminate|reflexivity].
  - exists d, w'. split; [exact Hrun|exact Hd].
Defined.

End DurationFacts.

(* ===================================================================== *)
(** * Claiming events *)
(* ===================================================================== *)

Module ClaimFacts.
Import batch_processor db_glue WpRules.

Lemma firstn_In {A} (n : nat) (l : list A) (x : A) :
  In x (firstn n l) -> In x l.
Proof.
  intros H. rewrite <- (firstn_skipn n l). apply in_or_app. now left.
Qed.

Lemma claimed_pending {S} (p : BatchProcessor) (w : world S) (e : event) :
  In e (run.claimed p w) -> In e (store.pending (db w)).
Proof.
  intros H. apply firstn_In in H.
  apply (Permutation_in _ (StoreFacts.order_by_timestamp_perm _) H).
Qed.

Lemma pending_In (d : database) (e : event) :
  In e (store.pending d) <-> In e (events d) /\ ev_processed e = false.
Proof.
  unfold store.pending, unprocessed. rewrite filter_In.
  now rewrite negb_true_iff.
Qed.

Lemma id_in_iff (ids : list Z) (e : event) :
  id_in ids e = true <-> In (ev_id e) ids.
Proof.
  split; [|apply StoreFacts.id_in_spec].
  unfold id_in. intros H. apply existsb_exists in H.
  destruct H as (x & Hx & E). apply Z.eqb_eq in E. now rewrite E.
Qed.

(** What is pending after the [UPDATE] of step 6. *)
Lemma unprocessed_after_mark (batch_id : Z) (ids : list Z)
    (es : list event) :
  unprocessed (map (mark_row batch_id ids) es) =
  filter (fun e => negb (id_in ids e)) (unprocessed es).
Proof.
  unfold unprocessed.
  induction es as [|x r IH]; cbn [map filter]; [reflexivity|].
  destruct (id_in ids x) eqn:Hin.
  - assert (Hm : ev_processed (mark_row batch_id ids x) = true)
      by (unfold mark_row; now rewrite Hin).
    rewrite Hm. cbn [negb].
    destruct (ev_processed x); cbn [negb filter]; rewrite ?Hin; cbn [negb];
      exact IH.
  - assert (Hm : mark_row batch_id ids x = x)
      by (unfold mark_row; now rewrite Hin).
    rewrite Hm.
    destruct (ev_processed x); cbn [negb filter]; rewrite ?Hin; cbn [negb];
      now rewrite IH.
Qed.

Lemma mark_keeps_ids (batch_id : Z) (ids : list Z) (es : list event) :
  map ev_id (map (mark_row batch_id ids) es) = map ev_id es.
Proof.
  rewrite map_map. apply map_ext. intros e. unfold mark_row.
  now destruct (id_in ids e).
Qed.

Lemma partition_perm {A} (f : A -> bool) (l : list A) :
  Permutation (filter f l ++ filter (fun x => negb (f x)) l) l.
Proof.
  induction l as [|x r IH]; cbn [filter]; [reflexivity|].
  destruct (f x); cbn [negb app].
  - now constructor.
  - rewrite <- Permutation_middle. now constructor.
Qed.

Lemma filter_perm_length {A} (f : A -> bool) (l l' : list A) :
  Permutation l l' ->
  List.length (filter f l) = List.length (filter f l').
Proof.
  intros P. induction P; cbn [filter].
  - reflexivity.
  - destruct (f x); cbn [List.length]; now rewrite IHP.
  - destruct (f x), (f y); reflexivity.
  - now rewrite IHP1.
Qed.

Lemma filter_split_length {A} (f : A -> bool) (l : list A) :
  (List.length (filter f l) +
   List.length (filter (fun x => negb (f x)) l) = List.length l)%nat.
Proof.
  rewrite <- length_app.
  apply Permutation_length, partition_perm.
Qed.

(** Over a table of distinct keys, the rows whose key is one of [l1]'s
    are the rows of [l1]. *)
Lemma own_rows (l1 l2 : list event) :
  NoDup (map ev_id (l1 ++ l2)) ->
  List.length (filter (id_in (map ev_id l1)) (l1 ++ l2)) = List.length l1.
Proof.
  intros Hn. rewrite filter_app, length_app.
  assert (H1 : filter (id_in (map ev_id l1)) l1 = l1).
  { apply forallb_filter_id. apply forallb_forall. intros x Hx.
    apply id_in_iff. now apply in_map. }
  assert (H2 : filter (id_in (map ev_id l1)) l2 = []).
  { rewrite map_app in Hn.
    destruct (filter _ l2) as [|y r] eqn:E; [reflexivity|].
    assert (Hy : In y (filter (id_in (map ev_id l1)) l2))
      by (rewrite E; now left).
    apply filter_In in Hy. destruct Hy as [Hy2 Hy1].
    apply id_in_iff in Hy1.
    exfalso. revert Hn Hy1 Hy2. clear.
    induction l1 as [|a l1 IH]; cbn [map app]; [contradiction|].
    intros Hn [Ha|Hin] Hy2.
    - inversion Hn as [|? ? Hna _]; subst. apply Hna.
      rewrite Ha. apply in_or_app. right. now apply in_map.
    - inversion Hn; subst. now apply IH. }
  rewrite H1, H2. cbn. lia.
Qed.

Lemma own_rows_perm (claimed l : list event) (rest : list event) :
  Permutation (claimed ++ rest) l ->
  NoDup (map ev_id l) ->
  List.length (filter (id_in (map ev_id claimed)) l) = List.length claimed.
Proof.
  intros P Hn.
  rewrite <- (filter_perm_length _ _ _ P).
  apply own_rows.
  apply (Permutation_NoDup (Permutation_map ev_id (Permutation_sym P)) Hn).
Qed.

(** The events claimed and the pending events left behind make up the
    pending events. *)
Lemma claimed_split {S} (p : BatchProcessor) (w : world S) :
  exists rest : list event,
    Permutation (run.claimed p w ++ rest) (store.pending (db w)).
Proof.
  exists (skipn (Z.to_nat (batch_size p))
            (order_by_timestamp (store.pending (db w)))).
  unfold run.claimed. fold (store.pending (db w)).
  rewrite firstn_skipn. apply StoreFacts.order_by_timestamp_perm.
Qed.

Lemma pending_split (d : database) :
  Permutation
    (store.pending d ++ filter (fun e => negb (negb (ev_processed e)))
                               (events d))
    (events d).
Proof. apply partition_perm. Qed.

(** X5. After a [process_batch] that returned a result, no pending event
    carries the key of an event that this batch claimed; so whatever a
    later [process_batch] claims in the world it left, it claims no key a
    second time. *)
Theorem no_event_is_claimed_twice
    (S : Type) (p p2 : BatchProcessor) (w w' : world S) (r : batch_result)
    (Hrun : process_batch p w = (Ok (Some r), w')) :
  (forall e, In e (store.pending (db w')) ->
             ~ In (ev_id e) (map ev_id (run.claimed p w))) /\
  (forall e, In e (run.claimed p2 w') ->
             ~ In (ev_id e) (map ev_id (run.claimed p w))).
Proof.
  pose proof (wp_returns _ _ _ _ _ _ (BatchFacts.process_batch_spec p w) Hrun)
    as P.
  cbn beta iota in P. destruct P as (_ & _ & _ & _ & _ & _ & Hev & _).
  assert (H : forall e, In e (store.pending (db w')) ->
                        ~ In (ev_id e) (map ev_id (run.claimed p w))).
  { intros e He. unfold store.pending in He.
    rewrite Hev, unprocessed_after_mark in He.
    apply filter_In in He. destruct He as [_ He].
    apply negb_true_iff in He. intros Hin.
    apply id_in_iff in Hin. congruence. }
  split; [exact H|].
  intros e He. apply H. now apply (claimed_pending p2).
Qed.

(** X5, witness: two batches of size 1 over [store_pair]. *)
Lemma no_event_is_claimed_twice_witness :
  let p := mkBatchProcessor 1 (10 # 100) (5 # 1000) (2 # 100) in
  let w := scenario.quiet tt scenario.store_pair in
  map ev_id (run.claimed p w) = [1] /\
  map ev_id (run.claimed p (snd (process_batch p w))) = [2] /\
  forall e, In e (run.claimed p (snd (process_batch p w))) ->
            ~ In (ev_id e) (map ev_id (run.claimed p w)).
Proof.
  intros p w.
  assert (Hrun : process_batch p w =
                 (Ok (Some (mkResult 1 1 (2000 # 100) (90 # 100)
                                     (1050 # 10000) (1050 # 10000))),
                  snd (process_batch p w)))
    by (vm_compute; reflexivity).
  split; [reflexivity|]. split; [vm_compute; reflexivity|].
  exact (proj2 (no_event_is_claimed_twice _ p p _ _ _ Hrun)).
Defined.

End ClaimFacts.

(* ===================================================================== *)
(** * The environment of a run *)
(* ===================================================================== *)

Module SteadyFacts.
Import batch_processor ml_model WpRules.

Section Rules.
Context {S : Type}.

Lemma steady_ret {A} (a : A) : steady (@ret S A a).
Proof. intros w. repeat split; apply incl_refl. Qed.

Lemma steady_raise {A} (e : exn) : steady (@raise S A e).
Proof. intros w. repeat split; apply incl_refl. Qed.

Lemma steady_bind {A B} (m : M S A) (k : A -> M S B) :
  steady m -> (forall a, steady (k a)) -> steady (bind m k).
Proof.
  intros Hm Hk w. specialize (Hm w). unfold bind.
  destruct (m w) as [[a|e] w1]; cbn [snd] in *; [|exact Hm].
  destruct Hm as (He & Ho & Hf). destruct (Hk a w1) as (He' & Ho' & Hf').
  repeat split.
  - congruence.
  - eapply incl_tran; eassumption.
  - eapply incl_tran; eassumption.
Qed.

Lemma steady_try_except {A} (body : M S A)
    (handler : exn -> option (M S A)) :
  steady body ->
  (forall e h, handler e = Some h -> steady h) ->
  steady (try_except body handler).
Proof.
  intros Hb Hh w. specialize (Hb w). unfold try_except.
  destruct (body w) as [[a|e] w1]; cbn [snd] in *; [exact Hb|].
  destruct (handler e) as [h|] eqn:E; [|exact Hb].
  destruct Hb as (He & Ho & Hf). destruct (Hh e h E w1) as (He' & Ho' & Hf').
  repeat split.
  - congruence.
  - eapply incl_tran; eassumption.
  - eapply incl_tran; eassumption.
Qed.

Lemma steady_print (l : log_line) : steady (@print S l).
Proof. intros w. repeat split; apply incl_refl. Qed.

Lemma steady_now : steady (@now S).
Proof. intros w. repeat split; apply incl_refl. Qed.

Lemma steady_random : steady (@random S).
Proof. intros w. repeat split; apply incl_refl. Qed.

Lemma steady_get_self : steady (@get_self S).
Proof. intros w. repeat split; apply incl_refl. Qed.

Lemma steady_modify_self (f : S -> S) : steady (modify_self f).
Proof. intros w. repeat split; apply incl_refl. Qed.

Lemma steady_truediv (a b : Q) : steady (@truediv S a b).
Proof.
  intros w. unfold truediv.
  destruct (Qeq_bool b 0); repeat split; apply incl_refl.
Qed.

Lemma steady_time_sleep (secs : Q) : steady (@time_sleep S secs).
Proof.
  intros w. unfold time_sleep.
  destruct (Qlt_le_dec secs 0); cbn [snd asleep entropy others faults];
    repeat split; try apply incl_refl.
  apply SafeFacts.incl_tl_list.
Qed.

Lemma steady_statement {A} (q : database -> outcome A * database) :
  steady (@statement S A q).
Proof.
  intros w. unfold statement.
  destruct (hd None (faults w)) as [f|]; [|destruct (q (db w)) as [[a|e] d]];
    cbn [snd struck set_db entropy others faults];
    repeat split; try apply incl_refl; apply SafeFacts.incl_tl_list.
Qed.

End Rules.

Ltac steady_step :=
  first
    [ apply steady_bind; [|intros ?]
    | apply steady_ret
    | apply steady_raise
    | apply steady_print
    | apply steady_now
    | apply steady_random
    | apply steady_get_self
    | apply steady_modify_self
    | apply steady_time_sleep
    | apply steady_truediv
    | apply steady_statement
    | match goal with
      | |- steady (match ?x with _ => _ end) => destruct x
      end ].

Lemma process_batch_steady {S} (p : BatchProcessor) :
  steady (@process_batch S p).
Proof.
  unfold process_batch, fetch_unprocessed_events,
    db_glue.get_unprocessed_events, calculate_batch_metrics,
    create_batch_record, simulate_processing, random_uniform,
    calculate_cost, mark_events_as_processed, update_batch_record,
    save_cost_metrics.
  repeat steady_step.
Qed.

Lemma calm_kept {S A} (m : M S A) (w : world S) :
  steady m -> store.calm w -> store.calm (snd (m w)).
Proof.
  intros Hm (Hf & Ho & He). destruct (Hm w) as (He' & Ho' & Hf').
  rewrite Hf in Hf'. rewrite Ho in Ho'.
  repeat split.
  - now apply incl_l_nil.
  - now apply incl_l_nil.
  - rewrite He'. apply He.
  - rewrite He'. apply He.
Qed.

End SteadyFacts.

(* ===================================================================== *)
(** * One batch in a calm world *)
(* ===================================================================== *)

Module CalmFacts.
Import batch_processor db_glue WpRules ClaimFacts.

Lemma claimed_size {S} (p : BatchProcessor) (w : world S) :
  0 <= batch_size p ->
  run.size p w = Z.min (batch_size p) (Py.len (store.pending (db w))).
Proof.
  intros Hp. unfold run.size, run.claimed, Py.len.
  rewrite length_firstn.
  rewrite (Permutation_length (StoreFacts.order_by_timestamp_perm _)).
  rewrite Nat2Z.inj_min, Z2Nat.id by exact Hp. reflexivity.
Qed.

Lemma claimed_nil {S} (p : BatchProcessor) (w : world S) :
  0 <= batch_size p ->
  run.claimed p w = [] <-> store.pending (db w) = [] \/ batch_size p = 0.
Proof.
  intros Hp.
  pose proof (claimed_size p w Hp) as Hs. unfold run.size, Py.len in Hs.
  split.
  - intros E. rewrite E in Hs. cbn [List.length] in Hs.
    destruct (store.pending (db w)) as [|x r]; [now left|right].
    cbn [List.length] in Hs. lia.
  - intros H. apply length_zero_iff_nil.
    destruct H as [H|H]; [rewrite H in Hs|rewrite H in Hs];
      cbn [List.length] in Hs; lia.
Qed.

Lemma volume_nonneg {S} (p : BatchProcessor) (w : world S) :
  store.sizes_nonneg (db w) -> (0 <= run.volume p w)%Q.
Proof.
  intros Hs. unfold run.volume.
  apply DurationFacts.round_ndigits_nonneg, DurationFacts.sum_nonneg.
  apply Forall_forall. intros x Hx. apply in_map_iff in Hx.
  destruct Hx as (e & <- & He).
  apply claimed_pending, pending_In in He.
  unfold store.sizes_nonneg in Hs. rewrite Forall_forall in Hs.
  apply Hs, He.
Qed.

Lemma duration_nonneg {S} (p : BatchProcessor) (w : world S) :
  store.sizes_nonneg (db w) ->
  (0 <= PROCESSING_SPEED p)%Q ->
  (0 <= entropy w (drawn w))%Q ->
  (0 <= run.duration p w)%Q.
Proof.
  intros Hs Hp Hu. pose proof (volume_nonneg p w Hs) as Hv.
  unfold run.duration.
  set (v := (run.volume p w * PROCESSING_SPEED p)%Q).
  assert (0 <= v)%Q by (now apply Qmult_le_0_compat).
  set (u := entropy w (drawn w)) in *. nra.
Qed.

Lemma marked_rows_keep_sizes (batch_id : Z) (ids : list Z)
    (es : list event) :
  Forall (fun e => (0 <= ev_data_size_kb e)%Q) es ->
  Forall (fun e => (0 <= ev_data_size_kb e)%Q)
         (map (mark_row batch_id ids) es).
Proof.
  intros H. apply Forall_map. revert H. apply Forall_impl.
  intros e He. unfold mark_row. now destruct (id_in ids e).
Qed.

Lemma pending_unique (d : database) :
  store.unique_ids d -> NoDup (map ev_id (store.pending d)).
Proof.
  intros Hn. unfold store.unique_ids in Hn.
  pose proof (Permutation_map ev_id (pending_split d)) as P.
  apply Permutation_sym in P.
  apply (Permutation_NoDup P) in Hn. rewrite map_app in Hn.
  now apply NoDup_app_remove_r in Hn.
Qed.

(** What [process_batch] does in a calm world, over a table of distinct
    keys and sizes that are not negative. *)
Lemma process_batch_calm {S} (p : BatchProcessor) (w : world S) :
  store.calm w ->
  store.sizes_nonneg (db w) ->
  store.unique_ids (db w) ->
  0 <= batch_size p ->
  (0 <= PROCESSING_SPEED p)%Q ->
  exists (r : option batch_result) (w' : world S),
    process_batch p w = (Ok r, w') /\
    self w' = self w /\
    store.calm w' /\
    store.sizes_nonneg (db w') /\
    store.unique_ids (db w') /\
    match r with
    | None => run.claimed p w = [] /\ db w' = db w
    | Some r =>
        run.completes p w r w' /\
        run.rows_marked p w = run.size p w /\
        Py.len (store.pending (db w')) =
          Py.len (store.pending (db w)) - run.size p w
    end.
Proof.
  intros Hcalm Hsizes Hids Hp Hspeed.
  pose proof (SteadyFacts.calm_kept _ w
                (SteadyFacts.process_batch_steady p) Hcalm) as Hcalm'.
  destruct Hcalm as (Hf & Ho & Hu).
  pose proof (duration_nonneg p w Hsizes Hspeed (proj1 (Hu _))) as Hdur.
  pose proof (BatchFacts.process_batch_spec p w) as P. unfold wp in P.
  destruct (process_batch p w) as [[[r|]|e] w']; cbn [snd] in Hcalm'.
  - exists (Some r), w'.
    pose proof P as (Hne & Hr & Hself & _ & _ & _ & Hev & _ & _ & _).
    unfold run.events_after_sleep, turn_of_others in Hev.
    rewrite Ho in Hev.
    assert (Hrows : run.rows_marked p w = run.size p w).
    { unfold run.rows_marked, run.size, run.events_after_sleep,
        turn_of_others, Py.len. rewrite Ho. f_equal.
      destruct (claimed_split p w) as (rest & Hsplit).
      apply (own_rows_perm _ _
               (rest ++ filter (fun e => negb (negb (ev_processed e)))
                               (events (db w)))); [|exact Hids].
      rewrite app_assoc.
      eapply Permutation_trans; [|apply pending_split].
      apply Permutation_app_tail. exact Hsplit. }
    split; [reflexivity|]. split; [exact Hself|]. split; [exact Hcalm'|].
    split; [|split; [|split; [exact P|split; [exact Hrows|]]]].
    + unfold store.sizes_nonneg. rewrite Hev.
      now apply marked_rows_keep_sizes.
    + unfold store.unique_ids. rewrite Hev, mark_keeps_ids. exact Hids.
    + unfold store.pending at 1. rewrite Hev, unprocessed_after_mark.
      fold (store.pending (db w)).
      pose proof (filter_split_length
                    (id_in (map ev_id (run.claimed p w)))
                    (store.pending (db w))) as Hsum.
      destruct (claimed_split p w) as (rest & Hsplit).
      rewrite (own_rows_perm _ _ _ Hsplit (pending_unique _ Hids)) in Hsum.
      unfold run.size, Py.len. lia.
  - exists None, w'. destruct P as (Hnil & Hself & Hdb & _).
    rewrite Hdb.
    split; [reflexivity|]. split; [exact Hself|]. split; [exact Hcalm'|].
    split; [exact Hsizes|]. split; [exact Hids|]. now split.
  - exfalso. destruct P as (_ & [H|[H|H]]).
    + now apply H.
    + lia.
    + apply (Qlt_not_le _ _ H Hdur).
Qed.

(** X4. In a calm world, over events of sizes that are not negative and
    with a batch size that is not negative, [process_batch] does not
    raise.  It returns [None] exactly when nothing is pending or the batch
    size is [0]; otherwise its result counts [min(batch_size, pending)]
    events. *)
Theorem process_batch_takes_what_fits
    (S : Type) (p : BatchProcessor) (w : world S)
    (Hcalm : store.calm w)
    (Hsizes : store.sizes_nonneg (db w))
    (Hids : store.unique_ids (db w))
    (Hp : 0 <= batch_size p)
    (Hspeed : (0 <= PROCESSING_SPEED p)%Q) :
  exists (r : option batch_result) (w' : world S),
    process_batch p w = (Ok r, w') /\
    (r = None <-> store.pending (db w) = [] \/ batch_size p = 0) /\
    match r with
    | None => db w' = db w
    | Some r =>
        r_events_processed r =
          Z.min (batch_size p) (Py.len (store.pending (db w))) /\
        0 < r_events_processed r
    end.
Proof.
  destruct (process_batch_calm p w Hcalm Hsizes Hids Hp Hspeed)
    as (r & w' & Hrun & _ & _ & _ & _ & Hr).
  exists r, w'. split; [exact Hrun|].
  destruct r as [r|].
  - destruct Hr as ((Hne & Heq & _) & _). subst r.
    cbn [r_events_processed]. split; [|split].
    + split; [discriminate|]. intros H.
      now apply (claimed_nil p w Hp) in H.
    + now apply claimed_size.
    + unfold run.size. destruct (run.claimed p w); [easy|].
      apply BatchFacts.len_cons_pos.
  - destruct Hr as (Hnil & Hdb). split; [|exact Hdb].
    split; [intros _; now apply (claimed_nil p w Hp)|reflexivity].
Qed.

(** X6. In a calm world, over a table of distinct keys: a [process_batch]
    that returns a result has marked as many rows as it claimed events,
    has left pending exactly that many events fewer, and has kept the keys
    of the table. *)
Theorem process_batch_accounts_for_its_events
    (S : Type) (p : BatchProcessor) (w w' : world S) (r : batch_result)
    (Hcalm : store.calm w)
    (Hsizes : store.sizes_nonneg (db w))
    (Hids : store.unique_ids (db w))
    (Hp : 0 <= batch_size p)
    (Hspeed : (0 <= PROCESSING_SPEED p)%Q)
    (Hrun : process_batch p w = (Ok (Some r), w')) :
  run.rows_marked p w = r_events_processed r /\
  In (Marked (r_events_processed r)) (stdout w') /\
  Py.len (store.pending (db w')) =
    Py.len (store.pending (db w)) - r_events_processed r /\
  map ev_id (events (db w')) = map ev_id (events (db w)) /\
  store.unique_ids (db w').
Proof.
  destruct (process_batch_calm p w Hcalm Hsizes Hids Hp Hspeed)
    as (r0 & w0 & Hrun0 & _ & _ & _ & Hids' & Hr).
  rewrite Hrun in Hrun0. inversion Hrun0; subst r0 w0. clear Hrun0.
  destruct Hr as ((_ & Heq & _ & Hout & _ & _ & Hev & _) & Hrows & Hpend).
  subst r. cbn [r_events_processed].
  repeat split; auto.
  - rewrite Hout. apply in_or_app. right. unfold run.output.
    rewrite Hrows. cbn. tauto.
  - rewrite Hev, mark_keeps_ids.
    unfold run.events_after_sleep, turn_of_others.
    destruct Hcalm as (_ & Ho & _). now rewrite Ho.
Qed.

End CalmFacts.

(* ===================================================================== *)
(** * The loop of [BackgroundWorker] in a calm world *)
(* ===================================================================== *)

Module DrainFacts.
Import batch_processor WpRules worker.

(** One iteration: the batch that fits is processed and counted. *)
Lemma iteration_undisturbed (w : world BackgroundWorker) :
  undisturbed w ->
  exists w' : world BackgroundWorker,
    iteration w = (Ok Next, w') /\
    undisturbed w' /\
    processor (self w') = processor (self w) /\
    is_running (self w') = is_running (self w) /\
    started_at (stats (self w')) = started_at (stats (self w)) /\
    Py.len (store.pending (db w')) =
      Py.len (store.pending (db w)) - batch_of w /\
    total_events_processed (stats (self w')) =
      total_events_processed (stats (self w)) + batch_of w /\
    total_batches_processed (stats (self w')) =
      total_batches_processed (stats (self w)) +
      (if 0 <? batch_of w then 1 else 0) /\
    total_cost (stats (self w')) =
      (if 0 <? batch_of w
       then (total_cost (stats (self w)) +
             run.cost (processor (self w)) w)%Q
       else total_cost (stats (self w))).
Proof.
  intros (Hcalm & Hsizes & Hids & Hp & Hspeed & Hi).
  destruct (CalmFacts.process_batch_calm (processor (self w)) w
              Hcalm Hsizes Hids Hp Hspeed)
    as (r & w1 & Hrun & Hself & Hcalm1 & Hsizes1 & Hids1 & Hr).
  pose proof (CalmFacts.claimed_size (processor (self w)) w Hp) as Hsize.
  fold (batch_of w) in Hsize.
  assert (Hwp :
    wp iteration
       (fun c w' =>
          c = Next /\ undisturbed w' /\
          processor (self w') = processor (self w) /\
          is_running (self w') = is_running (self w) /\
          started_at (stats (self w')) = started_at (stats (self w)) /\
          Py.len (store.pending (db w')) =
            Py.len (store.pending (db w)) - batch_of w /\
          total_events_processed (stats (self w')) =
            total_events_processed (stats (self w)) + batch_of w /\
          total_batches_processed (stats (self w')) =
            total_batches_processed (stats (self w)) +
            (if 0 <? batch_of w then 1 else 0) /\
          total_cost (stats (self w')) =
            (if 0 <? batch_of w
             then (total_cost (stats (self w)) +
                   run.cost (processor (self w)) w)%Q
             else total_cost (stats (self w))))
       (fun _ _ => False) w).
  { unfold iteration, attempt.
    apply wp_try_except. apply wp_bind. apply wp_bind. apply wp_get_self.
    apply wp_bind. unfold wp at 1. rewrite Hrun.
    destruct w1 as [me1 [es1 bs1 cms1 seq1] c1 out1 sl1 fs1 ot1 en1 dr1].
    cbn [self db events] in *. subst me1.
    destruct Hcalm1 as (Hf1 & Ho1 & Hu1). cbn [faults others entropy] in *.
    subst fs1 ot1.
    assert (Hundis : forall me2 c2 out2 sl2,
              processor me2 = processor (self w) ->
              interval_seconds me2 = interval_seconds (self w) ->
              undisturbed
                (mkWorld me2 (mkDatabase es1 bs1 cms1 seq1) c2 out2 sl2
                         [] [] en1 dr1)).
    { intros me2 c2 out2 sl2 Hp2 Hi2. unfold undisturbed, store.calm.
      cbn [self db faults others entropy]. rewrite Hp2, Hi2.
      repeat split; auto; apply Hu1. }
    destruct r as [r|].
    - destruct Hr as ((Hne & Heq & _) & _ & Hpend). subst r.
      assert (Hpos : (0 <? batch_of w) = true).
      { apply Z.ltb_lt. rewrite <- Hsize. unfold run.size.
        destruct (run.claimed (processor (self w)) w); [easy|].
        apply BatchFacts.len_cons_pos. }
      rewrite Hpos. rewrite <- Hsize.
      unfold record_batch. wp_steps.
      cbn [set_stats stats total_batches_processed total_events_processed
           total_cost started_at last_batch_at processor interval_seconds
           is_running thread r_events_processed r_cost].
      wp_steps. apply wp_time_sleep; wp_norm.
      + intros Hneg. unfold Qlt, inject_Z in Hneg.
        cbn [Qnum Qden] in Hneg. destruct (self w); cbn in *. lia.
      + intros _. wp_steps.
        cbn [set_stats stats total_batches_processed total_events_processed
             total_cost started_at last_batch_at processor interval_seconds
             is_running thread].
        split; [reflexivity|]. split.
        { apply Hundis; destruct (self w); reflexivity. }
        destruct (self w) as [p0 i0 r0 t0 [a b c d e]].
        cbn [stats total_batches_processed total_events_processed
             total_cost started_at last_batch_at processor is_running].
        repeat split; auto.
    - destruct Hr as (Hnil & Hdb).
      assert (Hzero : batch_of w = 0).
      { rewrite <- Hsize. unfold run.size. now rewrite Hnil. }
      rewrite Hzero. cbn [Z.ltb Z.compare].
      wp_steps. apply wp_time_sleep; wp_norm.
      + intros Hneg. unfold Qlt, inject_Z in Hneg.
        cbn [Qnum Qden] in Hneg. lia.
      + intros _. wp_steps. split; [reflexivity|]. split.
        { apply Hundis; reflexivity. }
        repeat split; auto; try lia. unfold store.pending. rewrite <- Hdb.
        cbn [events db set_events]. lia. }
  unfold wp in Hwp.
  destruct (iteration w) as [[c|e] w']; [|contradiction].
  destruct Hwp as (-> & Hrest). now exists w'.
Qed.

End DrainFacts.

Module DrainLoop.
Import batch_processor worker.

Lemma drained_length (w : world BackgroundWorker) :
  Py.len (store.pending (db w)) = 0 -> store.pending (db w) = [].
Proof.
  unfold Py.len. destruct (store.pending (db w)); [reflexivity|].
  cbn [List.length]. lia.
Qed.

(** X7. A running [BackgroundWorker] in a calm world, left alone for [k]
    iterations of its loop: the loop is still running, no iteration has
    raised, the queue has shrunk by [batch_size] per iteration until it is
    empty, and every event that left the queue is counted once in
    [total_events_processed].  Once [k * batch_size] reaches the length of
    the queue, nothing is pending. *)
Theorem worker_drains_the_queue
    (k : nat) (w : world BackgroundWorker)
    (Hw : undisturbed w)
    (Hrunning : is_running (self w) = true) :
  exists w' : world BackgroundWorker,
    while_is_running k w = (Ok Unfinished, w') /\
    undisturbed w' /\
    is_running (self w') = true /\
    processor (self w') = processor (self w) /\
    Py.len (store.pending (db w')) =
      Z.max 0 (Py.len (store.pending (db w)) -
               Z.of_nat k * batch_size (processor (self w))) /\
    total_events_processed (stats (self w')) +
      Py.len (store.pending (db w')) =
    total_events_processed (stats (self w)) +
      Py.len (store.pending (db w)) /\
    total_batches_processed (stats (self w')) <=
      total_batches_processed (stats (self w)) + Z.of_nat k /\
    (Py.len (store.pending (db w)) <=
       Z.of_nat k * batch_size (processor (self w)) ->
     store.pending (db w') = []).
Proof.
  assert (Hlen : forall v : world BackgroundWorker,
             0 <= Py.len (store.pending (db v))).
  { intros v. unfold Py.len. lia. }
  assert (Hmain : exists w' : world BackgroundWorker,
    while_is_running k w = (Ok Unfinished, w') /\
    undisturbed w' /\
    is_running (self w') = true /\
    processor (self w') = processor (self w) /\
    Py.len (store.pending (db w')) =
      Z.max 0 (Py.len (store.pending (db w)) -
               Z.of_nat k * batch_size (processor (self w))) /\
    total_events_processed (stats (self w')) +
      Py.len (store.pending (db w')) =
    total_events_processed (stats (self w)) +
      Py.len (store.pending (db w)) /\
    total_batches_processed (stats (self w')) <=
      total_batches_processed (stats (self w)) + Z.of_nat k).
  { revert w Hw Hrunning.
    induction k as [|k IH]; intros w Hw Hrunning.
    - exists w. cbn [while_is_running]. unfold ret.
      pose proof (Hlen w).
      split; [reflexivity|]. split; [exact Hw|]. split; [exact Hrunning|].
      split; [reflexivity|]. cbn [Z.of_nat]. lia.
    - destruct (DrainFacts.iteration_undisturbed w Hw)
        as (w1 & Hit & Hw1 & Hp1 & Hr1 & _ & Hpend1 & Hev1 & Hb1 & _).
      rewrite Hrunning in Hr1.
      destruct (IH w1 Hw1 Hr1)
        as (w2 & Hloop & Hw2 & Hr2 & Hp2 & Hpend2 & Hev2 & Hb2).
      exists w2.
      cbn [while_is_running]. unfold bind at 1, get_self at 1.
      rewrite Hrunning. unfold bind at 1. rewrite Hit, Hloop.
      split; [reflexivity|]. split; [exact Hw2|]. split; [exact Hr2|].
      split; [congruence|].
      rewrite Hp1 in *.
      destruct Hw as (_ & _ & _ & Hb & _).
      pose proof (Hlen w) as Hn.
      unfold batch_of in *.
      set (b := batch_size (processor (self w))) in *.
      set (n := Py.len (store.pending (db w))) in *.
      assert (Hkb : 0 <= Z.of_nat k * b) by (apply Z.mul_nonneg_nonneg; lia).
      rewrite Nat2Z.inj_succ, Z.mul_succ_l.
      destruct (0 <? Z.min b n); lia. }
  destruct Hmain as (w' & Hloop & Hw' & Hr' & Hp' & Hpend & Hev & Hb).
  exists w'.
  split; [exact Hloop|]. split; [exact Hw'|]. split; [exact Hr'|].
  split; [exact Hp'|]. split; [exact Hpend|]. split; [exact Hev|].
  split; [exact Hb|].
  intros Hle. apply drained_length. lia.
Qed.

End DrainLoop.

(* ===================================================================== *)
(** * Runs in calm worlds *)
(* ===================================================================== *)

Module CalmRuns.
Import batch_processor worker.

Lemma quiet_is_calm {S} (me : S) (d : database) :
  store.calm (scenario.quiet me d).
Proof.
  unfold store.calm, scenario.quiet. cbn [faults others entropy].
  split; [reflexivity|]. split; [reflexivity|].
  intros _. split; [discriminate|reflexivity].
Qed.

Lemma pair_sizes_nonneg : store.sizes_nonneg scenario.store_pair.
Proof.
  unfold store.sizes_nonneg, scenario.store_pair. cbn [events].
  repeat constructor; discriminate.
Qed.

Lemma pair_unique_ids : store.unique_ids scenario.store_pair.
Proof.
  unfold store.unique_ids, scenario.store_pair. cbn.
  repeat constructor; cbn; intuition discriminate.
Qed.

Lemma plain_worker_undisturbed :
  undisturbed (scenario.quiet scenario.plain_worker scenario.store_pair).
Proof.
  split; [apply quiet_is_calm|].
  split; [apply pair_sizes_nonneg|].
  split; [apply pair_unique_ids|].
  cbn. repeat split; discriminate.
Qed.

(** X4, witness: a batch of one out of the two events of [store_pair]. *)
Lemma process_batch_takes_what_fits_witness :
  exists (r : batch_result) (w' : world unit),
    process_batch (mkBatchProcessor 1 (10 # 100) (5 # 1000) (2 # 100))
      (scenario.quiet tt scenario.store_pair) = (Ok (Some r), w') /\
    r_events_processed r = 1.
Proof.
  destruct (CalmFacts.process_batch_takes_what_fits unit
              (mkBatchProcessor 1 (10 # 100) (5 # 1000) (2 # 100))
              (scenario.quiet tt scenario.store_pair)
              (quiet_is_calm tt scenario.store_pair)
              pair_sizes_nonneg pair_unique_ids)
    as (r & w' & Hrun & Hiff & Hr).
  - cbn. discriminate.
  - cbn. discriminate.
  - destruct r as [r|].
    + exists r, w'. split; [exact Hrun|]. exact (proj1 Hr).
    + destruct (proj1 Hiff eq_refl) as [H|H]; discriminate H.
Defined.

(** X6, witness: the batch of one out of the two events of
    [store_pair]. *)
Lemma process_batch_accounts_for_its_events_witness :
  let p := mkBatchProcessor 1 (10 # 100) (5 # 1000) (2 # 100) in
  let w := scenario.quiet tt scenario.store_pair in
  Py.len (store.pending (db (snd (process_batch p w)))) = 2 - 1.
Proof.
  intros p w.
  assert (Hrun : process_batch p w =
                 (Ok (Some (mkResult 1 1 (2000 # 100) (90 # 100)
                                     (1050 # 10000) (1050 # 10000))),
                  snd (process_batch p w)))
    by (vm_compute; reflexivity).
  assert (Hp : 0 <= batch_size p) by (cbn; discriminate).
  assert (Hs : (0 <= PROCESSING_SPEED p)%Q) by (cbn; discriminate).
  exact (proj1 (proj2 (proj2
           (CalmFacts.process_batch_accounts_for_its_events unit p w _ _
              (quiet_is_calm tt scenario.store_pair)
              pair_sizes_nonneg pair_unique_ids Hp Hs Hrun)))).
Defined.

(** X7, witness: the worker of [plain_worker] over [store_pair], one
    iteration. *)
Lemma worker_drains_the_queue_witness :
  exists w' : world BackgroundWorker,
    while_is_running 1
      (scenario.quiet scenario.plain_worker scenario.store_pair) =
      (Ok Unfinished, w') /\
    store.pending (db w') = [].
Proof.
  destruct (DrainLoop.worker_drains_the_queue 1
              (scenario.quiet scenario.plain_worker scenario.store_pair)
              plain_worker_undisturbed eq_refl)
    as (w' & Hrun & _ & _ & _ & _ & _ & _ & Hnil).
  exists w'. split; [exact Hrun|]. apply Hnil. vm_compute. discriminate.
Defined.

End CalmRuns.

(* ===================================================================== *)
(** * A batch cut short by a failure of the store *)
(* ===================================================================== *)

Module InterruptFacts.
Import batch_processor WpRules.

(** A statement whose fate is known from the list of faults. *)
Ltac stmt :=
  apply wp_statement; wp_norm;
  [ let H := fresh in
    intros ? H; first [discriminate H | inversion H; subst; clear H]
  | let H := fresh in
    intros H; first [discriminate H | clear H] ].

Ltac to_first_statement :=
  unfold process_batch, fetch_unprocessed_events,
    db_glue.get_unprocessed_events;
  wp_steps; stmt.

Ltac to_second_statement Hneg Hc :=
  to_first_statement;
  unfold db_glue.select_unprocessed; wp_norm;
  rewrite Hneg, Hc;
  wp_steps; cbn beta iota;
  unfold calculate_batch_metrics; wp_steps;
  (apply wp_truediv;
   [intros Hz; elim (BatchFacts.len_cons_nonzero _ _ Hz)|intros _]);
  wp_steps; cbn [m_batch_size m_total_data_kb];
  unfold create_batch_record; wp_steps; stmt.

Ltac to_third_statement Hneg Hc Hdur :=
  to_second_statement Hneg Hc;
  unfold db_glue.insert_batch; wp_norm; wp_steps;
  unfold simulate_processing, random_uniform; wp_steps;
  (apply wp_time_sleep; wp_norm;
   [intros Hd; exfalso; apply (Qlt_not_le _ _ Hd); exact Hdur|intros _]);
  wp_steps; unfold calculate_cost; wp_step;
  rewrite (proj2 (Z.ltb_lt _ _) (BatchFacts.len_cons_pos _ _));
  (apply wp_truediv;
   [intros Hz; elim (BatchFacts.len_cons_nonzero _ _ Hz)|intros _]);
  wp_steps; unfold mark_events_as_processed; wp_steps; stmt.

Ltac to_fourth_statement Hneg Hc Hdur :=
  to_third_statement Hneg Hc Hdur;
  cbn [map db_glue.update_events_processed]; wp_norm; wp_steps;
  unfold update_batch_record; wp_steps; stmt.

Ltac to_fifth_statement Hneg Hc Hdur :=
  to_fourth_statement Hneg Hc Hdur;
  unfold db_glue.update_batch; wp_norm; wp_steps;
  unfold save_cost_metrics; wp_steps;
  rewrite (proj2 (Z.ltb_lt _ _) (BatchFacts.len_cons_pos _ _));
  (apply wp_truediv;
   [intros Hz; elim (BatchFacts.len_cons_nonzero _ _ Hz)|intros _]);
  wp_steps; stmt.

Lemma process_batch_interrupted {S} (p : BatchProcessor) (w : world S)
    (k : nat) (f : fault) (rest : list (option fault)) :
  (k <= 4)%nat ->
  faults w = repeat None k ++ Some f :: rest ->
  (k = 0%nat \/ run.claimed p w <> []) ->
  0 <= batch_size p ->
  (0 <= run.duration p w)%Q ->
  wp (process_batch p)
     (fun _ _ => False)
     (fun e w' =>
        e = exn_of_fault f /\ self w' = self w /\ faults w' = rest /\
        interrupted_at k p w w')
     w.
Proof.
  destruct w as [me [es bs cms seq] c out sl fs ot en dr].
  cbn [faults]. intros Hk Hfs Hclaimed Hsize Hdur. subst fs.
  assert (Hneg : (batch_size p <? 0) = false) by (apply Z.ltb_ge; lia).
  destruct k as [|k].
  { cbn [repeat app]. to_first_statement.
    repeat split; reflexivity. }
  destruct Hclaimed as [Hclaimed|Hclaimed]; [discriminate|].
  unfold run.duration, run.volume in Hdur.
  unfold run.claimed in Hclaimed, Hdur.
  cbn [db events entropy drawn] in Hclaimed, Hdur.
  destruct (firstn (Z.to_nat (batch_size p))
              (db_glue.order_by_timestamp (db_glue.unprocessed es)))
    as [|e0 evs] eqn:Hc; [contradiction|]. clear Hclaimed.
  destruct k as [|[|[|[|k]]]]; [| | | |lia];
    cbn [repeat app];
    unfold interrupted_at, run.events_after_sleep, run.cost, run.duration,
      run.volume, run.size, run.id, run.claimed;
    cbn [self db events batches cost_metrics batches_id_seq clock entropy
         drawn others turn_of_others];
    rewrite ?Hc.
  - to_second_statement Hneg Hc. repeat split; reflexivity.
  - to_third_statement Hneg Hc Hdur. repeat split; reflexivity.
  - to_fourth_statement Hneg Hc Hdur. repeat split; reflexivity.
  - to_fifth_statement Hneg Hc Hdur. repeat split; reflexivity.
Qed.

End InterruptFacts.

Module InterruptRuns.
Import batch_processor WpRules worker.

(** The run of a batch whose statement number [k] (from [0]) fails. *)
Lemma process_batch_interrupted_run {S} (p : BatchProcessor) (w : world S)
    (k : nat) (f : fault) (rest : list (option fault)) :
  (k <= 4)%nat ->
  faults w = repeat None k ++ Some f :: rest ->
  (k = 0%nat \/ store.pending (db w) <> [] /\ 0 < batch_size p) ->
  0 <= batch_size p ->
  store.sizes_nonneg (db w) ->
  (0 <= PROCESSING_SPEED p)%Q ->
  (0 <= entropy w (drawn w))%Q ->
  exists w' : world S,
    process_batch p w = (Raise (exn_of_fault f), w') /\
    self w' = self w /\
    faults w' = rest /\
    incl (others w') (others w) /\
    interrupted_at k p w w'.
Proof.
  intros Hk Hfs Hpending Hsize Hsizes Hspeed Hu.
  assert (Hclaimed : k = 0%nat \/ run.claimed p w <> []).
  { destruct Hpending as [->|(Hne & Hpos)]; [now left|right].
    intros E. apply (CalmFacts.claimed_nil p w Hsize) in E.
    destruct E as [E|E]; [contradiction|lia]. }
  pose proof (CalmFacts.duration_nonneg p w Hsizes Hspeed Hu) as Hdur.
  pose proof (InterruptFacts.process_batch_interrupted
                p w k f rest Hk Hfs Hclaimed Hsize Hdur) as Hwp.
  pose proof (SteadyFacts.process_batch_steady p w) as (_ & Ho & _).
  unfold wp in Hwp.
  destruct (process_batch p w) as [[r|e] w']; [contradiction|].
  destruct Hwp as (-> & Hself & Hrest & Hint).
  exists w'. cbn [snd] in Ho. auto.
Qed.

(** X8. [process_batch] is not one transaction.  When the store fails at
    the statement number [k] of a batch (the query is number [0], the
    [INSERT] of the batch row number [1], the [UPDATE] of the events
    number [2], the [UPDATE] of the batch row number [3], the [INSERT] of
    the cost metrics number [4]), [process_batch] raises the failure and
    the store keeps what the earlier statements wrote: from [k = 2] on the
    row of the batch, in status "processing" unless statement [3] has
    run, and from [k = 3] on the events marked.  When
    the marking did not run and nobody else writes, the events claimed are
    pending as before. *)
Theorem store_failure_cuts_the_batch_short
    (S : Type) (p : BatchProcessor) (w : world S)
    (k : nat) (f : fault) (rest : list (option fault))
    (Hk : (k <= 4)%nat)
    (Hfaults : faults w = repeat None k ++ Some f :: rest)
    (Hpending : store.pending (db w) <> [])
    (Hsize : 0 < batch_size p)
    (Hsizes : store.sizes_nonneg (db w))
    (Hspeed : (0 <= PROCESSING_SPEED p)%Q)
    (Hu : (0 <= entropy w (drawn w))%Q) :
  exists w' : world S,
    process_batch p w = (Raise (exn_of_fault f), w') /\
    self w' = self w /\
    faults w' = rest /\
    interrupted_at k p w w' /\
    ((2 <= k)%nat ->
     exists b : batch,
       In b (batches (db w')) /\ b_id b = run.id w /\
       b_batch_size b = run.size p w /\
       b_status b = (if (k <=? 3)%nat then "processing" else "completed")
         %string) /\
    ((k <= 2)%nat -> others w = [] ->
     store.pending (db w') = store.pending (db w) /\
     run.claimed p w' = run.claimed p w).
Proof.
  assert (Hsize' : 0 <= batch_size p) by lia.
  destruct (process_batch_interrupted_run p w k f rest Hk Hfaults
              (or_intror (conj Hpending Hsize)) Hsize' Hsizes Hspeed Hu)
    as (w' & Hrun & Hself & Hrest & _ & Hint).
  exists w'.
  split; [exact Hrun|]. split; [exact Hself|]. split; [exact Hrest|].
  split; [exact Hint|].
  destruct Hint as (_ & Hint). split.
  - intros H2.
    destruct k as [|[|[|[|k]]]]; try lia.
    + destruct Hint as (_ & Hb). eexists. split.
      * rewrite Hb. apply in_or_app. right. left. reflexivity.
      * cbn. auto.
    + destruct Hint as (_ & Hb). eexists. split.
      * rewrite Hb. apply in_or_app. right. left. reflexivity.
      * cbn. auto.
    + destruct Hint as (_ & Hb). eexists. split.
      * rewrite Hb, map_app. apply in_or_app. right. left. reflexivity.
      * unfold db_glue.finalize_row. cbn [b_id].
        rewrite Z.eqb_refl. cbn. auto.
  - intros H2 Ho.
    assert (Hev : events (db w') = events (db w)).
    { destruct k as [|[|[|k]]]; try lia.
      - now rewrite Hint.
      - now rewrite Hint.
      - destruct Hint as (Hev & _). rewrite Hev.
        unfold run.events_after_sleep, turn_of_others. now rewrite Ho. }
    unfold store.pending, run.claimed. now rewrite Hev.
Qed.

(** X8, witness: the [UPDATE] of the events fails over [store_pair]. *)
Lemma store_failure_cuts_the_batch_short_witness :
  exists w' : world unit,
    process_batch (mkBatchProcessor 50 (10 # 100) (5 # 1000) (2 # 100))
      (mkWorld tt scenario.store_pair 0 [] []
               [None; None; Some StoreFails] [] (fun _ => 1 # 2) O) =
      (Raise DatabaseError, w') /\
    store.pending (db w') = store.pending scenario.store_pair.
Proof.
  destruct (store_failure_cuts_the_batch_short unit
              (mkBatchProcessor 50 (10 # 100) (5 # 1000) (2 # 100))
              (mkWorld tt scenario.store_pair 0 [] []
                       [None; None; Some StoreFails] [] (fun _ => 1 # 2) O)
              2 StoreFails [])
    as (w' & Hrun & _ & _ & _ & _ & Hkept).
  - lia.
  - reflexivity.
  - vm_compute. discriminate.
  - reflexivity.
  - exact CalmRuns.pair_sizes_nonneg.
  - cbn. discriminate.
  - cbn. discriminate.
  - exists w'. split; [exact Hrun|].
    exact (proj1 (Hkept (le_n 2) eq_refl)).
Defined.

(** X9. A batch that the store cuts short is not counted.  When the
    store fails at the statement number [k] of the batch of an iteration
    of [BackgroundWorker], and nobody else writes, the iteration reports
    the error, sleeps for the interval and goes on to the next one; the
    counters of the worker are those from before, although for [k = 4]
    the store holds the batch as completed and its events as
    processed. *)
Theorem failed_batch_is_not_counted
    (w : world BackgroundWorker)
    (k : nat) (rest : list (option fault))
    (Hk : (k <= 4)%nat)
    (Hfaults : faults w = repeat None k ++ Some StoreFails :: rest)
    (Hothers : others w = [])
    (Hpending : store.pending (db w) <> [])
    (Hsize : 0 < batch_size (processor (self w)))
    (Hsizes : store.sizes_nonneg (db w))
    (Hspeed : (0 <= PROCESSING_SPEED (processor (self w)))%Q)
    (Hu : (0 <= entropy w (drawn w))%Q)
    (Hi : 0 <= interval_seconds (self w)) :
  exists w' : world BackgroundWorker,
    iteration w = (Ok Next, w') /\
    self w' = self w /\
    faults w' = rest /\
    interrupted_at k (processor (self w)) w w' /\
    (exists out,
        stdout w' =
          out ++ [ErrorInWorkerLoop DatabaseError;
                  RetryingIn (interval_seconds (self w))]) /\
    (exists sl,
        slept w' = sl ++ [inject_Z (interval_seconds (self w))]).
Proof.
  assert (Hsize' : 0 <= batch_size (processor (self w))) by lia.
  destruct (process_batch_interrupted_run (processor (self w)) w k
              StoreFails rest Hk Hfaults
              (or_intror (conj Hpending Hsize)) Hsize' Hsizes Hspeed Hu)
    as (w1 & Hrun & Hself & Hrest & Ho & Hint).
  rewrite Hothers in Ho. apply incl_l_nil in Ho.
  assert (Hwp :
    wp iteration
       (fun c w' =>
          c = Next /\ self w' = self w /\ faults w' = rest /\
          interrupted_at k (processor (self w)) w w' /\
          (exists out,
              stdout w' =
                out ++ [ErrorInWorkerLoop DatabaseError;
                        RetryingIn (interval_seconds (self w))]) /\
          (exists sl,
              slept w' = sl ++ [inject_Z (interval_seconds (self w))]))
       (fun _ _ => False) w).
  { unfold iteration, attempt.
    apply wp_try_except. apply wp_bind. apply wp_bind. apply wp_get_self.
    apply wp_bind. unfold wp at 1. rewrite Hrun.
    cbn [handler exn_of_fault is_Exception].
    unfold interrupted_at in *.
    destruct w1 as [me1 [es1 bs1 cms1 seq1] c1 out1 sl1 fs1 ot1 en1 dr1].
    cbn [self db faults others events batches cost_metrics] in *.
    subst me1 fs1 ot1.
    wp_steps. apply wp_time_sleep; wp_norm.
    - intros Hneg. unfold Qlt, inject_Z in Hneg.
      cbn [Qnum Qden] in Hneg. lia.
    - intros _. wp_steps.
      split; [reflexivity|]. split; [reflexivity|].
      split; [reflexivity|]. split; [exact Hint|].
      split; [exists (out1 ++ [])|exists sl1]; try reflexivity.
      now rewrite <- !app_assoc. }
  unfold wp in Hwp.
  destruct (iteration w) as [[c|e] w']; [|contradiction].
  destruct Hwp as (-> & Hrest'). now exists w'.
Qed.

(** X9, witness: the [INSERT] of the cost metrics fails for
    [plain_worker] over [store_pair]. *)
Lemma failed_batch_is_not_counted_witness :
  exists w' : world BackgroundWorker,
    iteration
      (mkWorld scenario.plain_worker scenario.store_pair 0 [] []
               [None; None; None; None; Some StoreFails] []
               (fun _ => 1 # 2) O) = (Ok Next, w') /\
    self w' = scenario.plain_worker.
Proof.
  destruct (failed_batch_is_not_counted
              (mkWorld scenario.plain_worker scenario.store_pair 0 [] []
                       [None; None; None; None; Some StoreFails] []
                       (fun _ => 1 # 2) O)
              4 [])
    as (w' & Hrun & Hself & _).
  - lia.
  - reflexivity.
  - reflexivity.
  - vm_compute. discriminate.
  - reflexivity.
  - exact CalmRuns.pair_sizes_nonneg.
  - cbn. discriminate.
  - cbn. discriminate.
  - cbn. discriminate.
  - exists w'. split; [exact Hrun|exact Hself].
Defined.

End InterruptRuns.

(* ===================================================================== *)
(** * The predictor and the model it consults *)
(* ===================================================================== *)

Module ModelFacts.
Import ml_model.

Lemma round_half_even_near (q : Q) :
  (inject_Z (Py.round_half_even q) - (1 # 2) <= q)%Q /\
  (q <= inject_Z (Py.round_half_even q) + (1 # 2))%Q.
Proof.
  unfold Py.round_half_even.
  pose proof (Qfloor_le q) as Hlo.
  pose proof (Qlt_floor q) as Hhi.
  rewrite inject_Z_plus in Hhi.
  set (f := Qfloor q) in *.
  assert (E1 : (inject_Z 1 == 1)%Q) by reflexivity.
  destruct (Qcompare_spec (q - inject_Z f) (1 # 2)) as [H|H|H].
  - destruct (Z.even f); [|rewrite inject_Z_plus]; split; lra.
  - split; lra.
  - rewrite inject_Z_plus. split; lra.
Qed.

Lemma round_half_even_mono (x y : Q) :
  (x <= y)%Q -> Py.round_half_even x <= Py.round_half_even y.
Proof.
  intros Hxy.
  destruct (Z_le_gt_dec (Py.round_half_even x) (Py.round_half_even y))
    as [H|H]; [exact H|exfalso].
  pose proof (round_half_even_near x) as (Hx & _).
  pose proof (round_half_even_near y) as (_ & Hy).
  assert (Hz : (inject_Z (Py.round_half_even y) + 1 <=
                inject_Z (Py.round_half_even x))%Q).
  { rewrite <- (inject_Z_plus _ 1). rewrite <- Zle_Qle. lia. }
  assert (E : (x == y)%Q) by lra.
  apply PyFacts.round_half_even_comp in E. lia.
Qed.

(** The size chosen from the prediction [x] of the model. *)
Lemma chosen_size_near (x : Q) :
  let n := Z.max 20 (Z.min 200 (Py.round_half_even (x / 10) * 10)) in
  ((x <= 20)%Q -> n = 20) /\
  ((200 <= x)%Q -> n = 200) /\
  ((20 <= x <= 200)%Q -> (x - 5 <= inject_Z n <= x + 5)%Q).
Proof.
  intros n. subst n.
  pose proof (round_half_even_near (x / 10)) as (Hlo & Hhi).
  set (r := Py.round_half_even (x / 10)) in *.
  assert (Hx : (x == 10 * (x / 10))%Q) by (field).
  split; [|split].
  - intros H.
    assert (Hr : (inject_Z r <= inject_Z 2 + (1 # 2))%Q).
    { change (inject_Z 2) with 2%Q. lra. }
    assert (r <= 2).
    { destruct (Z_le_gt_dec r 2) as [L|G]; [exact L|exfalso].
      assert (Hq : (inject_Z 3 <= inject_Z r)%Q)
        by (rewrite <- Zle_Qle; lia).
      change (inject_Z 2) with 2%Q in Hr.
      change (inject_Z 3) with 3%Q in Hq. lra. }
    lia.
  - intros H.
    assert (20 <= r).
    { destruct (Z_le_gt_dec 20 r) as [L|G]; [exact L|exfalso].
      assert (Hq : (inject_Z r <= inject_Z 19)%Q)
        by (rewrite <- Zle_Qle; lia).
      change (inject_Z 19) with 19%Q in Hq. lra. }
    lia.
  - intros (H1 & H2).
    assert (2 <= r).
    { destruct (Z_le_gt_dec 2 r) as [L|G]; [exact L|exfalso].
      assert (Hq : (inject_Z r <= inject_Z 1)%Q)
        by (rewrite <- Zle_Qle; lia).
      change (inject_Z 1) with 1%Q in Hq. lra. }
    assert (r <= 20).
    { destruct (Z_le_gt_dec r 20) as [L|G]; [exact L|exfalso].
      assert (Hq : (inject_Z 21 <= inject_Z r)%Q)
        by (rewrite <- Zle_Qle; lia).
      change (inject_Z 21) with 21%Q in Hq. lra. }
    rewrite Z.min_r, Z.max_r by lia.
    rewrite inject_Z_mult. change (inject_Z 10) with 10%Q. split; lra.
Qed.

(** X10. A trained optimizer follows its model: the size returned is the
    prediction of the model, on the five features in the order of the
    call and scaled, brought to the nearest multiple of 10 within
    [[20, 200]].  It is [20] for a prediction below [20], [200] for one
    above [200], within [5] of the prediction otherwise, and it does not
    decrease when the prediction grows.  The call changes nothing and
    prints nothing. *)
Theorem predict_optimal_batch_size_follows_the_model
    (S : Type) (self : BatchOptimizer)
    (total_data_kb avg_data_per_event : Q) (hour_of_day : Z)
    (last_processing_time last_cost_per_event : Q) (w : world S)
    (Htrained : is_trained self = true) :
  let x :=
    model_predict self
      (scaler_transform self
         [total_data_kb; avg_data_per_event; inject_Z hour_of_day;
          last_processing_time; last_cost_per_event]) in
  exists n : Z,
    predict_optimal_batch_size self total_data_kb avg_data_per_event
      hour_of_day last_processing_time last_cost_per_event w = (Ok n, w) /\
    ((x <= 20)%Q -> n = 20) /\
    ((200 <= x)%Q -> n = 200) /\
    ((20 <= x <= 200)%Q -> (x - 5 <= inject_Z n <= x + 5)%Q) /\
    forall (self' : BatchOptimizer) (a b : Q) (h : Z) (c d : Q)
           (v : world S) (n' : Z),
      is_trained self' = true ->
      (x <= model_predict self'
              (scaler_transform self' [a; b; inject_Z h; c; d]))%Q ->
      predict_optimal_batch_size self' a b h c d v = (Ok n', v) ->
      n <= n'.
Proof.
  intros x.
  unfold predict_optimal_batch_size. rewrite Htrained. cbn [negb].
  fold x. eexists. split; [reflexivity|].
  pose proof (chosen_size_near x) as (H1 & H2 & H3).
  split; [exact H1|]. split; [exact H2|]. split; [exact H3|].
  intros self' a b h c d v n' Ht Hle.
  rewrite Ht. cbn [negb]. unfold ret. intros E. inversion E as [En].
  assert (Hm : Py.round_half_even (x / 10) <=
               Py.round_half_even
                 (model_predict self'
                    (scaler_transform self' [a; b; inject_Z h; c; d]) / 10)).
  { apply round_half_even_mono.
    set (y := model_predict self' _) in *. 
    unfold Qdiv. apply Qmult_le_compat_r; [exact Hle|discriminate]. }
  lia.
Qed.

(** X10, witness: a model that predicts [87] for every context. *)
Lemma predict_optimal_batch_size_follows_the_model_witness :
  predict_optimal_batch_size
    (mkBatchOptimizer true (fun x => x) (fun _ => 87%Q))
    300 15 9 2 (7 # 1000) (scenario.quiet tt scenario.store_pair) =
  (Ok 90, scenario.quiet tt scenario.store_pair).
Proof.
  destruct (predict_optimal_batch_size_follows_the_model unit
              (mkBatchOptimizer true (fun x => x) (fun _ => 87%Q))
              300 15 9 2 (7 # 1000)
              (scenario.quiet tt scenario.store_pair) eq_refl)
    as (n & Hrun & _).
  rewrite Hrun. vm_compute in Hrun. inversion Hrun. reflexivity.
Defined.

End ModelFacts.

(* ===================================================================== *)
(** * The loop of [SmartBackGroundWorker] in a calm world *)
(* ===================================================================== *)

Module SmartFacts.
Import batch_processor ml_model optimized_worker WpRules.

Lemma batch_sizes_nonzero_completed (d : database) :
  batch_sizes_nonzero d -> sizes_nonzero d = true.
Proof.
  unfold batch_sizes_nonzero, sizes_nonzero. intros H.
  apply forallb_forall. intros b Hb.
  apply filter_In in Hb. destruct Hb as (Hb & _).
  rewrite Forall_forall in H. apply negb_true_iff, Z.eqb_neq. now apply H.
Qed.

Lemma finalize_row_size (id : Z) (t c u : Q) (s : string) (b : batch) :
  b_batch_size (db_glue.finalize_row id t c u s b) = b_batch_size b.
Proof.
  unfold db_glue.finalize_row. now destruct (b_id b =? id).
Qed.

Lemma completes_batch_sizes_nonzero {S} (p : BatchProcessor)
    (w w' : world S) (r : batch_result) :
  batch_sizes_nonzero (db w) -> run.completes p w r w' ->
  batch_sizes_nonzero (db w').
Proof.
  unfold batch_sizes_nonzero.
  intros H (Hne & _ & _ & _ & _ & _ & _ & Hb & _).
  rewrite Hb. apply Forall_map. apply Forall_app. split.
  - eapply Forall_impl; [|exact H].
    intros b Hnz. now rewrite finalize_row_size.
  - constructor; [|constructor].
    rewrite finalize_row_size. cbn [b_batch_size]. unfold run.size.
    destruct (run.claimed p w); [easy|].
    pose proof (BatchFacts.len_cons_pos e l). lia.
Qed.

(** The size chosen in a calm world: the store is read and not written,
    and the worker changes by its count of predictions alone. *)
Lemma get_smart_batch_size_calm (w : world SmartBackGroundWorker) :
  store.calm w ->
  batch_sizes_nonzero (db w) ->
  exists (n : Z) (w' : world SmartBackGroundWorker),
    get_smart_batch_size w = (Ok n, w') /\
    (20 <= n <= 200 /\ n mod 10 = 0) /\
    db w' = db w /\
    store.calm w' /\
    interval_seconds (self w') = interval_seconds (self w) /\
    is_running (self w') = is_running (self w) /\
    total_events_processed (stats (self w')) =
      total_events_processed (stats (self w)) /\
    total_batches_processed (stats (self w')) =
      total_batches_processed (stats (self w)).
Proof.
  intros Hcalm Hnz. apply batch_sizes_nonzero_completed in Hnz.
  apply wp_total.
  destruct w as [[i r t o m [a b c d e g]] [es bs cms seq] k out sl fs ot en dr].
  destruct Hcalm as (Hf & Ho & Hu). cbn [faults others entropy] in *.
  subst fs ot.
  unfold get_smart_batch_size.
  wp_step. apply wp_statement; wp_norm; [discriminate|intros _].
  unfold db_glue.count_unprocessed. wp_norm.
  destruct (Py.len (db_glue.unprocessed es) =? 0).
  { wp_steps. split; [split; [lia|reflexivity]|].
    split; [reflexivity|].
    split; [split; [reflexivity|split; [reflexivity|exact Hu]]|].
    repeat split. }
  wp_step. apply wp_statement; wp_norm; [discriminate|intros _].
  unfold db_glue.select_recent_batch. wp_norm.
  destruct (db_glue.greatest_id (filter db_glue.completed bs))
    as [b0|] eqn:Hb.
  2:{ wp_steps. split; [split; [lia|reflexivity]|].
      split; [reflexivity|].
      split; [split; [reflexivity|split; [reflexivity|exact Hu]]|].
      repeat split. }
  rewrite (SizingFacts.recent_batch_nonzero
             (mkDatabase es bs cms seq) b0 Hnz Hb).
  wp_step. apply wp_statement; wp_norm; [discriminate|intros _].
  unfold db_glue.select_unprocessed_stats. wp_norm.
  destruct (db_glue.unprocessed es) as [|e0 evs]; wp_norm; wp_steps;
    cbn [optimizer]; unfold predict_optimal_batch_size;
    (destruct (is_trained o); cbn [negb]; wp_steps;
     unfold store.calm; wp_norm;
     cbn [set_stats stats interval_seconds is_running
          total_events_processed total_batches_processed];
     (split; [first [apply PyFacts.clamp_multiple_of_10
                    | split; [lia|reflexivity]]|]);
     (split; [reflexivity|]);
     (split; [split; [reflexivity|split; [reflexivity|exact Hu]]|]);
     repeat split).
Qed.

(** One iteration: a batch of the size chosen, as far as events are
    pending, processed and counted. *)
Lemma smart_iteration_undisturbed (w : world SmartBackGroundWorker) :
  smart_undisturbed w ->
  exists (n : Z) (w' : world SmartBackGroundWorker),
    iteration w = (Ok Next, w') /\
    smart_undisturbed w' /\
    (20 <= n <= 200 /\ n mod 10 = 0) /\
    is_running (self w') = is_running (self w) /\
    Py.len (store.pending (db w')) =
      Py.len (store.pending (db w)) -
      Z.min n (Py.len (store.pending (db w))) /\
    total_events_processed (stats (self w')) =
      total_events_processed (stats (self w)) +
      Z.min n (Py.len (store.pending (db w))) /\
    total_batches_processed (stats (self w')) <=
      total_batches_processed (stats (self w)) + 1.
Proof.
  intros (Hcalm & Hsizes & Hids & Hnz & Hi).
  destruct (get_smart_batch_size_calm w Hcalm Hnz)
    as (n & w1 & Hg & Hrange & Hdb1 & Hcalm1 & Hi1 & Hr1 & He1 & Hb1).
  exists n.
  assert (Hwp :
    wp iteration
       (fun c w' =>
          c = Next /\ smart_undisturbed w' /\
          (20 <= n <= 200 /\ n mod 10 = 0) /\
          is_running (self w') = is_running (self w) /\
          Py.len (store.pending (db w')) =
            Py.len (store.pending (db w)) -
            Z.min n (Py.len (store.pending (db w))) /\
          total_events_processed (stats (self w')) =
            total_events_processed (stats (self w)) +
            Z.min n (Py.len (store.pending (db w))) /\
          total_batches_processed (stats (self w')) <=
            total_batches_processed (stats (self w)) + 1)
       (fun _ _ => False) w).
  { unfold iteration, attempt.
    apply wp_try_except. apply wp_bind. apply wp_bind.
    unfold wp at 1. rewrite Hg.
    destruct w1 as [[i1 r1 t1 o1 m1 [a1 b1 c1 d1 e1 g1]] d0 k1 out1 sl1
                    fs1 ot1 en1 dr1].
    cbn [self db interval_seconds is_running stats
         total_events_processed total_batches_processed] in *.
    subst d0 i1 r1 b1 a1.
    destruct Hcalm1 as (Hf1 & Ho1 & Hu1). cbn [faults others entropy] in *.
    subst fs1 ot1.
    unfold batch_processor.init, db_glue.Database. wp_steps.
    unfold log at 1 2. wp_norm.
    match goal with
    | |- wp (process_batch ?p) _ _ ?w2 =>
        destruct (CalmFacts.process_batch_calm p w2)
          as (r & w3 & Hrun & Hself & Hcalm3 & Hsizes3 & Hids3 & Hr);
        [ split; [reflexivity|split; [reflexivity|exact Hu1]]
        | exact Hsizes | exact Hids | cbn [batch_size]; lia
        | cbn [PROCESSING_SPEED]; discriminate | ];
        pose proof (CalmFacts.claimed_size p w2) as Hsize;
        pose proof (fun r => completes_batch_sizes_nonzero p w2 w3 r Hnz)
          as Hnz3
    end.
    cbn [batch_size db] in Hsize. specialize (Hsize ltac:(lia)).
    cbn [db] in Hr.
    unfold wp at 1. rewrite Hrun. clear Hrun Hg.
    destruct w3 as [me3 d3 k3 out3 sl3 fs3 ot3 en3 dr3].
    cbn [self db] in *. subst me3.
    destruct Hcalm3 as (Hf3 & Ho3 & Hu3). cbn [faults others entropy] in *.
    subst fs3 ot3.
    assert (Hundis : forall me2 k2 out2 sl2,
              batch_sizes_nonzero d3 ->
              interval_seconds me2 = interval_seconds (self w) ->
              smart_undisturbed
                (mkWorld me2 (set_events (events d3) d3) k2 out2 sl2
                         [] [] en3 dr3)).
    { intros me2 k2 out2 sl2 Hnz2 Hi2.
      unfold smart_undisturbed, store.calm, store.sizes_nonneg,
        store.unique_ids, batch_sizes_nonzero.
      cbn [self db faults others entropy set_events events batches].
      rewrite Hi2. repeat split; auto; apply Hu3. }
    assert (Hev : forall d : database,
              store.pending (set_events (events d) d) = store.pending d)
      by reflexivity.
    destruct r as [r|].
    - destruct Hr as (Hcomp & _ & Hpend).
      specialize (Hnz3 r Hcomp).
      destruct Hcomp as (Hne & Heq & _). subst r.
      unfold record_batch. wp_steps.
      cbn [set_stats stats total_batches_processed total_events_processed
           total_cost started_at last_batch_at interval_seconds
           is_running thread r_events_processed r_cost].
      wp_steps. apply wp_time_sleep; wp_norm.
      + intros Hneg. unfold Qlt, inject_Z in Hneg.
        cbn [Qnum Qden] in Hneg. lia.
      + intros _. wp_steps.
        cbn [set_stats stats total_batches_processed total_events_processed
             total_cost started_at last_batch_at interval_seconds
             is_running thread].
        split; [reflexivity|]. split.
        { apply Hundis; [exact Hnz3|reflexivity]. }
        rewrite Hev, Hpend, Hsize.
        split; [exact Hrange|]. split; [reflexivity|].
        split; [reflexivity|]. split; [reflexivity|]. lia.
    - destruct Hr as (Hnil & Hdb).
      assert (Hzero : Z.min n (Py.len (store.pending (db w))) = 0).
      { rewrite <- Hsize. unfold run.size. now rewrite Hnil. }
      subst d3.
      wp_steps. cbn [interval_seconds]. apply wp_time_sleep; wp_norm.
      + intros Hneg. unfold Qlt, inject_Z in Hneg.
        cbn [Qnum Qden] in Hneg. lia.
      + intros _. wp_steps. split; [reflexivity|]. split.
        { apply Hundis; [exact Hnz|reflexivity]. }
        rewrite Hev, Hzero.
        cbn [stats total_batches_processed total_events_processed
             is_running].
        split; [exact Hrange|]. split; [reflexivity|].
        split; [lia|]. split; [lia|]. lia. }
  unfold wp in Hwp.
  destruct (iteration w) as [[c|e] w']; [|contradiction].
  destruct Hwp as (-> & Hrest). now exists w'.
Qed.

End SmartFacts.

Module SmartLoop.
Import batch_processor optimized_worker.

(** X11. A running [SmartBackGroundWorker] in a calm world, whatever
    its model predicts, left alone for [k] iterations of its loop: the
    loop is still running and no iteration has raised; each iteration has
    taken a batch of a size between [20] and [200], so that the queue has
    shrunk by at least [20] and at most [200] events per iteration until
    it is empty; and every event that left the queue is counted once in
    [total_events_processed]. *)
Theorem smart_worker_drains_the_queue
    (k : nat) (w : world SmartBackGroundWorker)
    (Hw : smart_undisturbed w)
    (Hrunning : is_running (self w) = true) :
  exists w' : world SmartBackGroundWorker,
    while_is_running k w = (Ok Unfinished, w') /\
    smart_undisturbed w' /\
    is_running (self w') = true /\
    Py.len (store.pending (db w')) <=
      Z.max 0 (Py.len (store.pending (db w)) - 20 * Z.of_nat k) /\
    Py.len (store.pending (db w)) - 200 * Z.of_nat k <=
      Py.len (store.pending (db w')) /\
    total_events_processed (stats (self w')) +
      Py.len (store.pending (db w')) =
    total_events_processed (stats (self w)) +
      Py.len (store.pending (db w)) /\
    total_batches_processed (stats (self w')) <=
      total_batches_processed (stats (self w)) + Z.of_nat k /\
    (Py.len (store.pending (db w)) <= 20 * Z.of_nat k ->
     store.pending (db w') = []).
Proof.
  assert (Hlen : forall v : world SmartBackGroundWorker,
             0 <= Py.len (store.pending (db v))).
  { intros v. unfold Py.len. lia. }
  assert (Hmain : exists w' : world SmartBackGroundWorker,
    while_is_running k w = (Ok Unfinished, w') /\
    smart_undisturbed w' /\
    is_running (self w') = true /\
    Py.len (store.pending (db w')) <=
      Z.max 0 (Py.len (store.pending (db w)) - 20 * Z.of_nat k) /\
    Py.len (store.pending (db w)) - 200 * Z.of_nat k <=
      Py.len (store.pending (db w')) /\
    total_events_processed (stats (self w')) +
      Py.len (store.pending (db w')) =
    total_events_processed (stats (self w)) +
      Py.len (store.pending (db w)) /\
    total_batches_processed (stats (self w')) <=
      total_batches_processed (stats (self w)) + Z.of_nat k).
  { revert w Hw Hrunning.
    induction k as [|k IH]; intros w Hw Hrunning.
    - exists w. cbn [while_is_running]. unfold ret.
      pose proof (Hlen w).
      split; [reflexivity|]. split; [exact Hw|]. split; [exact Hrunning|].
      cbn [Z.of_nat]. lia.
    - destruct (SmartFacts.smart_iteration_undisturbed w Hw)
        as (n & w1 & Hit & Hw1 & (Hn & _) & Hr1 & Hpend1 & Hev1 & Hb1).
      rewrite Hrunning in Hr1.
      destruct (IH w1 Hw1 Hr1)
        as (w2 & Hloop & Hw2 & Hr2 & Hup2 & Hlo2 & Hev2 & Hb2).
      exists w2.
      cbn [while_is_running]. unfold bind at 1, get_self at 1.
      rewrite Hrunning. unfold bind at 1. rewrite Hit, Hloop.
      split; [reflexivity|]. split; [exact Hw2|]. split; [exact Hr2|].
      pose proof (Hlen w). pose proof (Hlen w1). pose proof (Hlen w2).
      rewrite Nat2Z.inj_succ. lia. }
  destruct Hmain as (w' & Hloop & Hw' & Hr' & Hup & Hlo & Hev & Hb).
  exists w'.
  split; [exact Hloop|]. split; [exact Hw'|]. split; [exact Hr'|].
  split; [exact Hup|]. split; [exact Hlo|]. split; [exact Hev|].
  split; [exact Hb|].
  intros Hle. pose proof (Hlen w').
  assert (Hz : Py.len (store.pending (db w')) = 0) by lia.
  unfold Py.len in Hz. destruct (store.pending (db w')); [reflexivity|].
  cbn [List.length] in Hz. lia.
Qed.

(** X11, witness: [cold_worker] over [store_pair], one iteration. *)
Lemma smart_worker_drains_the_queue_witness :
  exists w' : world SmartBackGroundWorker,
    while_is_running 1
      (scenario.quiet scenario.cold_worker scenario.store_pair) =
      (Ok Unfinished, w') /\
    store.pending (db w') = [].
Proof.
  destruct (smart_worker_drains_the_queue 1
              (scenario.quiet scenario.cold_worker scenario.store_pair))
    as (w' & Hrun & _ & _ & _ & _ & _ & _ & Hnil).
  - split; [apply CalmRuns.quiet_is_calm|].
    split; [apply CalmRuns.pair_sizes_nonneg|].
    split; [apply CalmRuns.pair_unique_ids|].
    split; [constructor|]. cbn. discriminate.
  - reflexivity.
  - exists w'. split; [exact Hrun|]. apply Hnil. vm_compute. discriminate.
Defined.

End SmartLoop.

(* ===================================================================== *)
(** * The cost of a batch and its size *)
(* ===================================================================== *)

Module ScaleFacts.
Import batch_processor.

Lemma round_ndigits_mono (x y : Q) (n : nat) :
  (x <= y)%Q -> (Py.round_ndigits x n <= Py.round_ndigits y n)%Q.
Proof.
  intros H. unfold Py.round_ndigits, Qle. cbn [Qnum Qden].
  apply Z.mul_le_mono_nonneg_r; [lia|].
  apply ModelFacts.round_half_even_mono.
  apply Qmult_le_compat_r; [exact H|].
  unfold Qle, inject_Z. cbn [Qnum Qden].
  pose proof (Z.pow_nonneg 10 (Z.of_nat n)). lia.
Qed.

Lemma calculate_cost_run {S} (self : BatchProcessor) (s : Z) (t : Q)
    (w : world S) :
  0 < s ->
  calculate_cost self s t w =
  (Ok (Py.round_ndigits
         (FIXED_COST self + VARIABLE_COST_PER_EVENT self * inject_Z s) 4),
   log (BatchCost
          (FIXED_COST self + VARIABLE_COST_PER_EVENT self * inject_Z s)
          ((FIXED_COST self + VARIABLE_COST_PER_EVENT self * inject_Z s) /
           inject_Z s)) w).
Proof.
  intros Hs. unfold calculate_cost, truediv, bind.
  rewrite (proj2 (Z.ltb_lt _ _) Hs).
  rewrite CostFacts.inject_Z_nonzero by lia. reflexivity.
Qed.

(** X12. Larger batches cost more and cost less per event.  For a
    processor whose two rates are not negative and two sizes
    [0 < n <= m]: [calculate_cost] returns, changes nothing but the
    output, returns for [m] at least what it returns for [n], and prints
    for [m] a cost per event that is at most the one it prints for [n].
    One batch of [n + m] events costs less than a batch of [n] and a batch
    of [m] by the fixed cost. *)
Theorem calculate_cost_scales
    (S : Type) (self : BatchProcessor) (n m : Z) (t1 t2 : Q) (w : world S)
    (Hfixed : (0 <= FIXED_COST self)%Q)
    (Hvariable : (0 <= VARIABLE_COST_PER_EVENT self)%Q)
    (Hn : 0 < n) (Hm : n <= m) :
  exists (cn cm pn pm tn tm : Q),
    calculate_cost self n t1 w = (Ok cn, log (BatchCost tn pn) w) /\
    calculate_cost self m t2 w = (Ok cm, log (BatchCost tm pm) w) /\
    (cn <= cm)%Q /\
    (pm <= pn)%Q /\
    (pn == tn / inject_Z n)%Q /\
    (pm == tm / inject_Z m)%Q /\
    cn = Py.round_ndigits tn 4 /\
    cm = Py.round_ndigits tm 4 /\
    exists tnm pnm : Q,
      snd (calculate_cost self (n + m) t1 w) =
        log (BatchCost tnm pnm) w /\
      (tnm + FIXED_COST self == tn + tm)%Q.
Proof.
  set (F := FIXED_COST self) in *.
  set (V := VARIABLE_COST_PER_EVENT self) in *.
  exists (Py.round_ndigits (F + V * inject_Z n) 4),
         (Py.round_ndigits (F + V * inject_Z m) 4),
         ((F + V * inject_Z n) / inject_Z n)%Q,
         ((F + V * inject_Z m) / inject_Z m)%Q,
         (F + V * inject_Z n)%Q, (F + V * inject_Z m)%Q.
  assert (Hnq : (0 < inject_Z n)%Q).
  { unfold Qlt, inject_Z. cbn [Qnum Qden]. lia. }
  assert (Hmq : (inject_Z n <= inject_Z m)%Q) by (now rewrite <- Zle_Qle).
  assert (Hmq' : (0 < inject_Z m)%Q) by (eapply Qlt_le_trans; eauto).
  split; [apply calculate_cost_run; exact Hn|].
  split; [apply calculate_cost_run; lia|].
  split.
  { apply round_ndigits_mono.
    assert ((V * inject_Z n <= V * inject_Z m)%Q).
    { rewrite !(Qmult_comm V). now apply Qmult_le_compat_r. }
    lra. }
  split.
  { assert (E1 : ((F + V * inject_Z n) / inject_Z n ==
                  F / inject_Z n + V)%Q) by (field; lra).
    assert (E2 : ((F + V * inject_Z m) / inject_Z m ==
                  F / inject_Z m + V)%Q) by (field; lra).
    rewrite E1, E2.
    assert (F / inject_Z m <= F / inject_Z n)%Q; [|lra].
    unfold Qdiv. rewrite !(Qmult_comm F).
    apply Qmult_le_compat_r; [|exact Hfixed].
    apply Qle_shift_inv_l; [exact Hnq|].
    rewrite Qmult_comm. apply Qle_shift_div_r; [exact Hmq'|].
    lra. }
  split; [reflexivity|]. split; [reflexivity|].
  split; [reflexivity|]. split; [reflexivity|].
  exists (F + V * inject_Z (n + m))%Q,
         ((F + V * inject_Z (n + m)) / inject_Z (n + m))%Q.
  split.
  - rewrite calculate_cost_run by lia. reflexivity.
  - rewrite inject_Z_plus. ring.
Qed.

(** X12, witness: the rates of [BatchProcessor], 20 and 50 events. *)
Lemma calculate_cost_scales_witness :
  exists (c20 c50 : Q),
    fst (calculate_cost (mkBatchProcessor 50 (10 # 100) (5 # 1000) (2 # 100))
           20 1 (scenario.quiet tt scenario.store_pair)) = Ok c20 /\
    fst (calculate_cost (mkBatchProcessor 50 (10 # 100) (5 # 1000) (2 # 100))
           50 1 (scenario.quiet tt scenario.store_pair)) = Ok c50 /\
    (c20 <= c50)%Q.
Proof.
  destruct (calculate_cost_scales unit
              (mkBatchProcessor 50 (10 # 100) (5 # 1000) (2 # 100))
              20 50 1 1 (scenario.quiet tt scenario.store_pair))
    as (cn & cm & pn & pm & tn & tm & Hn & Hm & Hle & _).
  - cbn. discriminate.
  - cbn. discriminate.
  - lia.
  - lia.
  - exists cn, cm. rewrite Hn, Hm. cbn [fst]. auto.
Defined.

End ScaleFacts.

(* ===================================================================== *)
(** * Inserting events *)
(* ===================================================================== *)

Module InsertFacts.
Import db_glue_insert WpRules.

Lemma known_In (k : string) (es : list event) :
  known k es = true <-> In k (map ev_event_id es).
Proof.
  unfold known. rewrite existsb_exists, in_map_iff. split.
  - intros (e & He & Hk). exists e. apply String.eqb_eq in Hk. auto.
  - intros (e & Hk & He). exists e. split; [exact He|].
    now apply String.eqb_eq.
Qed.

Lemma below_next_id (es : list event) (e : event) :
  In e es -> ev_id e < next_id es.
Proof.
  unfold next_id. induction es as [|x r IH]; cbn [map fold_right In].
  - contradiction.
  - intros [->|H]; [lia|]. specialize (IH H). lia.
Qed.

Lemma next_id_fresh (es : list event) : ~ In (next_id es) (map ev_id es).
Proof.
  intros H. apply in_map_iff in H. destruct H as (e & He & Hin).
  apply below_next_id in Hin. lia.
Qed.

Lemma NoDup_snoc {A} (l : list A) (a : A) :
  NoDup l -> ~ In a l -> NoDup (l ++ [a]).
Proof.
  intros Hl Ha. apply NoDup_app; [exact Hl|repeat constructor; easy|].
  intros x Hx [<-|[]]. contradiction.
Qed.

(** X13. [insert_event] keeps [event_id] unique and is idempotent.  When
    the store answers: an event whose [event_id] the table knows is
    dropped, [None] is returned and the store is as before; any other
    event is appended as a row that is pending, owned by no batch and
    carries the fields of the dict, and the key of the row is returned.
    The keys and the [event_id]s of the table stay distinct, the other two
    tables are not touched, and inserting the same event once more
    changes nothing. *)
Theorem insert_event_is_idempotent
    (S : Type) (x : event_data) (w : world S)
    (Hanswers : hd None (faults w) = None)
    (Hids : store.unique_ids (db w))
    (Hevent_ids : store.unique_event_ids (db w)) :
  exists (r : option Z) (w' : world S),
    insert_event x w = (Ok r, w') /\
    self w' = self w /\ stdout w' = stdout w /\
    batches (db w') = batches (db w) /\
    cost_metrics (db w') = cost_metrics (db w) /\
    store.unique_ids (db w') /\
    store.unique_event_ids (db w') /\
    (r = None <-> In (d_event_id x) (map ev_event_id (events (db w)))) /\
    match r with
    | None => db w' = db w
    | Some id =>
        let e := mkEvent id (d_event_id x) (d_timestamp x) (d_event_type x)
                         (d_data_size_kb x) (d_priority x) false None in
        events (db w') = events (db w) ++ [e] /\
        store.pending (db w') = store.pending (db w) ++ [e]
    end /\
    forall (o : outcome (option Z)) (w'' : world S),
      hd None (faults w') = None ->
      insert_event x w' = (o, w'') ->
      o = Ok None /\ db w'' = db w'.
Proof.
  destruct w as [me [es bs cms seq] c out sl fs ot en dr].
  unfold store.unique_ids, store.unique_event_ids, store.pending in *.
  cbn [db faults events] in *.
  assert (Hagain : forall (w1 : world S)
                          (o : outcome (option Z)) (w2 : world S),
             In (d_event_id x) (map ev_event_id (events (db w1))) ->
             hd None (faults w1) = None ->
             insert_event x w1 = (o, w2) ->
             o = Ok None /\ db w2 = db w1).
  { intros w1 o w2 Hin Hf.
    unfold insert_event, bind, statement, insert_row.
    rewrite Hf. apply known_In in Hin. rewrite Hin.
    destruct w1 as [me1 [es1 bs1 cms1 seq1] c1 out1 sl1 fs1 ot1 en1 dr1].
    cbn. intros E. inversion E. split; reflexivity. }
  unfold insert_event, bind, statement, insert_row.
  cbn [faults db events]. rewrite Hanswers.
  destruct (known (d_event_id x) es) eqn:Hk.
  - exists None. eexists. split; [reflexivity|].
    cbn [self stdout db set_db struck events batches cost_metrics].
    apply known_In in Hk.
    split; [reflexivity|]. split; [reflexivity|]. split; [reflexivity|].
    split; [reflexivity|]. split; [exact Hids|]. split; [exact Hevent_ids|].
    split; [split; [intros _; exact Hk|reflexivity]|].
    split; [reflexivity|].
    intros o w'' Hf. apply Hagain; [exact Hk|exact Hf].
  - exists (Some (next_id es)). eexists. split; [reflexivity|].
    cbn [self stdout db set_db struck events batches cost_metrics
         set_events].
    assert (Hnew : ~ In (d_event_id x) (map ev_event_id es)).
    { intros H. apply known_In in H. congruence. }
    split; [reflexivity|]. split; [reflexivity|]. split; [reflexivity|].
    split; [reflexivity|].
    split.
    { rewrite map_app. apply NoDup_snoc; [exact Hids|].
      apply next_id_fresh. }
    split.
    { rewrite map_app. apply NoDup_snoc; [exact Hevent_ids|exact Hnew]. }
    split; [split; [discriminate|contradiction]|].
    split.
    { split; [reflexivity|]. unfold db_glue.unprocessed.
      rewrite filter_app. reflexivity. }
    intros o w'' Hf. apply Hagain; [|exact Hf].
    cbn [db events set_db set_events]. rewrite map_app.
    apply in_or_app. right. left. reflexivity.
Qed.

(** X13, witness: a second event for a table of one event. *)
Lemma insert_event_is_idempotent_witness :
  exists w' : world unit,
    insert_event (mkEventData "new" 3 "order" 20 "low")
      (scenario.quiet tt
         (mkDatabase [scenario.pending 1 20] [] [] 1)) = (Ok (Some 2), w') /\
    List.length (store.pending (db w')) = 2%nat.
Proof.
  destruct (insert_event_is_idempotent unit
              (mkEventData "new" 3 "order" 20 "low")
              (scenario.quiet tt
                 (mkDatabase [scenario.pending 1 20] [] [] 1)) eq_refl)
    as (r & w' & Hrun & _ & _ & _ & _ & _ & _ & _ & Hr & _).
  - repeat constructor. cbn. tauto.
  - repeat constructor. cbn. tauto.
  - exists w'. vm_compute in Hrun. inversion Hrun; subst r w'.
    split; reflexivity.
Defined.

End InsertFacts.

(* ===================================================================== *)
(** * Calls of [start] and [stop] in any order *)
(* ===================================================================== *)

Module CallFacts.
Import worker lifecycle.

Lemma flag_after_cons (b : bool) (c : call) (cs : list call) :
  flag_after b (c :: cs) = flag_after (flag_of c) cs.
Proof.
  unfold flag_after. cbn [rev].
  destruct (rev cs) as [|d r]; [now destruct c|reflexivity].
Qed.

Lemma threads_started_cons (b : bool) (c : call) (cs : list call) :
  threads_started b (c :: cs) =
  ((if flag_of c && negb b then 1 else 0) +
   threads_started (flag_of c) cs)%nat.
Proof. now destruct c, b. Qed.

Lemma iter_new_thread (n m : nat) (t : option nat) :
  Nat.iter (n + m) new_thread t = Nat.iter m new_thread (Nat.iter n new_thread t).
Proof.
  rewrite Nat.add_comm. induction m as [|m IH]; [reflexivity|].
  cbn [Nat.add Nat.iter nat_rect]. unfold Nat.iter in IH. now rewrite IH.
Qed.

(** ** The loop assigns neither flag, thread, processor nor interval *)

Lemma safe_keeps {S K A} (key : S -> K) (m : M S A) (w : world S) :
  safe key m -> key (self (snd (m w))) = key (self w).
Proof.
  intros H. specialize (H w). unfold wp in H.
  destruct (m w) as [[a|e] w']; cbn [snd]; tauto.
Qed.

Lemma attempt_frame : safe frame worker.attempt.
Proof.
  unfold worker.attempt, worker.record_batch.
  repeat first [apply SafeFacts.process_batch_safe
               | apply SafeFacts.safe_modify_self; intros []; reflexivity
               | SafeFacts.safe_step].
Qed.

Lemma handler_frame (e : exn) (h : M BackgroundWorker control) :
  worker.handler e = Some h -> safe frame h.
Proof.
  destruct e; cbn [worker.handler is_Exception]; intros E;
    inversion E; subst h; repeat SafeFacts.safe_step.
Qed.

Lemma iteration_frame (w : world BackgroundWorker) :
  frame (self (snd (worker.iteration w))) = frame (self w).
Proof.
  pose proof (safe_keeps frame worker.attempt w attempt_frame) as Hbody.
  unfold worker.iteration, try_except, bind at 1.
  destruct (worker.attempt w) as [[[]|e] w1]; cbn [snd] in *.
  - exact Hbody.
  - destruct (worker.handler e) as [h|] eqn:Hh; [|exact Hbody].
    rewrite (safe_keeps frame h w1 (handler_frame e h Hh)). exact Hbody.
Qed.

Lemma while_frame (fuel : nat) (w : world BackgroundWorker) :
  frame (self (snd (worker.while_is_running fuel w))) = frame (self w).
Proof.
  revert w. induction fuel as [|fuel IH]; intros w;
    cbn [worker.while_is_running]; [reflexivity|].
  unfold bind at 1, get_self.
  destruct (is_running (self w)); [|reflexivity].
  pose proof (iteration_frame w) as Hit.
  unfold bind at 1.
  destruct (worker.iteration w) as [[[|]|e] w1]; cbn [snd] in *.
  - now rewrite IH.
  - exact Hit.
  - exact Hit.
Qed.

Lemma prologue_frame : safe frame worker.prologue.
Proof.
  unfold worker.prologue.
  repeat first [apply SafeFacts.safe_modify_self; intros []; reflexivity
               | SafeFacts.safe_step].
Qed.

Lemma epilogue_frame : safe frame worker.epilogue.
Proof. unfold worker.epilogue. repeat SafeFacts.safe_step. Qed.

(** [_worker_loop], however long it runs and whatever it meets, leaves
    the flag, the thread, the processor and the interval of its worker
    alone. *)
Lemma worker_loop_frame (fuel : nat) (w : world BackgroundWorker) :
  frame (self (snd (worker._worker_loop fuel w))) = frame (self w).
Proof.
  pose proof (safe_keeps frame worker.prologue w prologue_frame) as Hp.
  unfold worker._worker_loop. unfold bind at 1.
  destruct (worker.prologue w) as [[[]|e] w0]; cbn [snd] in *;
    [|exact Hp].
  pose proof (while_frame fuel w0) as Hw.
  unfold bind at 1.
  destruct (worker.while_is_running fuel w0) as [[[|]|e] w1];
    cbn [snd] in *.
  - rewrite (safe_keeps frame _ w1
               (SafeFacts.safe_bind frame _ _ epilogue_frame
                  (fun _ => SafeFacts.safe_ret frame Finished))).
    congruence.
  - unfold ret. cbn [snd]. congruence.
  - congruence.
Qed.

(** ** The calls *)

Section Threads.
Variable meanwhile : world BackgroundWorker -> world BackgroundWorker.
Hypothesis meanwhile_frame :
  forall w, frame (self (meanwhile w)) = frame (self w).

(** What a call, and the time before it, leave of the worker. *)
Lemma call_run (c : call) (w : world BackgroundWorker) :
  exists w' : world BackgroundWorker,
    (elapse meanwhile ;; call_of meanwhile c) w = (Ok tt, w') /\
    is_running (self w') = flag_of c /\
    thread (self w') =
      (if flag_of c && negb (is_running (self w))
       then new_thread (thread (self w)) else thread (self w)) /\
    processor (self w') = processor (self w) /\
    interval_seconds (self w') = interval_seconds (self w).
Proof.
  unfold bind at 1, elapse at 1.
  pose proof (meanwhile_frame w) as H0.
  unfold frame in H0. injection H0 as Hp Hi Hr Ht.
  rewrite <- Hp, <- Hi, <- Hr, <- Ht. clear Hp Hi Hr Ht.
  destruct (meanwhile w) as [[p i r t st] d k out sl fs ot en dr].
  cbn [self processor interval_seconds is_running thread].
  destruct c, r; cbn [call_of flag_of andb negb].
  - eexists. split; [reflexivity|]. cbn. auto.
  - unfold start, bind, get_self, modify_self, print, elapse.
    cbn [self is_running set_self log].
    match goal with
    | |- context [meanwhile ?v] =>
        pose proof (meanwhile_frame v) as H1;
        destruct (meanwhile v) as [[p1 i1 r1 t1 st1] d1 k1 out1 sl1 fs1
                                   ot1 en1 dr1]
    end.
    unfold frame in H1. cbn in H1. inversion H1; subst.
    eexists. split; [reflexivity|]. cbn. auto.
  - unfold stop, bind, get_self, modify_self, print, elapse, ret.
    cbn [self is_running negb set_self log thread set_is_running].
    destruct t as [n|].
    + match goal with
      | |- context [meanwhile ?v] =>
          pose proof (meanwhile_frame v) as H1;
          destruct (meanwhile v) as [[p1 i1 r1 t1 st1] d1 k1 out1 sl1 fs1
                                     ot1 en1 dr1]
      end.
      unfold frame in H1. cbn in H1. inversion H1; subst.
      eexists. split; [reflexivity|]. cbn. auto.
    + eexists. split; [reflexivity|]. cbn. auto.
  - eexists. split; [reflexivity|]. cbn. auto.
Qed.

Lemma calls_cons (c : call) (cs : list call)
    (w w1 : world BackgroundWorker) :
  (elapse meanwhile ;; call_of meanwhile c) w = (Ok tt, w1) ->
  calls meanwhile (c :: cs) w = calls meanwhile cs w1.
Proof.
  cbn [calls]. unfold bind at 1 2 3, elapse.
  destruct (call_of meanwhile c (meanwhile w)) as [[[]|e] w0];
    intros E; inversion E; reflexivity.
Qed.

Lemma calls_app (cs ds : list call) (w w1 : world BackgroundWorker) :
  calls meanwhile cs w = (Ok tt, w1) ->
  calls meanwhile (cs ++ ds) w = calls meanwhile ds w1.
Proof.
  revert w. induction cs as [|c cs IH]; intros w.
  - cbn. unfold ret. intros E. now inversion E.
  - destruct (call_run c w) as (w0 & Hc & _).
    cbn [app]. rewrite !(calls_cons c _ w w0 Hc). apply IH.
Qed.

Lemma calls_run (cs : list call) (w : world BackgroundWorker) :
  exists w' : world BackgroundWorker,
    calls meanwhile cs w = (Ok tt, w') /\
    is_running (self w') = flag_after (is_running (self w)) cs /\
    thread (self w') =
      Nat.iter (threads_started (is_running (self w)) cs) new_thread
               (thread (self w)) /\
    processor (self w') = processor (self w) /\
    interval_seconds (self w') = interval_seconds (self w).
Proof.
  revert w. induction cs as [|c cs IH]; intros w.
  - exists w. cbn. unfold ret. repeat split; reflexivity.
  - destruct (call_run c w) as (w0 & Hc & Hr & Ht & Hp & Hi).
    destruct (IH w0) as (w' & Hcs & Hr' & Ht' & Hp' & Hi').
    exists w'. rewrite (calls_cons c cs w w0 Hc), flag_after_cons.
    rewrite threads_started_cons, iter_new_thread.
    rewrite <- Hr.
    split; [exact Hcs|]. split; [exact Hr'|].
    split.
    { rewrite Ht', Hr, Ht.
      now destruct (flag_of c && negb (is_running (self w))). }
    split; congruence.
Qed.

End Threads.

(** X14. [start] and [stop], called in any order and any number of
    times, whatever the loop threads, the clock and the other clients of
    the store do in the meantime (the loop assigns neither the flag, the
    thread, the processor nor the interval of the worker): the calls do
    not raise; the worker is running afterwards exactly when the last
    call was [start]; its processor and its interval are those from
    before; and a thread is created by a [start] that finds the flag
    unset and by no other call, so that a call repeated at once changes
    neither the flag nor the thread: a second [start] creates no second
    thread. *)
Theorem start_and_stop_in_any_order
    (meanwhile : world BackgroundWorker -> world BackgroundWorker)
    (Hloop : forall w, frame (self (meanwhile w)) = frame (self w))
    (cs : list call) (w : world BackgroundWorker) :
  exists w' : world BackgroundWorker,
    calls meanwhile cs w = (Ok tt, w') /\
    is_running (self w') = flag_after (is_running (self w)) cs /\
    thread (self w') =
      Nat.iter (threads_started (is_running (self w)) cs) new_thread
               (thread (self w)) /\
    processor (self w') = processor (self w) /\
    interval_seconds (self w') = interval_seconds (self w) /\
    forall c : call,
    exists w1 w2 : world BackgroundWorker,
      calls meanwhile (cs ++ [c]) w = (Ok tt, w1) /\
      calls meanwhile (cs ++ [c; c]) w = (Ok tt, w2) /\
      is_running (self w1) = flag_of c /\
      is_running (self w2) = flag_of c /\
      thread (self w2) = thread (self w1).
Proof.
  destruct (calls_run meanwhile Hloop cs w)
    as (w' & Hcs & Hr & Ht & Hp & Hi).
  exists w'. repeat (split; [assumption|]).
  intros c.
  destruct (call_run meanwhile Hloop c w')
    as (w1 & Hc1 & Hr1 & Ht1 & _).
  destruct (call_run meanwhile Hloop c w1)
    as (w2 & Hc2 & Hr2 & Ht2 & _).
  exists w1, w2.
  split.
  { rewrite (calls_app meanwhile Hloop cs [c] w w' Hcs).
    rewrite (calls_cons meanwhile c [] w' w1 Hc1). reflexivity. }
  split.
  { rewrite (calls_app meanwhile Hloop cs [c; c] w w' Hcs).
    rewrite (calls_cons meanwhile c [c] w' w1 Hc1).
    rewrite (calls_cons meanwhile c [] w1 w2 Hc2). reflexivity. }
  split; [exact Hr1|]. split; [exact Hr2|].
  rewrite Ht2, Hr1. now destruct (flag_of c).
Qed.

(** X14, witness: a new worker, started twice and stopped, while the
    loop thread runs [_worker_loop] for two iterations whenever it is let
    to: one thread was created, and the worker is stopped. *)
Lemma start_and_stop_in_any_order_witness :
  exists w' : world BackgroundWorker,
    calls (fun w => snd (worker._worker_loop 2 w)) [Start; Start; Stop]
      (scenario.quiet
         (mkWorker (batch_processor.mkBatchProcessor
                      50 (10 # 100) (5 # 1000) (2 # 100))
                   30 false None (mkStats 0 0 0 None None))
         scenario.store_pair) = (Ok tt, w') /\
    is_running (self w') = false /\
    thread (self w') = Some O.
Proof.
  destruct (start_and_stop_in_any_order
              (fun w => snd (worker._worker_loop 2 w))
              (worker_loop_frame 2)
              [Start; Start; Stop]
              (scenario.quiet
                 (mkWorker (batch_processor.mkBatchProcessor
                              50 (10 # 100) (5 # 1000) (2 # 100))
                           30 false None (mkStats 0 0 0 None None))
                 scenario.store_pair))
    as (w' & Hrun & Hr & Ht & _).
  exists w'. split; [exact Hrun|]. split; [exact Hr|exact Ht].
Defined.

End CallFacts.

(* ===================================================================== *)
(** * A partial update in step 6 *)
(* ===================================================================== *)

Module MismatchRuns.
Import batch_processor WpRules.



End MismatchRuns.
